(** * Server-sent-event decoding in the anthropic and openai chat clients

    A shallow embedding of [Client.Chat] and [Client.ChatStream] of the two
    chat packages (anthropic/client.go and the openai client), and the
    properties of their streaming loops.

    Conventions of the embedding.
    - A Go [[]byte] is a [list byte]; a Go [string] is a [string].
    - A Go [int] or [int64] is a [Z]; a [float32] is carried as its IEEE-754
      bit pattern (no arithmetic is ever done on it here).
    - A Go [error] value is an [error]; [nil] is [None].
    - The handler ([StreamCallback]) and the standard logger are effects:
      a call appends to the list of delivered events, a log line appends to
      the list of logged messages.
    - What the packages import ([encoding/json], [net/http]) is taken as a
      parameter, gathered in a record [Env] per package. *)

From Stdlib Require Import List String Ascii ZArith NArith Lia Bool DecimalString.
From Stdlib Require Import Strings.Byte.
Import ListNotations.

#[local] Open Scope string_scope.
#[local] Open Scope list_scope.

(* ================================================================= *)
(** ** Go values *)

Module Go.

Definition bytes := list byte.

(** The bytes of a string literal, [[]byte("...")]. *)
Definition B (s : string) : bytes := list_byte_of_string s.

(** [io.EOF] is a sentinel the code compares with [==]; every other error
    only matters through its message. *)
Inductive error : Type :=
| io_EOF
| errorString (msg : string)
| libError (pkg msg : string).

(** The [Error()] method. *)
Definition Error (e : error) : string :=
  match e with
  | io_EOF => "EOF"
  | errorString msg => msg
  | libError _ msg => msg
  end.

(** [err == io.EOF] *)
Definition is_EOF (e : error) : bool :=
  match e with
  | io_EOF => true
  | _ => false
  end.

(** A pair [(value, error)] of which exactly one side is meaningful. *)
Inductive result (A : Type) : Type :=
| Ok (a : A)
| Failed (e : error).

Arguments Ok {A} a.
Arguments Failed {A} e.

(** [http.StatusOK] *)
Definition StatusOK : Z := 200.

End Go.

Import Go.

(* ================================================================= *)
(** ** Package bytes *)

Module Bytes.

(** [bytes.HasPrefix] *)
Fixpoint HasPrefix (s prefix : bytes) : bool :=
  match prefix, s with
  | [], _ => true
  | _ :: _, [] => false
  | p :: prefix', b :: s' => Byte.eqb b p && HasPrefix s' prefix'
  end.

(** [bytes.TrimPrefix] *)
Definition TrimPrefix (s prefix : bytes) : bytes :=
  if HasPrefix s prefix then skipn (List.length prefix) s else s.

(** The table [asciiSpace]: tab, line feed, vertical tab, form feed,
    carriage return, space. *)
Definition asciiSpace (b : byte) : bool :=
  let c := Byte.to_N b in
  ((0x09 <=? c) && (c <=? 0x0d) || (c =? 0x20))%N.

(** [unicode.IsSpace] on the two-byte UTF-8 sequences: U+0085, U+00A0. *)
Definition isSpace2 (b1 b2 : byte) : bool :=
  let c1 := Byte.to_N b1 in
  let c2 := Byte.to_N b2 in
  ((c1 =? 0xc2) && ((c2 =? 0x85) || (c2 =? 0xa0)))%N.

(** [unicode.IsSpace] on the three-byte UTF-8 sequences: U+1680,
    U+2000..U+200A, U+2028, U+2029, U+202F, U+205F, U+3000. *)
Definition isSpace3 (b1 b2 b3 : byte) : bool :=
  let c1 := Byte.to_N b1 in
  let c2 := Byte.to_N b2 in
  let c3 := Byte.to_N b3 in
  ((c1 =? 0xe1) && (c2 =? 0x9a) && (c3 =? 0x80)
   || (c1 =? 0xe2) && (c2 =? 0x80)
      && ((0x80 <=? c3) && (c3 <=? 0x8a) || (c3 =? 0xa8) || (c3 =? 0xa9) || (c3 =? 0xaf))
   || (c1 =? 0xe2) && (c2 =? 0x81) && (c3 =? 0x9f)
   || (c1 =? 0xe3) && (c2 =? 0x80) && (c3 =? 0x80))%N.

(** [bytes.TrimLeftFunc(s, unicode.IsSpace)]: drop white-space code points
    from the front, stopping at the first byte that does not start one. *)
Fixpoint TrimLeftSpace (s : bytes) : bytes :=
  match s with
  | [] => []
  | b1 :: t1 =>
    if asciiSpace b1 then TrimLeftSpace t1
    else match t1 with
         | [] => s
         | b2 :: t2 =>
           if isSpace2 b1 b2 then TrimLeftSpace t2
           else match t2 with
                | [] => s
                | b3 :: t3 => if isSpace3 b1 b2 b3 then TrimLeftSpace t3 else s
                end
         end
  end.

(** The same from the back, on the reversed text: the last code point of
    the text is the one whose bytes come first, reversed. *)
Fixpoint TrimLeftSpaceRev (s : bytes) : bytes :=
  match s with
  | [] => []
  | b1 :: t1 =>
    if asciiSpace b1 then TrimLeftSpaceRev t1
    else match t1 with
         | [] => s
         | b2 :: t2 =>
           if isSpace2 b2 b1 then TrimLeftSpaceRev t2
           else match t2 with
                | [] => s
                | b3 :: t3 => if isSpace3 b3 b2 b1 then TrimLeftSpaceRev t3 else s
                end
         end
  end.

(** [bytes.TrimRightFunc(s, unicode.IsSpace)] *)
Definition TrimRightSpace (s : bytes) : bytes :=
  rev (TrimLeftSpaceRev (rev s)).

(** [bytes.TrimSpace]: white space, as defined by Unicode, removed from
    both ends of the UTF-8 text. *)
Definition TrimSpace (s : bytes) : bytes :=
  TrimRightSpace (TrimLeftSpace s).

End Bytes.

(* ================================================================= *)
(** ** Package bufio, over an HTTP response body *)

Module Bufio.

(** A response body seen through [bufio.NewReader]: the bytes that are
    still to come and the error the body reports once they are used up
    ([io.EOF] for a body that ends cleanly). *)
Record Reader : Type := mkReader {
  pending : bytes;
  final : error
}.

(** Split after the first [delim]. *)
Fixpoint cut (delim : byte) (s : bytes) : option (bytes * bytes) :=
  match s with
  | [] => None
  | b :: s' =>
    if Byte.eqb b delim then Some ([b], s')
    else match cut delim s' with
         | Some (line, rest) => Some (b :: line, rest)
         | None => None
         end
  end.

(** [reader.ReadBytes(delim)]: the bytes up to and including the first
    [delim]; when there is none, what was read before the error together
    with that error. *)
Definition ReadBytes (r : Reader) (delim : byte) : bytes * option error * Reader :=
  match cut delim (pending r) with
  | Some (line, rest) => (line, None, mkReader rest (final r))
  | None => (pending r, Some (final r), mkReader [] (final r))
  end.

End Bufio.

Import Bytes Bufio.

(** [http.Response], as far as the clients look at it. *)
Record Response : Type := mkResponse {
  StatusCode : Z;
  Body : Reader
}.

(** [http.Request], as the clients build it; [Header] lists the
    [(key, value)] pairs given to [Header.Set], in call order. *)
Record Request : Type := mkRequest {
  Method : string;
  URL : string;
  Header : list (string * string);
  ReqBody : bytes
}.

(** [httpReq.Header.Set(key, value)] *)
Definition Header_Set (key value : string) (q : Request) : Request :=
  mkRequest (Method q) (URL q) (Header q ++ [(key, value)]) (ReqBody q).

(* ================================================================= *)
(** ** The reading loop of ChatStream

    Both [ChatStream] methods are written around the same [for] loop:
    read a line, leave on an error ([io.EOF] ends the loop, anything else is
    returned), otherwise run the body on the line.  The body is a
    computation that may call the handler, log, and either fall through to
    the next iteration ([continue], or the end of the body) or [return]. *)

Module Stream.

Section Loop.

Variable Ev : Type.

(** What the handler has received and what was logged, oldest first. *)
Record Sink : Type := mkSink {
  calls : list Ev;
  logs : list string
}.

(** How a piece of the body ends: it falls through with a value, or the
    function returns [err]. *)
Inductive Ctl (A : Type) : Type :=
| Next (a : A)
| Return (err : option error).

(** A piece of the body: from the sink before to the sink after and the
    way it ended. *)
Definition M (A : Type) : Type := Sink -> Sink * Ctl A.

Definition ret {A : Type} (a : A) : M A := fun s => (s, Next A a).

Definition bind {A B : Type} (m : M A) (k : A -> M B) : M B :=
  fun s =>
    match m s with
    | (s', Next _ a) => k a s'
    | (s', Return _ err) => (s', Return B err)
    end.

(** [callback(ctx, ev)] *)
Definition callback (ev : Ev) : M unit :=
  fun s => (mkSink (calls s ++ [ev]) (logs s), Next unit tt).

(** [log.Printf] with its message already formatted. *)
Definition logPrint (msg : string) : M unit :=
  fun s => (mkSink (calls s) (logs s ++ [msg]), Next unit tt).

(** [return err] *)
Definition return_ {A : Type} (err : option error) : M A :=
  fun s => (s, Return A err).

(** [if err := f(); err != nil { return wrap(err) }] *)
Definition try {A : Type} (wrap : error -> error) (r : result A) : M A :=
  match r with
  | Ok a => ret a
  | Failed e => return_ (Some (wrap e))
  end.

(** How a call to [ChatStream] that reached the loop ends. *)
Record Outcome : Type := mkOutcome {
  delivered : list Ev;
  logged : list string;
  err : option error;
  unread : Reader
}.

(** The sink [s] after the calls and log lines of [out]. *)
Definition more (s out : Sink) : Sink :=
  mkSink (calls s ++ calls out) (logs s ++ logs out).

Definition finish (s : Sink) (e : option error) (r : Reader) : Outcome :=
  mkOutcome (calls s) (logs s) e r.

Variable wrapRead : error -> error.
Variable body : bytes -> M unit.

(** [for { line, err := reader.ReadBytes('\n'); ... }] followed by
    [return nil].  Every iteration that goes on has consumed a line, so the
    loop is run with one unit of fuel per pending byte, and one more. *)
Fixpoint loop (fuel : nat) (r : Reader) (s : Sink) : option Outcome :=
  match fuel with
  | O => None
  | S fuel' =>
    let '(line, e, r') := ReadBytes r "010"%byte in
    match e with
    | Some e =>
      if is_EOF e then Some (finish s None r')
      else Some (finish s (Some (wrapRead e)) r')
    | None =>
      match body line s with
      | (s', Next _ _) => loop fuel' r' s'
      | (s', Return _ e') => Some (finish s' e' r')
      end
    end
  end.

(** The loop, with the fuel it needs on [r]. *)
Definition run (r : Reader) (s : Sink) : option Outcome :=
  loop (S (List.length (pending r))) r s.

End Loop.

Arguments mkSink {Ev} calls logs.
Arguments calls {Ev} s.
Arguments logs {Ev} s.
Arguments Next {A} a.
Arguments Return {A} err.
Arguments ret {Ev A} a.
Arguments bind {Ev A B} m k.
Arguments callback {Ev} ev.
Arguments logPrint {Ev} msg.
Arguments return_ {Ev A} err.
Arguments try {Ev A} wrap r.
Arguments mkOutcome {Ev} delivered logged err unread.
Arguments delivered {Ev} o.
Arguments logged {Ev} o.
Arguments err {Ev} o.
Arguments unread {Ev} o.
Arguments more {Ev} s out.
Arguments finish {Ev} s e r.
Arguments loop {Ev} wrapRead body fuel r s.
Arguments run {Ev} wrapRead body r s.

Definition start {Ev : Type} : Sink Ev := mkSink [] [].

End Stream.

Import Stream.

Declare Scope go_scope.
Notation "x <- m ;; k" := (bind m (fun x => k))
  (at level 61, m at next level, right associativity) : go_scope.
Notation "m ;; k" := (bind m (fun _ => k))
  (at level 61, right associativity) : go_scope.
#[local] Open Scope go_scope.

(* ================================================================= *)
(** ** Package anthropic *)

Module Anthropic.

Record Client : Type := mkClient {
  baseURL : string;
  token : string
}.

Definition LanguageModel := string.
Definition Role := string.
Definition RoleAssistant : Role := "assistant".
Definition RoleUser : Role := "user".

Record TextContent : Type := mkTextContent {
  TextContent_Text : string
}.

Record ImageSource : Type := mkImageSource {
  ImageSource_Type : string;
  ImageSource_MediaType : string;
  ImageSource_Data : string
}.

Record ImageContent : Type := mkImageContent {
  ImageContent_Source : ImageSource
}.

(** The interface [Content] and its two implementations. *)
Inductive Content : Type :=
| ContentText (c : TextContent)
| ContentImage (c : ImageContent).

Definition Content_Type (c : Content) : string :=
  match c with
  | ContentText _ => "text"
  | ContentImage _ => "image"
  end.

(** The interface [Message] and its two implementations, each a struct
    with the one field [Content]. *)
Inductive Message : Type :=
| AssistantMessage (content : list Content)
| UserMessage (content : list Content).

Definition Message_Role (m : Message) : Role :=
  match m with
  | AssistantMessage _ => RoleAssistant
  | UserMessage _ => RoleUser
  end.

Record Metadata : Type := mkMetadata {
  UserID : string
}.

Record ChatRequest : Type := mkChatRequest {
  Model : LanguageModel;
  Messages : list Message;
  System : string;
  MaxTokens : Z;
  Metadata_ : Metadata;
  StopSequences : list string;
  Stream : bool;
  Temperature : N;
  TopP : N;
  TopK : Z
}.

(** [req.Stream = b] *)
Definition set_Stream (b : bool) (req : ChatRequest) : ChatRequest :=
  mkChatRequest (Model req) (Messages req) (System req) (MaxTokens req)
    (Metadata_ req) (StopSequences req) b (Temperature req) (TopP req)
    (TopK req).

Record Usage : Type := mkUsage {
  InputTokens : Z;
  OutputTokens : Z
}.

Record ChatMessage : Type := mkChatMessage {
  ChatMessage_ID : string;
  ChatMessage_Type : string;
  ChatMessage_Role : Role;
  ChatMessage_Content : list TextContent;
  ChatMessage_Model : LanguageModel;
  ChatMessage_StopReason : string;
  ChatMessage_StopSequence : string;
  ChatMessage_Usage : Usage
}.

Record ErrorDetail : Type := mkErrorDetail {
  ErrorDetail_Type : string;
  ErrorDetail_Message : string
}.

Record ErrorResponse : Type := mkErrorResponse {
  ErrorResponse_Type : string;
  ErrorResponse_Error : ErrorDetail
}.

Record PingEvent : Type := mkPingEvent {
  PingEvent_Type : string
}.

Record MessageStartEvent : Type := mkMessageStartEvent {
  MessageStartEvent_Type : string;
  MessageStartEvent_Message : ChatMessage
}.

Record Block : Type := mkBlock {
  Block_Type : string;
  Block_Text : string
}.

Record ContentBlockStartEvent : Type := mkContentBlockStartEvent {
  ContentBlockStartEvent_Type : string;
  ContentBlockStartEvent_Index : Z;
  ContentBlockStartEvent_ContentBlock : Block
}.

Record ContentBlockDeltaEvent : Type := mkContentBlockDeltaEvent {
  ContentBlockDeltaEvent_Type : string;
  ContentBlockDeltaEvent_Index : Z;
  ContentBlockDeltaEvent_Delta : Block
}.

Record ContentBlockStopEvent : Type := mkContentBlockStopEvent {
  ContentBlockStopEvent_Type : string;
  ContentBlockStopEvent_Index : Z
}.

Record StopDelta : Type := mkStopDelta {
  StopDelta_StopReason : string;
  StopDelta_StopSequence : string
}.

Record MessageDeltaEvent : Type := mkMessageDeltaEvent {
  MessageDeltaEvent_Type : string;
  MessageDeltaEvent_Delta : StopDelta;
  MessageDeltaEvent_OutputTokens : Z
}.

Record MessageStopEvent : Type := mkMessageStopEvent {
  MessageStopEvent_Type : string
}.

(** The interface [Event]: the values that [ChatStream] hands to the
    handler. *)
Inductive Event : Type :=
| EvPing (e : PingEvent)
| EvMessageStart (e : MessageStartEvent)
| EvContentBlockStart (e : ContentBlockStartEvent)
| EvContentBlockDelta (e : ContentBlockDeltaEvent)
| EvContentBlockStop (e : ContentBlockStopEvent)
| EvMessageDelta (e : MessageDeltaEvent)
| EvMessageStop (e : MessageStopEvent).

(** The method [EventType]. *)
Definition EventType (e : Event) : string :=
  match e with
  | EvPing _ => "ping"
  | EvMessageStart _ => "message_start"
  | EvContentBlockStart _ => "content_block_start"
  | EvContentBlockDelta _ => "content_block_delta"
  | EvContentBlockStop _ => "content_block_stop"
  | EvMessageDelta _ => "message_delta"
  | EvMessageStop _ => "message_stop"
  end.

(** What the package takes from [encoding/json] and [net/http].
    [Unmarshal_Type] is [json.Unmarshal] into a struct whose only field is
    [Type string `json:"type"`]: the anonymous envelope of [ChatStream],
    [PingEvent] and [MessageStopEvent] are all declared that way, and
    [encoding/json] decodes by field list.  [Decode_*] is
    [json.NewDecoder(body).Decode]. *)
Record Env : Type := mkEnv {
  Marshal : ChatRequest -> result bytes;
  NewRequestWithContext : string -> string -> bytes -> result Request;
  Do : Request -> result Response;
  Unmarshal_Type : bytes -> result string;
  Unmarshal_MessageStartEvent : bytes -> result MessageStartEvent;
  Unmarshal_ContentBlockStartEvent : bytes -> result ContentBlockStartEvent;
  Unmarshal_ContentBlockDeltaEvent : bytes -> result ContentBlockDeltaEvent;
  Unmarshal_ContentBlockStopEvent : bytes -> result ContentBlockStopEvent;
  Unmarshal_MessageDeltaEvent : bytes -> result MessageDeltaEvent;
  Unmarshal_ErrorResponse : bytes -> result ErrorResponse;
  Decode_ChatMessage : Reader -> result ChatMessage;
  Decode_ErrorResponse : Reader -> result ErrorResponse
}.

Section WithEnv.

Variable E : Env.

Definition Unmarshal_PingEvent (data : bytes) : result PingEvent :=
  match Unmarshal_Type E data with
  | Ok t => Ok (mkPingEvent t)
  | Failed e => Failed e
  end.

Definition Unmarshal_MessageStopEvent (data : bytes) : result MessageStopEvent :=
  match Unmarshal_Type E data with
  | Ok t => Ok (mkMessageStopEvent t)
  | Failed e => Failed e
  end.

(** [c.request] *)
Definition request (c : Client) (req : ChatRequest) : result Response :=
  match Marshal E req with
  | Failed e => Failed e
  | Ok reqBody =>
    let url := (baseURL c ++ "/messages")%string in
    match NewRequestWithContext E "POST" url reqBody with
    | Failed e => Failed e
    | Ok httpReq =>
      let httpReq := Header_Set "Content-Type" "application/json" httpReq in
      let httpReq := Header_Set "x-api-key" (token c) httpReq in
      let httpReq := Header_Set "anthropic-version" "2023-06-01" httpReq in
      Do E httpReq
    end
  end.

(** [c.decodeError] *)
Definition decodeError (resp : Response) : error :=
  match Decode_ErrorResponse E (Body resp) with
  | Failed e => errorString ("error decoding error response: " ++ Error e)%string
  | Ok errResp =>
    errorString (ErrorDetail_Type (ErrorResponse_Error errResp) ++ ": "
                 ++ ErrorDetail_Message (ErrorResponse_Error errResp))%string
  end.

(** [Client.Chat]: the request struct as the call leaves it, and the two
    results. *)
Definition Chat (c : Client) (req : ChatRequest) : ChatRequest * result ChatMessage :=
  let req := set_Stream false req in
  match request c req with
  | Failed e => (req, Failed e)
  | Ok resp =>
    if negb (StatusCode resp =? StatusOK)%Z then (req, Failed (decodeError resp))
    else match Decode_ChatMessage E (Body resp) with
         | Failed e => (req, Failed e)
         | Ok messageResp => (req, Ok messageResp)
         end
  end.

(** [return err]: the error goes to the caller as it is. *)
Definition asIs (e : error) : error := e.

(** The body of the loop of [ChatStream], from [bytes.TrimSpace(line)] to
    the end of the [switch]. *)
Definition ChatStream_body (line : bytes) : M Event unit :=
  let line := TrimSpace line in
  if (List.length line =? 0)%nat || HasPrefix line (B "event:") then ret tt
  else
    let eventData := TrimSpace (TrimPrefix line (B "data:")) in
    event_Type <- try asIs (Unmarshal_Type E eventData) ;;
    if (event_Type =? "ping")%string then
      pingEvent <- try asIs (Unmarshal_PingEvent eventData) ;;
      callback (EvPing pingEvent)
    else if (event_Type =? "message_start")%string then
      messageStartEvent <- try asIs (Unmarshal_MessageStartEvent E eventData) ;;
      callback (EvMessageStart messageStartEvent)
    else if (event_Type =? "content_block_start")%string then
      contentBlockStartEvent <- try asIs (Unmarshal_ContentBlockStartEvent E eventData) ;;
      callback (EvContentBlockStart contentBlockStartEvent)
    else if (event_Type =? "content_block_delta")%string then
      contentBlockDeltaEvent <- try asIs (Unmarshal_ContentBlockDeltaEvent E eventData) ;;
      callback (EvContentBlockDelta contentBlockDeltaEvent)
    else if (event_Type =? "content_block_stop")%string then
      contentBlockStopEvent <- try asIs (Unmarshal_ContentBlockStopEvent E eventData) ;;
      callback (EvContentBlockStop contentBlockStopEvent)
    else if (event_Type =? "message_delta")%string then
      messageDeltaEvent <- try asIs (Unmarshal_MessageDeltaEvent E eventData) ;;
      callback (EvMessageDelta messageDeltaEvent)
    else if (event_Type =? "message_stop")%string then
      messageStopEvent <- try asIs (Unmarshal_MessageStopEvent eventData) ;;
      callback (EvMessageStop messageStopEvent) ;;
      return_ None
    else if (event_Type =? "error")%string then
      errResp <- try asIs (Unmarshal_ErrorResponse E eventData) ;;
      return_ (Some (errorString
                       (ErrorDetail_Type (ErrorResponse_Error errResp) ++ ": "
                        ++ ErrorDetail_Message (ErrorResponse_Error errResp))%string))
    else
      logPrint ("unknown event type: " ++ event_Type)%string.

(** The loop of [ChatStream], entered with the handler and the logger in
    state [s]. *)
Definition ChatStream_from (reader : Reader) (s : Sink Event) : option (Outcome Event) :=
  run asIs ChatStream_body reader s.

(** The loop of [ChatStream] on the response body. *)
Definition ChatStream_loop (reader : Reader) : option (Outcome Event) :=
  ChatStream_from reader start.

(** How a call to [ChatStream] ends: before the loop, with the error of
    the request or of the status check, or in the loop. *)
Inductive Ended : Type :=
| Refused (err : error)
| Streamed (o : Outcome Event).

(** [Client.ChatStream]: the request struct as the call leaves it, and how
    the call ended ([None] only if the loop ran out of fuel, which
    [ChatStream_returns] excludes). *)
Definition ChatStream (c : Client) (req : ChatRequest) : ChatRequest * option Ended :=
  let req := set_Stream true req in
  match request c req with
  | Failed e => (req, Some (Refused e))
  | Ok resp =>
    if negb (StatusCode resp =? StatusOK)%Z then (req, Some (Refused (decodeError resp)))
    else match ChatStream_loop (Body resp) with
         | Some o => (req, Some (Streamed o))
         | None => (req, None)
         end
  end.

End WithEnv.

End Anthropic.

(* ================================================================= *)
(** ** Package openai *)

Module OpenAI.

Record Client : Type := mkClient {
  baseURL : string;
  token : string
}.

Definition LanguageModel := string.
Definition Role := string.
Definition RoleUser : Role := "user".
Definition RoleSystem : Role := "system".
Definition RoleAssistant : Role := "assistant".
Definition RoleTool : Role := "tool".

Record TextContent : Type := mkTextContent {
  TextContent_Text : string
}.

Record ImageContent : Type := mkImageContent {
  ImageContent_URL : string
}.

(** The interface [Content] and its two implementations. *)
Inductive Content : Type :=
| ContentText (c : TextContent)
| ContentImage (c : ImageContent).

Definition Content_Type (c : Content) : string :=
  match c with
  | ContentText _ => "text"
  | ContentImage _ => "image_url"
  end.

Record ToolCallFunction : Type := mkToolCallFunction {
  ToolCallFunction_Name : string;
  ToolCallFunction_Arguments : string
}.

Record ToolCall : Type := mkToolCall {
  ToolCall_ID : string;
  ToolCall_Type : string;
  ToolCall_Function : ToolCallFunction
}.

Record SystemMessage : Type := mkSystemMessage {
  SystemMessage_Content : string;
  SystemMessage_Name : string
}.

Record UserMessage : Type := mkUserMessage {
  UserMessage_Content : list Content;
  UserMessage_Name : string
}.

Record AssistantMessage : Type := mkAssistantMessage {
  AssistantMessage_Content : string;
  AssistantMessage_Name : string;
  AssistantMessage_ToolCalls : list ToolCall
}.

Record ToolMessage : Type := mkToolMessage {
  ToolMessage_Content : string;
  ToolMessage_ToolCallID : string
}.

(** The interface [Message] and its four implementations. *)
Inductive Message : Type :=
| MsgSystem (m : SystemMessage)
| MsgUser (m : UserMessage)
| MsgAssistant (m : AssistantMessage)
| MsgTool (m : ToolMessage).

Definition Message_Role (m : Message) : Role :=
  match m with
  | MsgSystem _ => RoleSystem
  | MsgUser _ => RoleUser
  | MsgAssistant _ => RoleAssistant
  | MsgTool _ => RoleTool
  end.

Record ToolChoice : Type := mkToolChoice {
  ToolChoice_Type : string;
  ToolChoice_FunctionName : string
}.

Record TopLogProb : Type := mkTopLogProb {
  TopLogProb_Token : string;
  TopLogProb_LogProb : N;
  TopLogProb_Bytes : bytes
}.

Record LogProb : Type := mkLogProb {
  LogProb_Token : string;
  LogProb_LogProb : N;
  LogProb_Bytes : bytes;
  LogProb_TopLogProbs : list TopLogProb
}.

Record ResponseMessage : Type := mkResponseMessage {
  ResponseMessage_Content : string;
  ResponseMessage_ToolCalls : list ToolCall;
  ResponseMessage_Role : string
}.

Record ResponseChoice : Type := mkResponseChoice {
  ResponseChoice_FinishReason : string;
  ResponseChoice_Index : Z;
  ResponseChoice_Message : ResponseMessage;
  ResponseChoice_LogProbs : list LogProb
}.

Record ResponseUsage : Type := mkResponseUsage {
  CompletionTokens : Z;
  PromptTokens : Z;
  TotalTokens : Z
}.

Record ChatResponse : Type := mkChatResponse {
  ChatResponse_ID : string;
  ChatResponse_Choices : list ResponseChoice;
  ChatResponse_Created : Z;
  ChatResponse_Model : string;
  ChatResponse_SystemFingerprint : string;
  ChatResponse_Object : string;
  ChatResponse_Usage : ResponseUsage
}.

Record Delta : Type := mkDelta {
  Delta_Content : string;
  Delta_Role : string
}.

Record Choice : Type := mkChoice {
  Choice_Delta : Delta;
  FinishReason : string;
  Index : Z
}.

Record ChatChunk : Type := mkChatChunk {
  ID : string;
  Object : string;
  Created : Z;
  ChunkModel : string;
  Choices : list Choice
}.

Section Package.

(** The Go type [map[string]any] of [Tool.Parameters], left open. *)
Variable map_string_any : Type.

Record Tool : Type := mkTool {
  Tool_Name : string;
  Tool_Description : string;
  Tool_Parameters : map_string_any
}.

Record ChatRequest : Type := mkChatRequest {
  Messages : list Message;
  Model : LanguageModel;
  FrequencyPenalty : N;
  LogitBias : N;
  LogProbs : bool;
  TopLogProbs : Z;
  MaxTokens : Z;
  N_ : Z;
  PresencePenalty : N;
  ResponseFormat : string;
  Seed : Z;
  Stop : list string;
  Stream : bool;
  Temperature : N;
  TopP : N;
  Tools : list Tool;
  ToolChoices : list ToolChoice;
  User : string
}.

(** [req.Stream = b] *)
Definition set_Stream (b : bool) (req : ChatRequest) : ChatRequest :=
  mkChatRequest (Messages req) (Model req) (FrequencyPenalty req)
    (LogitBias req) (LogProbs req) (TopLogProbs req) (MaxTokens req)
    (N_ req) (PresencePenalty req) (ResponseFormat req) (Seed req)
    (Stop req) b (Temperature req) (TopP req) (Tools req)
    (ToolChoices req) (User req).

Record ErrorDetail : Type := mkErrorDetail {
  ErrorDetail_Type : string;
  ErrorDetail_Code : string;
  ErrorDetail_Message : string;
  ErrorDetail_Param : string
}.

Record ErrorResponse : Type := mkErrorResponse {
  ErrorResponse_Error : ErrorDetail
}.

(** What the package takes from [encoding/json] and [net/http].
    [Unmarshal_ChatChunk] is [json.Unmarshal] into the anonymous struct of
    [ChatStream], which is declared with the fields and tags of
    [ChatChunk].  [Decode_*] is [json.NewDecoder(body).Decode]. *)
Record Env : Type := mkEnv {
  Marshal : ChatRequest -> result bytes;
  NewRequestWithContext : string -> string -> bytes -> result Request;
  Do : Request -> result Response;
  Unmarshal_ChatChunk : bytes -> result ChatChunk;
  Decode_ChatResponse : Reader -> result ChatResponse;
  Decode_ErrorResponse : Reader -> result ErrorResponse
}.

Variable E : Env.

(** [c.requestJSON] *)
Definition requestJSON (c : Client) (url : string) (req : ChatRequest) : result Response :=
  match Marshal E req with
  | Failed e => Failed e
  | Ok reqBody =>
    match NewRequestWithContext E "POST" url reqBody with
    | Failed e => Failed e
    | Ok httpReq =>
      let httpReq := Header_Set "Content-Type" "application/json" httpReq in
      let httpReq := Header_Set "Authorization" ("Bearer " ++ token c)%string httpReq in
      Do E httpReq
    end
  end.

(** [c.decodeError] *)
Definition decodeError (resp : Response) : error :=
  match Decode_ErrorResponse E (Body resp) with
  | Failed e => errorString ("error decoding error response: " ++ Error e)%string
  | Ok errResp =>
    errorString (ErrorDetail_Type (ErrorResponse_Error errResp) ++ ": "
                 ++ ErrorDetail_Message (ErrorResponse_Error errResp))%string
  end.

(** [fmt.Errorf(prefix + "%v", err)] *)
Definition wrapped (prefix : string) (e : error) : error :=
  errorString (prefix ++ Error e)%string.

(** [Client.Chat]: the request struct as the call leaves it, and the two
    results. *)
Definition Chat (c : Client) (req : ChatRequest) : ChatRequest * result ChatResponse :=
  let req := set_Stream false req in
  let url := (baseURL c ++ "/chat/completions")%string in
  match requestJSON c url req with
  | Failed e => (req, Failed (wrapped "failed to perform request: " e))
  | Ok resp =>
    if negb (StatusCode resp =? StatusOK)%Z then (req, Failed (decodeError resp))
    else match Decode_ChatResponse E (Body resp) with
         | Failed e => (req, Failed (wrapped "failed to decode response: " e))
         | Ok chatCompletionResp => (req, Ok chatCompletionResp)
         end
  end.

(** [for _, choice := range event.Choices { ... }], on the choices that are
    left. *)
Fixpoint ChatStream_choices (event : ChatChunk) (choices : list Choice) : M ChatChunk unit :=
  match choices with
  | [] => ret tt
  | choice :: choices' =>
    let chunk :=
      mkChatChunk (ID event) (Object event) (Created event) (ChunkModel event)
        [mkChoice (Choice_Delta choice) (FinishReason choice) (Index choice)] in
    callback chunk ;;
    if negb (FinishReason choice =? EmptyString)%string then return_ None
    else ChatStream_choices event choices'
  end.

(** The body of the loop of [ChatStream], from [bytes.TrimSpace(line)] to
    the end of the [for] over the choices. *)
Definition ChatStream_body (line : bytes) : M ChatChunk unit :=
  let line := TrimSpace line in
  if (List.length line =? 0)%nat then ret tt
  else
    let line := TrimPrefix line (B "data: ") in
    event <- try (wrapped "failed to unmarshal event: ") (Unmarshal_ChatChunk E line) ;;
    ChatStream_choices event (Choices event).

(** The loop of [ChatStream], entered with the handler and the logger in
    state [s]. *)
Definition ChatStream_from (reader : Reader) (s : Sink ChatChunk) : option (Outcome ChatChunk) :=
  run (wrapped "failed to read response: ") ChatStream_body reader s.

(** The loop of [ChatStream] on the response body. *)
Definition ChatStream_loop (reader : Reader) : option (Outcome ChatChunk) :=
  ChatStream_from reader start.

(** How a call to [ChatStream] ends: before the loop, with the error of
    the request or of the status check, or in the loop. *)
Inductive Ended : Type :=
| Refused (err : error)
| Streamed (o : Outcome ChatChunk).

(** [Client.ChatStream]: the request struct as the call leaves it, and how
    the call ended ([None] only if the loop ran out of fuel, which
    [OpenAI_ChatStream_returns] excludes). *)
Definition ChatStream (c : Client) (req : ChatRequest) : ChatRequest * option Ended :=
  let req := set_Stream true req in
  let url := (baseURL c ++ "/chat/completions")%string in
  match requestJSON c url req with
  | Failed e => (req, Some (Refused (wrapped "failed to perform request: " e)))
  | Ok resp =>
    if negb (StatusCode resp =? StatusOK)%Z then (req, Some (Refused (decodeError resp)))
    else match ChatStream_loop (Body resp) with
         | Some o => (req, Some (Streamed o))
         | None => (req, None)
         end
  end.

End Package.

Arguments mkTool {map_string_any} _ _ _.
Arguments mkChatRequest {map_string_any} _ _ _ _ _ _ _ _ _ _ _ _ _ _ _ _ _ _.
Arguments Stream {map_string_any} c.
Arguments set_Stream {map_string_any} b req.
Arguments Marshal {map_string_any} e _.
Arguments NewRequestWithContext {map_string_any} e _ _ _.
Arguments Do {map_string_any} e _.
Arguments Unmarshal_ChatChunk {map_string_any} e _.
Arguments Decode_ChatResponse {map_string_any} e _.
Arguments Decode_ErrorResponse {map_string_any} e _.
Arguments requestJSON {map_string_any} E c url req.
Arguments decodeError {map_string_any} E resp.
Arguments Chat {map_string_any} E c req.
Arguments ChatStream_body {map_string_any} E line _.
Arguments ChatStream_from {map_string_any} E reader s.
Arguments ChatStream_loop {map_string_any} E reader.
Arguments ChatStream {map_string_any} E c req.

End OpenAI.

(* ================================================================= *)
(** ** An environment to run the model on concrete streams

    [Sample] provides one value of each [Env]: a reader for JSON texts and
    an HTTP round trip that answers with a given response.  The reader
    accepts the JSON grammar except [\u] escapes, and fills a struct from
    the first member whose key is the field's tag, leaving the zero value
    for a missing or [null] member and failing on a value of another type.
    It stands for [encoding/json] on documents with distinct, exactly
    spelled keys; the theorems below hold for every [Env]. *)

Module Sample.

#[local] Set Warnings "-register-all".

(** JSON texts are written here with ['] for the double quote. *)
Definition J (s : string) : bytes :=
  map (fun b => match b with x27 => x22 | _ => b end) (B s).

Inductive value : Type :=
| Null
| Bool (b : bool)
| Number (lit : bytes)
| Str (s : string)
| Array (items : list value)
| Object (members : list (string * value)).

Definition syntaxError : error :=
  libError "encoding/json" "invalid character in JSON text".

Definition typeError : error :=
  libError "encoding/json" "cannot unmarshal value into Go struct field".

Definition unsupported : error :=
  libError "encoding/json" "unsupported value".

Definition andThen {A B : Type} (r : result A) (k : A -> result B) : result B :=
  match r with
  | Ok a => k a
  | Failed e => Failed e
  end.

Notation "'let?' x := r 'in' k" := (andThen r (fun x => k))
  (at level 10, x name, r at level 100, k at level 200).

Fixpoint skipWS (s : bytes) : bytes :=
  match s with
  | (x20 | x09 | x0a | x0d) :: t => skipWS t
  | _ => s
  end.

Definition unescape (c : byte) : option byte :=
  match c with
  | x22 => Some x22
  | x5c => Some x5c
  | x2f => Some x2f
  | x62 => Some x08
  | x66 => Some x0c
  | x6e => Some x0a
  | x72 => Some x0d
  | x74 => Some x09
  | _ => None
  end.

(** The characters of a string literal after its opening quote. *)
Fixpoint chars (s : bytes) : option (bytes * bytes) :=
  match s with
  | [] => None
  | x22 :: t => Some ([], t)
  | x5c :: [] => None
  | x5c :: c :: t =>
    match unescape c, chars t with
    | Some b, Some (l, r) => Some (b :: l, r)
    | _, _ => None
    end
  | b :: t =>
    if (Byte.to_N b <? 0x20)%N then None
    else match chars t with
         | Some (l, r) => Some (b :: l, r)
         | None => None
         end
  end.

Definition isDigit (b : byte) : bool :=
  ((0x30 <=? Byte.to_N b) && (Byte.to_N b <=? 0x39))%N.

Fixpoint span (p : byte -> bool) (s : bytes) : bytes * bytes :=
  match s with
  | [] => ([], [])
  | b :: t => if p b then let (l, r) := span p t in (b :: l, r) else ([], s)
  end.

Definition digits1 (s : bytes) : option (bytes * bytes) :=
  match span isDigit s with
  | ([], _) => None
  | (ds, r) => Some (ds, r)
  end.

Definition leadingZero (int : bytes) : bool :=
  match int with
  | b :: _ :: _ => Byte.eqb b x30
  | _ => false
  end.

Definition sign (s : bytes) : bytes * bytes :=
  match s with
  | b :: t => if Byte.eqb b x2d then ([b], t) else ([], s)
  | [] => ([], s)
  end.

Definition fraction (s : bytes) : option (bytes * bytes) :=
  match s with
  | b :: t =>
    if Byte.eqb b x2e then
      match digits1 t with
      | Some (f, r) => Some (b :: f, r)
      | None => None
      end
    else Some ([], s)
  | [] => Some ([], s)
  end.

Definition exponent (s : bytes) : option (bytes * bytes) :=
  match s with
  | b :: t =>
    if Byte.eqb b x65 || Byte.eqb b x45 then
      let (sg, t') :=
        match t with
        | c :: u => if Byte.eqb c x2b || Byte.eqb c x2d then ([c], u) else ([], t)
        | [] => ([], t)
        end in
      match digits1 t' with
      | Some (x, r) => Some (b :: sg ++ x, r)
      | None => None
      end
    else Some ([], s)
  | [] => Some ([], s)
  end.

(** A number literal: sign, integer part without leading zero, fraction,
    exponent. *)
Definition number (s : bytes) : option (bytes * bytes) :=
  let (sg, s1) := sign s in
  match digits1 s1 with
  | None => None
  | Some (int, s2) =>
    if leadingZero int then None
    else match fraction s2 with
         | None => None
         | Some (f, s3) =>
           match exponent s3 with
           | None => None
           | Some (x, s4) => Some (sg ++ int ++ f ++ x, s4)
           end
         end
  end.

Definition literal (word : string) (v : value) (s : bytes) : option (value * bytes) :=
  if HasPrefix s (B word) then Some (v, skipn (String.length word) s) else None.

(** One JSON value at the front of [s], and what follows it. *)
Fixpoint value_ (fuel : nat) (s : bytes) : option (value * bytes) :=
  match fuel with
  | O => None
  | S fuel' =>
    match skipWS s with
    | x7b :: t =>
      match skipWS t with
      | x7d :: t' => Some (Object [], t')
      | t' =>
        match members fuel' t' with
        | Some (ms, r) => Some (Object ms, r)
        | None => None
        end
      end
    | x5b :: t =>
      match skipWS t with
      | x5d :: t' => Some (Array [], t')
      | t' =>
        match elements fuel' t' with
        | Some (vs, r) => Some (Array vs, r)
        | None => None
        end
      end
    | x22 :: t =>
      match chars t with
      | Some (l, r) => Some (Str (string_of_list_byte l), r)
      | None => None
      end
    | (x74 :: _) as w => literal "true" (Bool true) w
    | (x66 :: _) as w => literal "false" (Bool false) w
    | (x6e :: _) as w => literal "null" Null w
    | w =>
      match number w with
      | Some (lit, r) => Some (Number lit, r)
      | None => None
      end
    end
  end
with members (fuel : nat) (s : bytes) : option (list (string * value) * bytes) :=
  match fuel with
  | O => None
  | S fuel' =>
    match skipWS s with
    | x22 :: t =>
      match chars t with
      | Some (k, r) =>
        match skipWS r with
        | x3a :: r1 =>
          match value_ fuel' r1 with
          | Some (v, r2) =>
            match skipWS r2 with
            | x2c :: r3 =>
              match members fuel' r3 with
              | Some (ms, r4) => Some ((string_of_list_byte k, v) :: ms, r4)
              | None => None
              end
            | x7d :: r3 => Some ([(string_of_list_byte k, v)], r3)
            | _ => None
            end
          | None => None
          end
        | _ => None
        end
      | None => None
      end
    | _ => None
    end
  end
with elements (fuel : nat) (s : bytes) : option (list value * bytes) :=
  match fuel with
  | O => None
  | S fuel' =>
    match value_ fuel' s with
    | Some (v, r) =>
      match skipWS r with
      | x2c :: r1 =>
        match elements fuel' r1 with
        | Some (vs, r2) => Some (v :: vs, r2)
        | None => None
        end
      | x5d :: r1 => Some ([v], r1)
      | _ => None
      end
    | None => None
    end
  end.

(** A whole text: one value, then white space only. *)
Definition parse (s : bytes) : result value :=
  match value_ (2 * List.length s + 2) s with
  | Some (v, r) =>
    match skipWS r with
    | [] => Ok v
    | _ :: _ => Failed syntaxError
    end
  | None => Failed syntaxError
  end.

Fixpoint field (ms : list (string * value)) (key : string) : value :=
  match ms with
  | [] => Null
  | (k, v) :: ms' => if (k =? key)%string then v else field ms' key
  end.

Definition asString (v : value) : result string :=
  match v with
  | Null => Ok EmptyString
  | Str s => Ok s
  | _ => Failed typeError
  end.

Definition digitsToZ (ds : bytes) : Z :=
  fold_left (fun acc d => (10 * acc + (Z.of_N (Byte.to_N d) - 48))%Z) ds 0%Z.

Definition asInt (v : value) : result Z :=
  match v with
  | Null => Ok 0%Z
  | Number lit =>
    let (sg, ds) := sign lit in
    if forallb isDigit ds then
      let n := (match sg with [] => digitsToZ ds | _ :: _ => - digitsToZ ds end)%Z in
      if ((- 2 ^ 63 <=? n) && (n <? 2 ^ 63))%Z then Ok n else Failed typeError
    else Failed typeError
  | _ => Failed typeError
  end.

Definition asObject (v : value) : result (list (string * value)) :=
  match v with
  | Null => Ok []
  | Object ms => Ok ms
  | _ => Failed typeError
  end.

Fixpoint each {A : Type} (f : value -> result A) (vs : list value) : result (list A) :=
  match vs with
  | [] => Ok []
  | v :: vs' => let? a := f v in let? l := each f vs' in Ok (a :: l)
  end.

Definition asSlice {A : Type} (f : value -> result A) (v : value) : result (list A) :=
  match v with
  | Null => Ok []
  | Array vs => each f vs
  | _ => Failed typeError
  end.

(** [json.Unmarshal(data, &v)] for a struct [v] read by [f]. *)
Definition Unmarshal {A : Type} (f : list (string * value) -> result A) (data : bytes) : result A :=
  let? v := parse data in
  let? ms := asObject v in
  f ms.

(** [json.NewDecoder(body).Decode(&v)], for a body that holds one text. *)
Definition Decode {A : Type} (f : list (string * value) -> result A) (body : Reader) : result A :=
  Unmarshal f (pending body).

(** An HTTP client that answers every request with [resp]. *)
Definition answer (resp : Response) (q : Request) : result Response := Ok resp.

Definition newRequest (method url : string) (body : bytes) : result Request :=
  Ok (mkRequest method url [] body).

(** The request body of this environment keeps the [stream] member only,
    which is omitted when false. *)
Definition streamFlag (stream : bool) : bytes :=
  if stream then J "{'stream':true}" else J "{}".

Module A.

Import Anthropic.

Definition type_ (ms : list (string * value)) : result string :=
  asString (field ms "type").

Definition usage (ms : list (string * value)) : result Usage :=
  let? i := asInt (field ms "input_tokens") in
  let? o := asInt (field ms "output_tokens") in
  Ok (mkUsage i o).

Definition textContent (v : value) : result TextContent :=
  let? ms := asObject v in
  let? t := asString (field ms "text") in
  Ok (mkTextContent t).

Definition chatMessage (ms : list (string * value)) : result ChatMessage :=
  let? id := asString (field ms "id") in
  let? ty := asString (field ms "type") in
  let? role := asString (field ms "role") in
  let? content := asSlice textContent (field ms "content") in
  let? model := asString (field ms "model") in
  let? reason := asString (field ms "stop_reason") in
  let? seq := asString (field ms "stop_sequence") in
  let? us := asObject (field ms "usage") in
  let? u := usage us in
  Ok (mkChatMessage id ty role content model reason seq u).

Definition block (ms : list (string * value)) : result Block :=
  let? ty := asString (field ms "type") in
  let? text := asString (field ms "text") in
  Ok (mkBlock ty text).

Definition messageStartEvent (ms : list (string * value)) : result MessageStartEvent :=
  let? ty := type_ ms in
  let? m := asObject (field ms "message") in
  let? msg := chatMessage m in
  Ok (mkMessageStartEvent ty msg).

Definition contentBlockStartEvent (ms : list (string * value)) : result ContentBlockStartEvent :=
  let? ty := type_ ms in
  let? i := asInt (field ms "index") in
  let? b := asObject (field ms "content_block") in
  let? blk := block b in
  Ok (mkContentBlockStartEvent ty i blk).

Definition contentBlockDeltaEvent (ms : list (string * value)) : result ContentBlockDeltaEvent :=
  let? ty := type_ ms in
  let? i := asInt (field ms "index") in
  let? b := asObject (field ms "delta") in
  let? blk := block b in
  Ok (mkContentBlockDeltaEvent ty i blk).

Definition contentBlockStopEvent (ms : list (string * value)) : result ContentBlockStopEvent :=
  let? ty := type_ ms in
  let? i := asInt (field ms "index") in
  Ok (mkContentBlockStopEvent ty i).

Definition messageDeltaEvent (ms : list (string * value)) : result MessageDeltaEvent :=
  let? ty := type_ ms in
  let? d := asObject (field ms "delta") in
  let? reason := asString (field d "stop_reason") in
  let? seq := asString (field d "stop_sequence") in
  let? u := asObject (field ms "usage") in
  let? o := asInt (field u "output_tokens") in
  Ok (mkMessageDeltaEvent ty (mkStopDelta reason seq) o).

Definition errorResponse (ms : list (string * value)) : result ErrorResponse :=
  let? ty := type_ ms in
  let? e := asObject (field ms "error") in
  let? ety := asString (field e "type") in
  let? msg := asString (field e "message") in
  Ok (mkErrorResponse ty (mkErrorDetail ety msg)).

(** The environment in which requests are marshalled by [marshal] and the
    server answers with [resp]. *)
Definition envWith (marshal : ChatRequest -> result bytes) (resp : Response) : Env :=
  mkEnv marshal newRequest (answer resp)
    (Unmarshal type_)
    (Unmarshal messageStartEvent)
    (Unmarshal contentBlockStartEvent)
    (Unmarshal contentBlockDeltaEvent)
    (Unmarshal contentBlockStopEvent)
    (Unmarshal messageDeltaEvent)
    (Unmarshal errorResponse)
    (Decode chatMessage)
    (Decode errorResponse).

Definition env (resp : Response) : Env :=
  envWith (fun req => Ok (streamFlag (Stream req))) resp.

(** An environment in which no request can be marshalled. *)
Definition envRefusing (resp : Response) : Env :=
  envWith (fun _ => Failed unsupported) resp.

Definition client : Client := mkClient "https://api.anthropic.com/v1" "token".

Definition req : ChatRequest :=
  mkChatRequest "claude-3-haiku-20240307"
    [UserMessage [ContentText (mkTextContent "Hello")]]
    EmptyString 64 (mkMetadata EmptyString) [] false 0 0 0.

(** Lines of a stream. *)
Definition line_event : bytes := J "event: message_start" ++ [x0a].
Definition line_blank : bytes := [x0d; x0a].
Definition line_start : bytes :=
  J "data: {'type':'message_start','message':{'id':'msg_1','role':'assistant'}}" ++ [x0a].
Definition line_delta : bytes :=
  J "data: {'type':'content_block_delta','index':0,'delta':{'type':'text_delta','text':'Hi'}}"
  ++ [x0a].
Definition line_stop : bytes := J "data: {'type':'message_stop'}" ++ [x0a].
Definition line_ping : bytes := J "data: {'type':'ping'}" ++ [x0a].
Definition line_unknown : bytes := J "data: {'type':'tool_use_delta','index':1}" ++ [x0a].
Definition line_error : bytes :=
  J "data: {'type':'error','error':{'type':'overloaded_error','message':'Overloaded'}}"
  ++ [x0a].
Definition line_malformed : bytes := J "data: {'type':'ping'" ++ [x0a].

Definition ev_start : Event :=
  EvMessageStart
    (mkMessageStartEvent "message_start"
       (mkChatMessage "msg_1" EmptyString "assistant" [] EmptyString EmptyString
          EmptyString (mkUsage 0 0))).

Definition ev_delta : Event :=
  EvContentBlockDelta
    (mkContentBlockDeltaEvent "content_block_delta" 0 (mkBlock "text_delta" "Hi")).

Definition ev_ping : Event := EvPing (mkPingEvent "ping").

End A.

Module O.

Import OpenAI.

Definition delta (ms : list (string * value)) : result Delta :=
  let? c := asString (field ms "content") in
  let? r := asString (field ms "role") in
  Ok (mkDelta c r).

Definition choice (v : value) : result Choice :=
  let? ms := asObject v in
  let? d := asObject (field ms "delta") in
  let? dl := delta d in
  let? fr := asString (field ms "finish_reason") in
  let? i := asInt (field ms "index") in
  Ok (mkChoice dl fr i).

Definition chatChunk (ms : list (string * value)) : result ChatChunk :=
  let? id := asString (field ms "id") in
  let? obj := asString (field ms "object") in
  let? created := asInt (field ms "created") in
  let? model := asString (field ms "model") in
  let? cs := asSlice choice (field ms "choices") in
  Ok (mkChatChunk id obj created model cs).

Definition errorResponse (ms : list (string * value)) : result ErrorResponse :=
  let? e := asObject (field ms "error") in
  let? ty := asString (field e "type") in
  let? code := asString (field e "code") in
  let? msg := asString (field e "message") in
  let? param := asString (field e "param") in
  Ok (mkErrorResponse (mkErrorDetail ty code msg param)).

(** The chat response of this environment keeps the identifier only. *)
Definition chatResponse (ms : list (string * value)) : result ChatResponse :=
  let? id := asString (field ms "id") in
  Ok (mkChatResponse id [] 0 EmptyString EmptyString EmptyString (mkResponseUsage 0 0 0)).

(** The environment in which requests are marshalled by [marshal] and the
    server answers with [resp]. *)
Definition envWith (marshal : ChatRequest unit -> result bytes) (resp : Response) : Env unit :=
  mkEnv unit marshal newRequest (answer resp)
    (Unmarshal chatChunk)
    (Decode chatResponse)
    (Decode errorResponse).

Definition env (resp : Response) : Env unit :=
  envWith (fun req => Ok (streamFlag (Stream req))) resp.

(** An environment in which no request can be marshalled. *)
Definition envRefusing (resp : Response) : Env unit :=
  envWith (fun _ => Failed unsupported) resp.

Definition client : Client := mkClient "https://api.openai.com/v1" "token".

Definition req : ChatRequest unit :=
  mkChatRequest [MsgUser (mkUserMessage [ContentText (mkTextContent "Hello")] EmptyString)]
    "gpt-4" 0 0 false 0 64 1 0 EmptyString 0 [] false 0 0 [] [] EmptyString.

(** Lines of a stream. *)
Definition line_blank : bytes := [x0d; x0a].
Definition line_event : bytes := J "event: completion" ++ [x0a].
Definition line_hello : bytes :=
  J "data: {'id':'c1','object':'chat.completion.chunk','created':17,'model':'gpt-4','choices':[{'index':0,'delta':{'role':'assistant','content':'Hi'},'finish_reason':null}]}"
  ++ [x0a].
Definition line_end : bytes :=
  J "data: {'id':'c1','object':'chat.completion.chunk','created':17,'model':'gpt-4','choices':[{'index':0,'delta':{},'finish_reason':'stop'}]}"
  ++ [x0a].
Definition line_three : bytes :=
  J "data: {'id':'c2','object':'chat.completion.chunk','created':18,'model':'gpt-4','choices':[{'index':0,'delta':{'content':'a'}},{'index':1,'delta':{'content':'b'},'finish_reason':'length'},{'index':2,'delta':{'content':'c'}}]}"
  ++ [x0a].
Definition line_done : bytes := J "data: [DONE]" ++ [x0a].
Definition line_malformed : bytes := J "data: {'id':" ++ [x0a].

Definition choice_hello : Choice := mkChoice (mkDelta "Hi" "assistant") EmptyString 0.
Definition choice_end : Choice := mkChoice (mkDelta EmptyString EmptyString) "stop" 0.
Definition choice_a : Choice := mkChoice (mkDelta "a" EmptyString) EmptyString 0.
Definition choice_b : Choice := mkChoice (mkDelta "b" EmptyString) "length" 1.
Definition choice_c : Choice := mkChoice (mkDelta "c" EmptyString) EmptyString 2.

Definition event_hello : ChatChunk :=
  mkChatChunk "c1" "chat.completion.chunk" 17 "gpt-4" [choice_hello].
Definition event_end : ChatChunk :=
  mkChatChunk "c1" "chat.completion.chunk" 17 "gpt-4" [choice_end].
Definition event_three : ChatChunk :=
  mkChatChunk "c2" "chat.completion.chunk" 18 "gpt-4" [choice_a; choice_b; choice_c].

End O.

End Sample.

(* ================================================================= *)
(** ** Vocabulary of the statements *)

Module Wire.

(** A line as [ReadBytes] returns it: bytes other than the line feed,
    then the line feed. *)
Definition Line (l : bytes) : Prop :=
  exists t, l = t ++ [x0a] /\ ~ In x0a t.

(** What is left of a stream after its last line feed. *)
Definition Fragment (t : bytes) : Prop := ~ In x0a t.

(** The test for [Line]. *)
Definition isLine (l : bytes) : bool :=
  match cut x0a l with
  | Some (_, []) => true
  | _ => false
  end.

(** ASCII white space that may surround the text of a line. *)
Definition Padding (ws : bytes) : Prop :=
  Forall (fun b => asciiSpace b = true) ws.

Section Through.

Variable Ev : Type.

(** A computation that adds to the sink and is otherwise indifferent to
    it. *)
Definition oblivious {A : Type} (m : M Ev A) : Prop :=
  forall s, m s = (more s (fst (m start)), snd (m start)).

Variable body : bytes -> M Ev unit.

(** The body falls through on every line of [ls], and run on each of them
    from the empty sink it produces [outs] altogether. *)
Inductive through : list bytes -> Sink Ev -> Prop :=
| through_nil : through [] start
| through_cons (l : bytes) (ls : list bytes) (out outs : Sink Ev) :
    Line l ->
    body l start = (out, Next tt) ->
    through ls outs ->
    through (l :: ls) (more out outs).

End Through.

Arguments oblivious Ev {A} m.
Arguments through {Ev} body _ _.

End Wire.

Import Wire.

(** The records of the anthropic stream. *)
Module AnthropicWire.

Import Anthropic.

Section Vocabulary.

Variable E : Env.

(** The lines [ChatStream] passes over: blank once trimmed, or starting
    with [event:]. *)
Definition framing (line : bytes) : bool :=
  (List.length (TrimSpace line) =? 0)%nat || HasPrefix (TrimSpace line) (B "event:").

(** The JSON text [ChatStream] takes from a line. *)
Definition payload (line : bytes) : bytes :=
  TrimSpace (TrimPrefix (TrimSpace line) (B "data:")).

(** [line] is a record whose discriminator is [t]. *)
Definition record (line : bytes) (t : string) : Prop :=
  Line line /\ framing line = false /\ Unmarshal_Type E (payload line) = Ok t.

(** The eight discriminators of the [switch]. *)
Definition known (t : string) : bool :=
  existsb (String.eqb t)
    ["ping"; "message_start"; "content_block_start"; "content_block_delta";
     "content_block_stop"; "message_delta"; "message_stop"; "error"].

(** [line] is the record of the event [ev], for the six kinds of event
    that do not end the stream. *)
Inductive carries (line : bytes) : Event -> Prop :=
| carries_ping :
    record line "ping" ->
    carries line (EvPing (mkPingEvent "ping"))
| carries_message_start (ev : MessageStartEvent) :
    record line "message_start" ->
    Unmarshal_MessageStartEvent E (payload line) = Ok ev ->
    carries line (EvMessageStart ev)
| carries_content_block_start (ev : ContentBlockStartEvent) :
    record line "content_block_start" ->
    Unmarshal_ContentBlockStartEvent E (payload line) = Ok ev ->
    carries line (EvContentBlockStart ev)
| carries_content_block_delta (ev : ContentBlockDeltaEvent) :
    record line "content_block_delta" ->
    Unmarshal_ContentBlockDeltaEvent E (payload line) = Ok ev ->
    carries line (EvContentBlockDelta ev)
| carries_content_block_stop (ev : ContentBlockStopEvent) :
    record line "content_block_stop" ->
    Unmarshal_ContentBlockStopEvent E (payload line) = Ok ev ->
    carries line (EvContentBlockStop ev)
| carries_message_delta (ev : MessageDeltaEvent) :
    record line "message_delta" ->
    Unmarshal_MessageDeltaEvent E (payload line) = Ok ev ->
    carries line (EvMessageDelta ev).

(** The lines [ls] are a well-formed stretch of the stream that carries
    the events [evs]: framing lines, records of an unknown kind, and
    records of events, none of them terminal. *)
Inductive decodes : list bytes -> list Event -> Prop :=
| decodes_nil : decodes [] []
| decodes_framing (l : bytes) (ls : list bytes) (evs : list Event) :
    Line l -> framing l = true ->
    decodes ls evs -> decodes (l :: ls) evs
| decodes_unknown (l : bytes) (t : string) (ls : list bytes) (evs : list Event) :
    record l t -> known t = false ->
    decodes ls evs -> decodes (l :: ls) evs
| decodes_event (l : bytes) (ev : Event) (ls : list bytes) (evs : list Event) :
    carries l ev ->
    decodes ls evs -> decodes (l :: ls) (ev :: evs).

(** The event delivered for the terminal record. *)
Definition stopEvent : Event := EvMessageStop (mkMessageStopEvent "message_stop").

(** The server answers the streaming request of [req] with status 200
    and [body]. *)
Definition answers (c : Client) (req : ChatRequest) (body : Reader) : Prop :=
  request E c (set_Stream true req) = Ok (mkResponse StatusOK body).

End Vocabulary.

End AnthropicWire.

(** The records of the openai stream. *)
Module OpenAIWire.

Import OpenAI.

Section Vocabulary.

Variable map_string_any : Type.
Variable E : Env map_string_any.

(** The lines [ChatStream] passes over: blank once trimmed. *)
Definition blank (line : bytes) : bool :=
  (List.length (TrimSpace line) =? 0)%nat.

(** The JSON text [ChatStream] takes from a line. *)
Definition payload (line : bytes) : bytes :=
  TrimPrefix (TrimSpace line) (B "data: ").

(** [line] is a record that decodes to [event]. *)
Definition record (line : bytes) (event : ChatChunk) : Prop :=
  Line line /\ blank line = false /\ Unmarshal_ChatChunk E (payload line) = Ok event.

(** A choice that does not end the stream. *)
Definition unfinished (c : Choice) : Prop := FinishReason c = EmptyString.

(** The chunk handed to the handler for the choice [c] of [event]. *)
Definition single (event : ChatChunk) (c : Choice) : ChatChunk :=
  mkChatChunk (ID event) (Object event) (Created event) (ChunkModel event) [c].

(** The lines [ls] are a well-formed stretch of the stream that carries
    the chunks [chunks]: blank lines and records whose choices are all
    unfinished. *)
Inductive decodes : list bytes -> list ChatChunk -> Prop :=
| decodes_nil : decodes [] []
| decodes_blank (l : bytes) (ls : list bytes) (chunks : list ChatChunk) :
    Line l -> blank l = true ->
    decodes ls chunks -> decodes (l :: ls) chunks
| decodes_record (l : bytes) (event : ChatChunk) (ls : list bytes) (chunks : list ChatChunk) :
    record l event -> Forall unfinished (Choices event) ->
    decodes ls chunks ->
    decodes (l :: ls) (map (single event) (Choices event) ++ chunks).

(** [line] is a terminal record: its choice [c] is the first with a
    finish reason, after the choices [before]. *)
Definition terminal (line : bytes) (event : ChatChunk) (before : list Choice) (c : Choice) : Prop :=
  record line event /\
  (exists after, Choices event = before ++ c :: after) /\
  Forall unfinished before /\ FinishReason c <> EmptyString.

(** The server answers the streaming request of [req] with status 200
    and [body]. *)
Definition answers (c : Client) (req : ChatRequest map_string_any) (body : Reader) : Prop :=
  requestJSON E c (baseURL c ++ "/chat/completions")%string (set_Stream true req)
  = Ok (mkResponse StatusOK body).

End Vocabulary.

Arguments record {map_string_any} E line event.
Arguments decodes {map_string_any} E _ _.
Arguments terminal {map_string_any} E line event before c.
Arguments answers {map_string_any} E c req body.

End OpenAIWire.

(* ================================================================= *)
(** ** Packages net/url and strconv, as far as the pinecone client uses them *)

Module URL.

(** The two modes of [escape] that [PathEscape] and [QueryEscape] use. *)
Inductive encoding : Type :=
| encodePathSegment
| encodeQueryComponent.

Definition isAlnum (c : ascii) : bool :=
  let n := N_of_ascii c in
  ((0x61 <=? n) && (n <=? 0x7a) || (0x41 <=? n) && (n <=? 0x5a)
   || (0x30 <=? n) && (n <=? 0x39))%N.

Definition oneOf (chars : string) (c : ascii) : bool :=
  existsb (Ascii.eqb c) (list_ascii_of_string chars).

(** [shouldEscape(c, mode)]: letters, digits and [-_.~] stay; the reserved
    characters stay or go by the mode; everything else is escaped. *)
Definition shouldEscape (c : ascii) (mode : encoding) : bool :=
  if isAlnum c then false
  else if oneOf "-_.~" c then false
  else if oneOf "$&+,/:;=?@" c then
    match mode with
    | encodePathSegment => oneOf "/;,?" c
    | encodeQueryComponent => true
    end
  else true.

(** ["0123456789ABCDEF"[n]] *)
Definition upperhex (n : N) : ascii :=
  if (n <? 10)%N then ascii_of_N (0x30 + n) else ascii_of_N (0x41 + (n - 10)).

(** What [escape] writes for one byte. *)
Definition escapeByte (c : ascii) (mode : encoding) : string :=
  if shouldEscape c mode then
    match mode with
    | encodeQueryComponent =>
      if Ascii.eqb c " " then "+"
      else String "%" (String (upperhex (N_of_ascii c / 16))
                         (String (upperhex (N_of_ascii c mod 16)) EmptyString))
    | encodePathSegment =>
      String "%" (String (upperhex (N_of_ascii c / 16))
                    (String (upperhex (N_of_ascii c mod 16)) EmptyString))
    end
  else String c EmptyString.

(** [escape(s, mode)] *)
Fixpoint escape (s : string) (mode : encoding) : string :=
  match s with
  | EmptyString => EmptyString
  | String c s' => (escapeByte c mode ++ escape s' mode)%string
  end.

Definition QueryEscape (s : string) : string := escape s encodeQueryComponent.

Definition PathEscape (s : string) : string := escape s encodePathSegment.

(** [url.Values], a [map[string][]string], as the list of its entries in
    the order of their keys, which is the order [Encode] visits them. *)
Definition Values : Type := list (string * list string).

(** [v.Set(key, value)] *)
Fixpoint Set_ (v : Values) (key value : string) : Values :=
  match v with
  | [] => [(key, [value])]
  | (k, vs) :: v' =>
    match String.compare key k with
    | Eq => (key, [value]) :: v'
    | Lt => (key, [value]) :: v
    | Gt => (k, vs) :: Set_ v' key value
    end
  end.

(** [v.Encode()] *)
Definition Encode (v : Values) : string :=
  String.concat "&"
    (flat_map (fun kvs => map (fun value => (QueryEscape (fst kvs) ++ "=" ++ QueryEscape value)%string)
                            (snd kvs)) v).

(** [strconv.Itoa] *)
Definition Itoa (i : Z) : string :=
  DecimalString.NilZero.string_of_int (Z.to_int i).

End URL.

(* ================================================================= *)
(** ** Package pinecone

    The methods return, beside their results, the requests they handed to
    the HTTP client, oldest first. *)

Module Pinecone.

Import URL.

Record ControlClient : Type := mkControlClient {
  control_baseURL : string;
  control_token : string
}.

Record DataClient : Type := mkDataClient {
  data_baseURL : string;
  data_token : string
}.

Definition defaultBaseURL : string := "https://api.pinecone.io".

(** [NewControlClient] *)
Definition NewControlClient (token : string) : ControlClient :=
  mkControlClient defaultBaseURL token.

(** [NewDataClient] *)
Definition NewDataClient (indexHost token : string) : DataClient :=
  mkDataClient indexHost token.

Definition Metric := string.
Definition CloudProvider := string.

Record MetadataConfig : Type := mkMetadataConfig {
  Indexed : list string
}.

Record Pod : Type := mkPod {
  Pod_Environment : string;
  Pod_Replicas : Z;
  Pod_PodType : string;
  Pod_Pods : Z;
  Pod_Shards : Z;
  Pod_MetadataConfig : MetadataConfig;
  Pod_SourceCollection : string
}.

Record Serverless : Type := mkServerless {
  Serverless_CloudProvider : CloudProvider;
  Serverless_Region : string
}.

(** [Spec], whose two fields are pointers. *)
Record Spec : Type := mkSpec {
  Spec_Pod : option Pod;
  Spec_Serverless : option Serverless
}.

Record Status : Type := mkStatus {
  Status_Ready : bool;
  Status_State : string
}.

Record CreateIndexRequest : Type := mkCreateIndexRequest {
  CreateIndexRequest_Name : string;
  CreateIndexRequest_Dimension : Z;
  CreateIndexRequest_Spec : Spec;
  CreateIndexRequest_Metric : Metric
}.

(** [CreateIndexRequest.Validate] *)
Definition CreateIndexRequest_Validate (r : CreateIndexRequest) : option error :=
  if (CreateIndexRequest_Name r =? EmptyString)%string then
    Some (errorString "name is required")
  else if (CreateIndexRequest_Dimension r <=? 0)%Z then
    Some (errorString "dimension must be greater than 0")
  else None.

(** The fields that [CreateIndexResponse], [DecribeIndexResponse] and
    [ConfigureIndexResponse] are all declared with. *)
Record IndexResponse : Type := mkIndexResponse {
  IndexResponse_Name : string;
  IndexResponse_Dimension : Z;
  IndexResponse_Metric : Metric;
  IndexResponse_Host : string;
  IndexResponse_Pod : Pod;
  IndexResponse_Serverless : Serverless;
  IndexResponse_Status : Status
}.

Record ConfigureIndexSpec : Type := mkConfigureIndexSpec {
  ConfigureIndexSpec_Replicas : Z;
  ConfigureIndexSpec_PodType : string
}.

Record ConfigureIndexRequest : Type := mkConfigureIndexRequest {
  ConfigureIndexRequest_IndexName : string;
  ConfigureIndexRequest_Spec : ConfigureIndexSpec
}.

(** The fields that [CreateCollectionResponse] and
    [DescribeCollectionResponse] are both declared with. *)
Record CollectionResponse : Type := mkCollectionResponse {
  Collection_Name : string;
  Collection_Size : Z;
  Collection_Status : string;
  Collection_Dimension : Z;
  Collection_VectorCount : Z;
  Collection_Environment : string
}.

Record ListVectorIDsRequest : Type := mkListVectorIDsRequest {
  ListVectorIDsRequest_Namespace : string;
  ListVectorIDsRequest_Prefix : string;
  ListVectorIDsRequest_Limit : Z;
  ListVectorIDsRequest_PaginationToken : string
}.

Record ListVectorIDsResponse : Type := mkListVectorIDsResponse {
  ListVectorIDsResponse_Vectors : list string;
  ListVectorIDsResponse_Next : string;
  ListVectorIDsResponse_Namespace : string
}.

Record ErrorDetail : Type := mkErrorDetail {
  ErrorDetail_Code : string;
  ErrorDetail_Message : string
}.

Record ErrorResponse : Type := mkErrorResponse {
  ErrorResponse_Status : Z;
  ErrorResponse_Error : ErrorDetail
}.

Record SparseVector : Type := mkSparseVector {
  SparseVector_Indices : list Z;
  SparseVector_Values : list N
}.

Definition StatusCreated : Z := 201.
Definition StatusAccepted : Z := 202.

Section Package.

(** The Go type [map[string]any] of filters and metadata, left open. *)
Variable map_string_any : Type.

Record QueryVectorsRequest : Type := mkQueryVectorsRequest {
  QueryVectorsRequest_Vector : list N;
  QueryVectorsRequest_TopK : Z;
  QueryVectorsRequest_ID : string;
  QueryVectorsRequest_Namespace : string;
  QueryVectorsRequest_Filter : map_string_any;
  QueryVectorsRequest_IncludeValues : bool;
  QueryVectorsRequest_IncludeMetadata : bool;
  QueryVectorsRequest_SparseVector : option SparseVector
}.

(** [QueryVectorsRequest.Validate] *)
Definition QueryVectorsRequest_Validate (r : QueryVectorsRequest) : option error :=
  if (QueryVectorsRequest_TopK r <=? 0)%Z then
    Some (errorString "top k must be greater than 0")
  else None.

Record Match : Type := mkMatch {
  Match_ID : string;
  Match_Score : N;
  Match_Values : list N;
  Match_SpareseValues : list SparseVector;
  Match_Metadata : map_string_any
}.

Record QueryVectorsResponse : Type := mkQueryVectorsResponse {
  QueryVectorsResponse_Namespace : string;
  QueryVectorsResponse_Matches : list Match;
  QueryVectorsResponse_ReadUnits : Z
}.

(** What the package takes from [encoding/json] and [net/http].
    [checkRequest] is the error of [http.NewRequestWithContext] for a
    method and a URL, if it has one; [Encode_*] is
    [json.NewEncoder(buf).Encode] and gives the bytes written to [buf];
    [Decode_*] is [json.NewDecoder(body).Decode]. *)
Record Env : Type := mkEnv {
  checkRequest : string -> string -> option error;
  Do : Request -> result Response;
  Encode_CreateIndexRequest : CreateIndexRequest -> result bytes;
  Encode_ConfigureIndexRequest : ConfigureIndexRequest -> result bytes;
  Encode_QueryVectorsRequest : QueryVectorsRequest -> result bytes;
  Decode_IndexResponse : Reader -> result IndexResponse;
  Decode_CollectionResponse : Reader -> result CollectionResponse;
  Decode_QueryVectorsResponse : Reader -> result QueryVectorsResponse;
  Decode_ListVectorIDsResponse : Reader -> result ListVectorIDsResponse;
  Decode_ErrorResponse : Reader -> result ErrorResponse
}.

Variable E : Env.

(** [http.NewRequestWithContext(ctx, method, url, buf)]; a [nil] buffer
    gives a request with no body, kept here as the empty body. *)
Definition NewRequestWithContext (method url : string) (buf : option bytes) : result Request :=
  match checkRequest E method url with
  | Some e => Failed e
  | None =>
    Ok (mkRequest method url []
          match buf with
          | Some b => b
          | None => []
          end)
  end.

(** [ControlClient.request] and [DataClient.request], which are written
    alike.  [body] is [None] for a [nil] body and otherwise what encoding
    the body gives. *)
Definition request (baseURL token method path : string) (body : option (result bytes))
  : list Request * result Response :=
  let url := (baseURL ++ path)%string in
  match body with
  | Some (Failed e) => ([], Failed e)
  | _ =>
    let buf :=
      match body with
      | Some (Ok b) => Some b
      | _ => None
      end in
    match NewRequestWithContext method url buf with
    | Failed e => ([], Failed e)
    | Ok httpReq =>
      let httpReq := Header_Set "Api-Key" token httpReq in
      let httpReq :=
        match body with
        | Some _ => Header_Set "Content-Type" "application/json" httpReq
        | None => httpReq
        end in
      ([httpReq], Do E httpReq)
    end
  end.

Definition ControlClient_request (c : ControlClient) :=
  request (control_baseURL c) (control_token c).

Definition DataClient_request (c : DataClient) :=
  request (data_baseURL c) (data_token c).

(** [decodeError] *)
Definition decodeError (resp : Response) : error :=
  match Decode_ErrorResponse E (Body resp) with
  | Failed e => errorString ("error decoding error response: " ++ Error e)%string
  | Ok errResp =>
    errorString (ErrorDetail_Code (ErrorResponse_Error errResp) ++ ": "
                 ++ ErrorDetail_Message (ErrorResponse_Error errResp))%string
  end.

(** The common end of the methods that decode a response: the status is
    checked against [status], then the body is decoded. *)
Definition decoded {A : Type} (status : Z) (decode : Reader -> result A)
           (r : list Request * result Response) : list Request * result A :=
  match r with
  | (sent, Failed e) => (sent, Failed e)
  | (sent, Ok resp) =>
    if negb (StatusCode resp =? status)%Z then (sent, Failed (decodeError resp))
    else (sent, decode (Body resp))
  end.

(** The common end of the methods that return an error only. *)
Definition accepted (status : Z) (r : list Request * result Response)
  : list Request * option error :=
  match r with
  | (sent, Failed e) => (sent, Some e)
  | (sent, Ok resp) =>
    if negb (StatusCode resp =? status)%Z then (sent, Some (decodeError resp))
    else (sent, None)
  end.

(** [ControlClient.CreateIndex] *)
Definition CreateIndex (c : ControlClient) (req : CreateIndexRequest)
  : list Request * result IndexResponse :=
  match CreateIndexRequest_Validate req with
  | Some e => ([], Failed e)
  | None =>
    decoded StatusCreated (Decode_IndexResponse E)
      (ControlClient_request c "POST" "/indexes" (Some (Encode_CreateIndexRequest E req)))
  end.

(** [ControlClient.DescribeIndex] *)
Definition DescribeIndex (c : ControlClient) (indexName : string)
  : list Request * result IndexResponse :=
  decoded StatusOK (Decode_IndexResponse E)
    (ControlClient_request c "GET" ("/indexes/" ++ PathEscape indexName)%string None).

(** [ControlClient.DeleteIndex] *)
Definition DeleteIndex (c : ControlClient) (indexName : string)
  : list Request * option error :=
  accepted StatusAccepted
    (ControlClient_request c "DELETE" ("/indexes/" ++ PathEscape indexName)%string None).

(** [ControlClient.ConfigureIndex] *)
Definition ConfigureIndex (c : ControlClient) (req : ConfigureIndexRequest)
  : list Request * result IndexResponse :=
  decoded StatusAccepted (Decode_IndexResponse E)
    (ControlClient_request c "PATCH"
       ("/indexes/" ++ PathEscape (ConfigureIndexRequest_IndexName req))%string
       (Some (Encode_ConfigureIndexRequest E req))).

(** [ControlClient.DescribeCollection] *)
Definition DescribeCollection (c : ControlClient) (collectionName : string)
  : list Request * result CollectionResponse :=
  decoded StatusOK (Decode_CollectionResponse E)
    (ControlClient_request c "GET" ("/collections/" ++ PathEscape collectionName)%string None).

(** [ControlClient.DeleteCollection] *)
Definition DeleteCollection (c : ControlClient) (collectionName : string)
  : list Request * option error :=
  accepted StatusAccepted
    (ControlClient_request c "DELETE" ("/collections/" ++ PathEscape collectionName)%string
       None).

(** [DataClient.QueryVectors] *)
Definition QueryVectors (c : DataClient) (req : QueryVectorsRequest)
  : list Request * result QueryVectorsResponse :=
  match QueryVectorsRequest_Validate req with
  | Some e => ([], Failed e)
  | None =>
    decoded StatusOK (Decode_QueryVectorsResponse E)
      (DataClient_request c "POST" "/query" (Some (Encode_QueryVectorsRequest E req)))
  end.

(** The query that [ListVectorIDs] builds with [query.Set]. *)
Definition ListVectorIDs_query (req : ListVectorIDsRequest) : Values :=
  let query : Values := [] in
  let query :=
    if negb (ListVectorIDsRequest_Namespace req =? EmptyString)%string
    then Set_ query "namespace" (ListVectorIDsRequest_Namespace req) else query in
  let query :=
    if negb (ListVectorIDsRequest_Prefix req =? EmptyString)%string
    then Set_ query "prefix" (ListVectorIDsRequest_Prefix req) else query in
  let query :=
    if (ListVectorIDsRequest_Limit req >? 0)%Z
    then Set_ query "limit" (Itoa (ListVectorIDsRequest_Limit req)) else query in
  let query :=
    if negb (ListVectorIDsRequest_PaginationToken req =? EmptyString)%string
    then Set_ query "paginationToken" (ListVectorIDsRequest_PaginationToken req)
    else query in
  query.

(** [DataClient.ListVectorIDs] *)
Definition ListVectorIDs (c : DataClient) (req : ListVectorIDsRequest)
  : list Request * result ListVectorIDsResponse :=
  let url := ("/vectors/list?" ++ Encode (ListVectorIDs_query req))%string in
  decoded StatusOK (Decode_ListVectorIDsResponse E)
    (DataClient_request c "GET" url None).

End Package.

Arguments mkQueryVectorsRequest {map_string_any} _ _ _ _ _ _ _ _.
Arguments QueryVectorsRequest_TopK {map_string_any} q.
Arguments QueryVectorsRequest_Validate {map_string_any} r.
Arguments checkRequest {map_string_any} e _ _.
Arguments Do {map_string_any} e _.
Arguments Encode_CreateIndexRequest {map_string_any} e _.
Arguments Encode_ConfigureIndexRequest {map_string_any} e _.
Arguments Encode_QueryVectorsRequest {map_string_any} e _.
Arguments Decode_IndexResponse {map_string_any} e _.
Arguments Decode_CollectionResponse {map_string_any} e _.
Arguments Decode_QueryVectorsResponse {map_string_any} e _.
Arguments Decode_ListVectorIDsResponse {map_string_any} e _.
Arguments Decode_ErrorResponse {map_string_any} e _.
Arguments NewRequestWithContext {map_string_any} E method url buf.
Arguments request {map_string_any} E baseURL token method path body.
Arguments ControlClient_request {map_string_any} E c _ _ _.
Arguments DataClient_request {map_string_any} E c _ _ _.
Arguments decodeError {map_string_any} E resp.
Arguments decoded {map_string_any} E {A} status decode r.
Arguments accepted {map_string_any} E status r.
Arguments CreateIndex {map_string_any} E c req.
Arguments DescribeIndex {map_string_any} E c indexName.
Arguments DeleteIndex {map_string_any} E c indexName.
Arguments ConfigureIndex {map_string_any} E c req.
Arguments DescribeCollection {map_string_any} E c collectionName.
Arguments DeleteCollection {map_string_any} E c collectionName.
Arguments QueryVectors {map_string_any} E c req.
Arguments ListVectorIDs {map_string_any} E c req.

End Pinecone.

(* ================================================================= *)
(** ** Package openai: the requests sent as multipart forms

    [mime/multipart], [os] and [path/filepath] as the code uses them.  A
    [multipart.Writer] is seen through the parts created on it, oldest
    first; the writer under it either takes every write, as the
    [bytes.Buffer] of [requestMultipartFormData] does, or refuses every
    write with the error [broken].  The methods return, beside their
    results, the files they opened and left open and the requests they
    handed to the HTTP client. *)

Module OpenAIForms.

Import OpenAI.

Inductive Part : Type :=
| FormFile (fieldname filename : string) (data : bytes)
| FormField (fieldname value : string).

Record Writer : Type := mkWriter {
  parts : list Part;
  broken : option error
}.

(** [multipart.NewWriter] over a [bytes.Buffer] *)
Definition NewWriter : Writer := mkWriter [] None.

(** [writer.CreateFormFile(fieldname, filename)] *)
Definition CreateFormFile (w : Writer) (fieldname filename : string) : result Writer :=
  match broken w with
  | Some e => Failed e
  | None => Ok (mkWriter (parts w ++ [FormFile fieldname filename []]) None)
  end.

(** [io.Copy(part, file)] into the file part created last: the bytes of
    the file up to its end or to the error of reading it. *)
Definition Copy (w : Writer) (file : Reader) : Writer * option error :=
  let copied :=
    match rev (parts w) with
    | FormFile fieldname filename data :: before =>
      rev before ++ [FormFile fieldname filename (data ++ pending file)]
    | _ => parts w
    end in
  (mkWriter copied (broken w),
   if is_EOF (final file) then None else Some (final file)).

(** [_ = writer.WriteField(fieldname, value)] *)
Definition WriteField (w : Writer) (fieldname value : string) : Writer :=
  match broken w with
  | Some _ => w
  | None => mkWriter (parts w ++ [FormField fieldname value]) None
  end.

(** [writer.Close()] *)
Definition Close (w : Writer) : option error := broken w.

Definition containsAny (s chars : string) : bool :=
  existsb (fun c => URL.oneOf chars c) (list_ascii_of_string s).

(** [writer.FormDataContentType()] for the boundary [b], which is quoted
    when it holds a space or one of the special characters of RFC 2045
    (parentheses, angle and square brackets, at sign, comma, semicolon,
    colon, backslash, double quote, slash, question mark, equals
    sign). *)
Definition FormDataContentType (b : string) : string :=
  let specials :=
    ("()<>@,;:\" ++ String (ascii_of_N 0x22) "/[]?= ")%string in
  let b := if containsAny b specials
           then (String (ascii_of_N 0x22) b ++ String (ascii_of_N 0x22) EmptyString)%string
           else b in
  ("multipart/form-data; boundary=" ++ b)%string.

(** [filepath.Base], where the separator is [/]. *)
Definition isSeparator (c : ascii) : bool := Ascii.eqb c "/".

Fixpoint dropWhile (p : ascii -> bool) (l : list ascii) : list ascii :=
  match l with
  | [] => []
  | c :: l' => if p c then dropWhile p l' else l
  end.

Fixpoint takeWhile (p : ascii -> bool) (l : list ascii) : list ascii :=
  match l with
  | [] => []
  | c :: l' => if p c then c :: takeWhile p l' else []
  end.

Definition Base (path : string) : string :=
  if (path =? EmptyString)%string then "."
  else
    (* Strip trailing slashes, then keep what follows the last slash. *)
    let stripped := dropWhile isSeparator (rev (list_ascii_of_string path)) in
    let last := rev (takeWhile (fun c => negb (isSeparator c)) stripped) in
    match last with
    | [] => "/"
    | _ :: _ => string_of_list_ascii last
    end.

(** [x != 0] for a [float32] given by its bits: both zeros are zero. *)
Definition nonzero32 (bits : N) : bool :=
  negb ((bits =? 0)%N || (bits =? 0x80000000)%N).

Record Word : Type := mkWord {
  Word_Word : string;
  Word_Start : N;
  Word_End : N
}.

Record Segment : Type := mkSegment {
  Segment_ID : Z;
  Segment_Seek : Z;
  Segment_Start : N;
  Segment_End : N;
  Segment_Text : string;
  Segment_Tokens : list Z;
  Segment_Temperature : N;
  Segment_AvgLogProb : N;
  Segment_CompressionRatio : N;
  Segment_NoSpeechProb : N
}.

Record TranscriptionResponse : Type := mkTranscriptionResponse {
  TranscriptionResponse_Task : string;
  TranscriptionResponse_Language : string;
  TranscriptionResponse_Duration : N;
  TranscriptionResponse_Text : string;
  TranscriptionResponse_Words : list Word;
  TranscriptionResponse_Segments : list Segment
}.

Record CreateTranscriptionRequest : Type := mkCreateTranscriptionRequest {
  Transcription_File : string;
  Transcription_Model : string;
  Transcription_Language : string;
  Transcription_Prompt : string;
  Transcription_ResponseFormat : string;
  Transcription_Temperature : N;
  Transcription_TimestampGranularities : list string
}.

Record TranslationResponse : Type := mkTranslationResponse {
  TranslationResponse_Text : string
}.

Record CreateTranslationRequest : Type := mkCreateTranslationRequest {
  Translation_File : string;
  Translation_Model : string;
  Translation_Prompt : string;
  Translation_ResponseFormat : string;
  Translation_Temperature : N
}.

Record ImageData : Type := mkImageData {
  ImageData_B64JSON : string;
  ImageData_URL : string;
  ImageData_RevisedPrompt : string
}.

Record ImageResponse : Type := mkImageResponse {
  ImageResponse_Created : Z;
  ImageResponse_Data : list ImageData
}.

Record EditImageRequest : Type := mkEditImageRequest {
  EditImage_Image : string;
  EditImage_Prompt : string;
  EditImage_Mask : string;
  EditImage_Model : string;
  EditImage_N : Z;
  EditImage_Size : string;
  EditImage_ResponseFormat : string;
  EditImage_User : string
}.

(** The interface [MultipartFormDataRequest] and its three
    implementations. *)
Inductive MultipartFormDataRequest : Type :=
| TranscriptionForm (req : CreateTranscriptionRequest)
| TranslationForm (req : CreateTranslationRequest)
| EditImageForm (req : EditImageRequest).

(** What these methods take from their imports.  [os_Open] is [os.Open]
    and gives the file as a reader; [boundary] is the boundary
    [multipart.NewWriter] has drawn and [render] the bytes the writer has
    produced for the parts once closed; [Sprintf_f] is
    [fmt.Sprintf("%f", x)]; [checkRequest] is the error of
    [http.NewRequestWithContext], if it has one. *)
Record Env : Type := mkEnv {
  os_Open : string -> result Reader;
  boundary : string;
  render : string -> list Part -> bytes;
  Sprintf_f : N -> string;
  checkRequest : string -> string -> option error;
  Do : Request -> result Response;
  Decode_TranscriptionResponse : Reader -> result TranscriptionResponse;
  Decode_TranslationResponse : Reader -> result TranslationResponse;
  Decode_ImageResponse : Reader -> result ImageResponse;
  Decode_ErrorResponse : Reader -> result ErrorResponse
}.

Section WithEnv.

Variable E : Env.

(** How [AddFields] ends: the writer, the files opened and not closed,
    and the error. *)
Record Added : Type := mkAdded {
  written : Writer;
  leftOpen : list string;
  failure : option error
}.

(** [file.Close()]: the file is no longer among the open ones. *)
Fixpoint closeFile (path : string) (opened : list string) : list string :=
  match opened with
  | [] => []
  | p :: opened' => if (p =? path)%string then opened' else p :: closeFile path opened'
  end.

(** [defer file.Close()]: whatever the rest of the function returns, the
    file is closed first. *)
Definition deferClose (path : string) (opened : list string)
           (rest : Writer * option error) : Added :=
  mkAdded (fst rest) (closeFile path opened) (snd rest).

Definition whenSet (value : string) (w : Writer) (fieldname : string) : Writer :=
  if negb (value =? EmptyString)%string then WriteField w fieldname value else w.

(** [CreateTranscriptionRequest.AddFields] *)
Definition Transcription_AddFields (req : CreateTranscriptionRequest) (writer : Writer) : Added :=
  match os_Open E (Transcription_File req) with
  | Failed e => mkAdded writer [] (Some (wrapped "failed to open file: " e))
  | Ok file =>
    deferClose (Transcription_File req) [Transcription_File req]
      match CreateFormFile writer "file" (Base (Transcription_File req)) with
      | Failed e => (writer, Some (wrapped "failed to create form file: " e))
      | Ok writer =>
        match Copy writer file with
        | (writer, Some e) => (writer, Some (wrapped "failed to copy file: " e))
        | (writer, None) =>
          let writer := whenSet (Transcription_Model req) writer "model" in
          let writer := whenSet (Transcription_Language req) writer "language" in
          let writer := whenSet (Transcription_Prompt req) writer "prompt" in
          let writer := whenSet (Transcription_ResponseFormat req) writer "response_format" in
          let writer :=
            if nonzero32 (Transcription_Temperature req)
            then WriteField writer "temperature" (Sprintf_f E (Transcription_Temperature req))
            else writer in
          let writer :=
            fold_left (fun w granularity => WriteField w "timestamp_granularities[]" granularity)
              (Transcription_TimestampGranularities req) writer in
          (writer, None)
        end
      end
  end.

(** [CreateTranslationRequest.AddFields] *)
Definition Translation_AddFields (req : CreateTranslationRequest) (writer : Writer) : Added :=
  match os_Open E (Translation_File req) with
  | Failed e => mkAdded writer [] (Some (wrapped "failed to open file: " e))
  | Ok file =>
    deferClose (Translation_File req) [Translation_File req]
      match CreateFormFile writer "file" (Base (Translation_File req)) with
      | Failed e => (writer, Some (wrapped "failed to create form file: " e))
      | Ok writer =>
        match Copy writer file with
        | (writer, Some e) => (writer, Some (wrapped "failed to copy file: " e))
        | (writer, None) =>
          let writer := whenSet (Translation_Model req) writer "model" in
          let writer := whenSet (Translation_Prompt req) writer "prompt" in
          let writer := whenSet (Translation_ResponseFormat req) writer "response_format" in
          let writer :=
            if nonzero32 (Translation_Temperature req)
            then WriteField writer "temperature" (Sprintf_f E (Translation_Temperature req))
            else writer in
          (writer, None)
        end
      end
  end.

(** [EditImageRequest.AddFields], which has no [Close]. *)
Definition EditImage_AddFields (req : EditImageRequest) (writer : Writer) : Added :=
  match os_Open E (EditImage_Image req) with
  | Failed e => mkAdded writer [] (Some (wrapped "failed to open file: " e))
  | Ok image =>
    let opened := [EditImage_Image req] in
    match CreateFormFile writer "image" (Base (EditImage_Image req)) with
    | Failed e => mkAdded writer opened (Some (wrapped "failed to create form file: " e))
    | Ok writer =>
      match Copy writer image with
      | (writer, Some e) => mkAdded writer opened (Some (wrapped "failed to copy file: " e))
      | (writer, None) =>
        let masked :=
          if negb (EditImage_Mask req =? EmptyString)%string then
            match os_Open E (EditImage_Mask req) with
            | Failed e => mkAdded writer opened (Some (wrapped "failed to open mask: " e))
            | Ok mask =>
              let opened := opened ++ [EditImage_Mask req] in
              match CreateFormFile writer "mask" (Base (EditImage_Mask req)) with
              | Failed e =>
                mkAdded writer opened (Some (wrapped "failed to create form file: " e))
              | Ok writer =>
                match Copy writer mask with
                | (writer, Some e) =>
                  mkAdded writer opened (Some (wrapped "failed to copy mask: " e))
                | (writer, None) => mkAdded writer opened None
                end
              end
            end
          else mkAdded writer opened None in
        match failure masked with
        | Some e => masked
        | None =>
          let writer := written masked in
          let writer := whenSet (EditImage_Prompt req) writer "prompt" in
          let writer := whenSet (EditImage_Model req) writer "model" in
          let writer :=
            if negb (EditImage_N req =? 0)%Z
            then WriteField writer "n" (URL.Itoa (EditImage_N req)) else writer in
          let writer := whenSet (EditImage_Size req) writer "size" in
          let writer := whenSet (EditImage_ResponseFormat req) writer "response_format" in
          let writer := whenSet (EditImage_User req) writer "user" in
          mkAdded writer (leftOpen masked) None
        end
      end
    end
  end.

(** The method [AddFields] of the interface. *)
Definition AddFields (req : MultipartFormDataRequest) (writer : Writer) : Added :=
  match req with
  | TranscriptionForm r => Transcription_AddFields r writer
  | TranslationForm r => Translation_AddFields r writer
  | EditImageForm r => EditImage_AddFields r writer
  end.

(** How a method that sends a form ends: the files left open, the requests
    handed to the HTTP client, and the two results. *)
Record Call (A : Type) : Type := mkCall {
  files : list string;
  sent : list Request;
  returned : result A
}.

Arguments mkCall {A} files sent returned.
Arguments files {A} c.
Arguments sent {A} c.
Arguments returned {A} c.

(** [c.requestMultipartFormData] *)
Definition requestMultipartFormData (c : Client) (url : string)
           (req : MultipartFormDataRequest) : Call Response :=
  let writer := NewWriter in
  let added := AddFields req writer in
  match failure added with
  | Some e =>
    mkCall (leftOpen added) []
      (Failed (wrapped "failed to add fields to form data: " e))
  | None =>
    let writer := written added in
    match Close writer with
    | Some e => mkCall (leftOpen added) [] (Failed (wrapped "failed to close writer: " e))
    | None =>
      match checkRequest E "POST" url with
      | Some e => mkCall (leftOpen added) [] (Failed e)
      | None =>
        let httpReq := mkRequest "POST" url [] (render E (boundary E) (parts writer)) in
        let httpReq := Header_Set "Content-Type" (FormDataContentType (boundary E)) httpReq in
        let httpReq := Header_Set "Authorization" ("Bearer " ++ token c)%string httpReq in
        mkCall (leftOpen added) [httpReq] (Do E httpReq)
      end
    end
  end.

(** [c.decodeError], on the error decoder of this environment. *)
Definition decodeError (resp : Response) : error :=
  match Decode_ErrorResponse E (Body resp) with
  | Failed e => errorString ("error decoding error response: " ++ Error e)%string
  | Ok errResp =>
    errorString (ErrorDetail_Type (ErrorResponse_Error errResp) ++ ": "
                 ++ ErrorDetail_Message (ErrorResponse_Error errResp))%string
  end.

(** The end that [CreateTranscription], [CreateTranslation] and
    [EditImage] share: the error of the request is wrapped, the status is
    checked, the body is decoded. *)
Definition decodedForm {A : Type} (decode : Reader -> result A) (r : Call Response) : Call A :=
  match returned r with
  | Failed e => mkCall (files r) (sent r) (Failed (wrapped "failed to perform request: " e))
  | Ok resp =>
    if negb (StatusCode resp =? StatusOK)%Z
    then mkCall (files r) (sent r) (Failed (decodeError resp))
    else match decode (Body resp) with
         | Failed e =>
           mkCall (files r) (sent r) (Failed (wrapped "failed to decode response: " e))
         | Ok v => mkCall (files r) (sent r) (Ok v)
         end
  end.

(** [Client.CreateTranscription] *)
Definition CreateTranscription (c : Client) (req : CreateTranscriptionRequest)
  : Call TranscriptionResponse :=
  let url := (baseURL c ++ "/audio/transcriptions")%string in
  decodedForm (Decode_TranscriptionResponse E)
    (requestMultipartFormData c url (TranscriptionForm req)).

(** [Client.CreateTranslation] *)
Definition CreateTranslation (c : Client) (req : CreateTranslationRequest)
  : Call TranslationResponse :=
  let url := (baseURL c ++ "/audio/translations")%string in
  decodedForm (Decode_TranslationResponse E)
    (requestMultipartFormData c url (TranslationForm req)).

(** [Client.EditImage] *)
Definition EditImage (c : Client) (req : EditImageRequest) : Call ImageResponse :=
  let url := (baseURL c ++ "/images/edits")%string in
  decodedForm (Decode_ImageResponse E)
    (requestMultipartFormData c url (EditImageForm req)).

End WithEnv.

Arguments mkCall {A} files sent returned.
Arguments files {A} c.
Arguments sent {A} c.
Arguments returned {A} c.

End OpenAIForms.

(* ================================================================= *)
(** ** An environment to run the form requests *)

Module SampleForms.

Import Sample OpenAI OpenAIForms.

(** A file system with two files. *)
Definition open (path : string) : result Reader :=
  if (path =? "/tmp/audio/talk.mp3")%string then Ok (mkReader (B "ID3-audio-bytes") io_EOF)
  else if (path =? "/tmp/img/cat.png")%string then Ok (mkReader (B "PNG-image-bytes") io_EOF)
  else Failed (libError "os" ("open " ++ path ++ ": no such file or directory")).

Definition quoted (s : string) : bytes := x22 :: B s ++ [x22].

Definition crlf : bytes := [x0d; x0a].

Definition renderPart (p : Part) : bytes :=
  match p with
  | FormFile fieldname filename data =>
    B "Content-Disposition: form-data; name=" ++ quoted fieldname
    ++ B "; filename=" ++ quoted filename ++ crlf
    ++ B "Content-Type: application/octet-stream" ++ crlf ++ crlf ++ data
  | FormField fieldname value =>
    B "Content-Disposition: form-data; name=" ++ quoted fieldname ++ crlf ++ crlf ++ B value
  end.

(** The body of a form whose names need no escaping. *)
Definition renderParts (boundary : string) (ps : list Part) : bytes :=
  flat_map (fun p => B "--" ++ B boundary ++ crlf ++ renderPart p ++ crlf) ps
  ++ B "--" ++ B boundary ++ B "--" ++ crlf.

(** [%f] for the two temperatures of the examples, 0.2 and 1. *)
Definition showFloat (bits : N) : string :=
  if (bits =? 0x3e4ccccd)%N then "0.200000"
  else if (bits =? 0x3f800000)%N then "1.000000"
  else "NaN".

Definition transcription (ms : list (string * value)) : result TranscriptionResponse :=
  let? task := asString (field ms "task") in
  let? language := asString (field ms "language") in
  let? text := asString (field ms "text") in
  Ok (mkTranscriptionResponse task language 0 text [] []).

Definition translation (ms : list (string * value)) : result TranslationResponse :=
  let? text := asString (field ms "text") in
  Ok (mkTranslationResponse text).

Definition imageData (v : value) : result ImageData :=
  let? ms := asObject v in
  let? b64 := asString (field ms "b64_json") in
  let? url := asString (field ms "url") in
  let? revised := asString (field ms "revised_prompt") in
  Ok (mkImageData b64 url revised).

Definition image (ms : list (string * value)) : result ImageResponse :=
  let? created := asInt (field ms "created") in
  let? data := asSlice imageData (field ms "data") in
  Ok (mkImageResponse created data).

(** The environment in which the server answers with [resp]. *)
Definition env (resp : Response) : Env :=
  mkEnv open "7d4a1f" renderParts showFloat (fun _ _ => None) (answer resp)
    (Decode transcription) (Decode translation) (Decode image) (Decode O.errorResponse).

End SampleForms.

(* ================================================================= *)
(** ** An environment to run the pinecone client *)

Module SamplePinecone.

Import Sample Pinecone.

Definition asBool (v : value) : result bool :=
  match v with
  | Null => Ok false
  | Bool b => Ok b
  | _ => Failed typeError
  end.

Definition pod (ms : list (string * value)) : result Pod :=
  let? env := asString (field ms "environment") in
  let? replicas := asInt (field ms "replicas") in
  let? podType := asString (field ms "pod_type") in
  let? pods := asInt (field ms "pods") in
  let? shards := asInt (field ms "shards") in
  let? mc := asObject (field ms "metadata_config") in
  let? indexed := asSlice asString (field mc "indexed") in
  let? source := asString (field ms "source_collection") in
  Ok (mkPod env replicas podType pods shards (mkMetadataConfig indexed) source).

Definition serverless (ms : list (string * value)) : result Serverless :=
  let? cloud := asString (field ms "cloud") in
  let? region := asString (field ms "region") in
  Ok (mkServerless cloud region).

Definition indexResponse (ms : list (string * value)) : result IndexResponse :=
  let? name := asString (field ms "name") in
  let? dimension := asInt (field ms "dimension") in
  let? metric := asString (field ms "metric") in
  let? host := asString (field ms "host") in
  let? spec := asObject (field ms "spec") in
  let? p := asObject (field spec "pod") in
  let? pd := pod p in
  let? sl := asObject (field spec "serverless") in
  let? sv := serverless sl in
  let? st := asObject (field ms "status") in
  let? ready := asBool (field st "ready") in
  let? state := asString (field st "state") in
  Ok (mkIndexResponse name dimension metric host pd sv (mkStatus ready state)).

Definition collectionResponse (ms : list (string * value)) : result CollectionResponse :=
  let? name := asString (field ms "name") in
  let? size := asInt (field ms "size") in
  let? status := asString (field ms "status") in
  let? dimension := asInt (field ms "dimension") in
  let? count := asInt (field ms "vector_count") in
  let? env := asString (field ms "environment") in
  Ok (mkCollectionResponse name size status dimension count env).

(** The query response of this environment keeps the namespace and the
    read units. *)
Definition queryVectorsResponse (ms : list (string * value)) : result (QueryVectorsResponse unit) :=
  let? ns := asString (field ms "namespace") in
  let? usage := asObject (field ms "usage") in
  let? units := asInt (field usage "readUnits") in
  Ok (mkQueryVectorsResponse unit ns [] units).

Definition vectorID (v : value) : result string :=
  let? ms := asObject v in
  asString (field ms "id").

Definition listVectorIDsResponse (ms : list (string * value)) : result ListVectorIDsResponse :=
  let? ids := asSlice vectorID (field ms "vectors") in
  let? pg := asObject (field ms "pagination") in
  let? next := asString (field pg "next") in
  let? ns := asString (field ms "namespace") in
  Ok (mkListVectorIDsResponse ids next ns).

Definition errorResponse (ms : list (string * value)) : result ErrorResponse :=
  let? status := asInt (field ms "status") in
  let? e := asObject (field ms "Error") in
  let? code := asString (field e "code") in
  let? msg := asString (field e "message") in
  Ok (mkErrorResponse status (mkErrorDetail code msg)).

(** The request bodies of this environment keep one member each. *)
Definition encodeName (r : CreateIndexRequest) : result bytes :=
  Ok (J "{'name':'" ++ B (CreateIndexRequest_Name r) ++ J "'}" ++ [x0a]).

Definition encodeIndexName (r : ConfigureIndexRequest) : result bytes :=
  Ok (J "{'index_name':'" ++ B (ConfigureIndexRequest_IndexName r) ++ J "'}" ++ [x0a]).

Definition encodeTopK (r : QueryVectorsRequest unit) : result bytes :=
  Ok (J "{'topK':" ++ B (URL.Itoa (QueryVectorsRequest_TopK r)) ++ J "}" ++ [x0a]).

(** The environment in which every request is well formed and the server
    answers with [resp]. *)
Definition env (resp : Response) : Env unit :=
  mkEnv unit (fun _ _ => None) (answer resp)
    encodeName encodeIndexName encodeTopK
    (Decode indexResponse)
    (Decode collectionResponse)
    (Decode queryVectorsResponse)
    (Decode listVectorIDsResponse)
    (Decode errorResponse).

Definition control : ControlClient := NewControlClient "token".

Definition data : DataClient := NewDataClient "https://index-1.svc.pinecone.io" "token".

End SamplePinecone.

(* ================================================================= *)
(** ** Vocabulary of the statements on URLs *)

Module Text.

(** Every character of [s] passes [p]. *)
Fixpoint every (p : ascii -> bool) (s : string) : bool :=
  match s with
  | EmptyString => true
  | String c s' => p c && every p s'
  end.

(** How many times [c] occurs in [s]. *)
Fixpoint occurrences (c : ascii) (s : string) : nat :=
  match s with
  | EmptyString => 0
  | String a s' => (if Ascii.eqb a c then 1 else 0) + occurrences c s'
  end.

(** The URL of a request is [root], one more segment, and nothing else:
    the segment has no [/], [?], [#] or space. *)
Definition oneSegment (root : string) (q : Request) : Prop :=
  exists segment,
    URL q = (root ++ segment)%string
    /\ Forall (fun c => occurrences c segment = 0) ["/"; "?"; "#"; " "]%char.

(** The characters [escape] can write in a mode: letters, digits, [-_.~],
    the percent sign, and the plus sign in a query or [$&+:=@] in a path
    segment. *)
Definition written (mode : URL.encoding) (c : ascii) : bool :=
  URL.isAlnum c || URL.oneOf "-_.~%" c
  || match mode with
     | URL.encodeQueryComponent => URL.oneOf "+" c
     | URL.encodePathSegment => URL.oneOf "$&+:=@" c
     end.

(** The value of a hexadecimal digit. *)
Definition unhex (c : ascii) : N :=
  let n := N_of_ascii c in
  if (n <? 0x3a)%N then (n - 0x30)%N else (n - 0x41 + 10)%N.

(** Reading back what [escape] wrote. *)
Fixpoint unescape (s : string) (mode : URL.encoding) : string :=
  match s with
  | EmptyString => EmptyString
  | String c s' =>
    if Ascii.eqb c "%" then
      match s' with
      | String h1 (String h2 s'') =>
        String (ascii_of_N (16 * unhex h1 + unhex h2)) (unescape s'' mode)
      | _ => s
      end
    else if Ascii.eqb c "+" then
      match mode with
      | URL.encodeQueryComponent => String " " (unescape s' mode)
      | URL.encodePathSegment => String c (unescape s' mode)
      end
    else String c (unescape s' mode)
  end.

(** The parameters of [ListVectorIDs] that are set, in the order of their
    names. *)
Definition parameters (req : Pinecone.ListVectorIDsRequest) : list (string * string) :=
  (if (Pinecone.ListVectorIDsRequest_Limit req >? 0)%Z
   then [("limit", URL.Itoa (Pinecone.ListVectorIDsRequest_Limit req))] else [])
  ++ (if (Pinecone.ListVectorIDsRequest_Namespace req =? EmptyString)%string
      then [] else [("namespace", Pinecone.ListVectorIDsRequest_Namespace req)])
  ++ (if (Pinecone.ListVectorIDsRequest_PaginationToken req =? EmptyString)%string
      then [] else [("paginationToken", Pinecone.ListVectorIDsRequest_PaginationToken req)])
  ++ (if (Pinecone.ListVectorIDsRequest_Prefix req =? EmptyString)%string
      then [] else [("prefix", Pinecone.ListVectorIDsRequest_Prefix req)]).

End Text.

(* ================================================================= *)
(** ** Vocabulary of the statements on forms *)

Module FormText.

Import OpenAIForms.

(** The field written for a value, none when the value is empty. *)
Definition optional (fieldname value : string) : list Part :=
  if (value =? EmptyString)%string then [] else [FormField fieldname value].

(** A file name with no directory in it: not empty, and without a slash
    unless it is the root. *)
Definition plainName (filename : string) : Prop :=
  filename <> EmptyString
  /\ (Text.occurrences "/" filename = 0 \/ filename = "/"%string).

(** The file parts of [ps] have plain names. *)
Definition plainNames (ps : list Part) : Prop :=
  forall fieldname filename data,
    In (FormFile fieldname filename data) ps -> plainName filename.

End FormText.

(* ================================================================= *)
(** ** Vocabulary of the statements on what is delivered *)

Module Delivery.

Section Tidy.

Variable Ev : Type.

(** The test for the events that end a stream. *)
Variable terminal : Ev -> bool.

(** None of the events ends the stream. *)
Definition ongoing (evs : list Ev) : Prop :=
  Forall (fun ev => terminal ev = false) evs.

(** The events [evs] were delivered and the call returned [e]: no
    terminal event among them, or one only, the last, and [e] is [nil]. *)
Definition tidy (evs : list Ev) (e : option error) : Prop :=
  ongoing evs
  \/ exists pre t, evs = pre ++ [t] /\ ongoing pre /\ terminal t = true /\ e = None.

End Tidy.

Arguments ongoing {Ev} terminal evs.
Arguments tidy {Ev} terminal evs e.

(** The anthropic event that ends the stream. *)
Definition isStop (ev : Anthropic.Event) : bool :=
  (Anthropic.EventType ev =? "message_stop")%string.

(** The openai chunks that end the stream: a choice of theirs has a
    finish reason. *)
Definition isFinished (chunk : OpenAI.ChatChunk) : bool :=
  existsb (fun c => negb (OpenAI.FinishReason c =? EmptyString)%string)
    (OpenAI.Choices chunk).

Section Misshapen.

Import Anthropic AnthropicWire.

Variable E : Env.

(** [line] is a record of a known kind whose payload the decoder of that
    kind rejects with [e]. *)
Inductive misshapen (line : bytes) (e : error) : Prop :=
| misshapen_message_start :
    record E line "message_start" ->
    Unmarshal_MessageStartEvent E (payload line) = Failed e ->
    misshapen line e
| misshapen_content_block_start :
    record E line "content_block_start" ->
    Unmarshal_ContentBlockStartEvent E (payload line) = Failed e ->
    misshapen line e
| misshapen_content_block_delta :
    record E line "content_block_delta" ->
    Unmarshal_ContentBlockDeltaEvent E (payload line) = Failed e ->
    misshapen line e
| misshapen_content_block_stop :
    record E line "content_block_stop" ->
    Unmarshal_ContentBlockStopEvent E (payload line) = Failed e ->
    misshapen line e
| misshapen_message_delta :
    record E line "message_delta" ->
    Unmarshal_MessageDeltaEvent E (payload line) = Failed e ->
    misshapen line e
| misshapen_error :
    record E line "error" ->
    Unmarshal_ErrorResponse E (payload line) = Failed e ->
    misshapen line e.

End Misshapen.

End Delivery.

(* ================================================================= *)
(** * Properties *)

(** ** Reading lines *)

Section ReadingFacts.

Lemma cut_app (d : byte) (s line rest : bytes) :
  cut d s = Some (line, rest) -> s = line ++ rest.
Proof.
  revert line rest. induction s as [|b s IH]; intros line rest H; simpl in H.
  - discriminate.
  - destruct (Byte.eqb b d).
    + inversion H; subst. reflexivity.
    + destruct (cut d s) as [[l r]|]; [|discriminate].
      inversion H; subst. simpl. f_equal. apply IH. reflexivity.
Qed.

Lemma cut_shorter (d : byte) (s line rest : bytes) :
  cut d s = Some (line, rest) -> List.length rest < List.length s.
Proof.
  revert line rest. induction s as [|b s IH]; intros line rest H; simpl in H.
  - discriminate.
  - destruct (Byte.eqb b d).
    + inversion H; subst. simpl. lia.
    + destruct (cut d s) as [[l r]|]; [|discriminate].
      inversion H; subst. simpl. specialize (IH l rest eq_refl). lia.
Qed.

Lemma eqb_newline (b : byte) : Byte.eqb b x0a = true <-> b = x0a.
Proof.
  split.
  - intros H. apply Byte.byte_dec_bl in H. exact H.
  - intros ->. reflexivity.
Qed.

Lemma cut_fragment (t : bytes) : Fragment t -> cut x0a t = None.
Proof.
  unfold Fragment. induction t as [|b t IH]; intros H; simpl.
  - reflexivity.
  - destruct (Byte.eqb b x0a) eqn:Hb.
    + exfalso. apply H. left. apply eqb_newline. exact Hb.
    + rewrite IH; [reflexivity|]. intros Hin. apply H. right. exact Hin.
Qed.

Lemma cut_line (l rest : bytes) : Line l -> cut x0a (l ++ rest) = Some (l, rest).
Proof.
  intros [t [-> Ht]]. induction t as [|b t IH]; simpl.
  - reflexivity.
  - destruct (Byte.eqb b x0a) eqn:Hb.
    + exfalso. apply Ht. left. apply eqb_newline. exact Hb.
    + rewrite IH; [reflexivity|]. intros Hin. apply Ht. right. exact Hin.
Qed.

Lemma cut_is_line (s line rest : bytes) :
  cut x0a s = Some (line, rest) -> Line line.
Proof.
  revert line rest. induction s as [|b s IH]; intros line rest H; simpl in H.
  - discriminate.
  - destruct (Byte.eqb b x0a) eqn:Hb.
    + inversion H; subst. apply eqb_newline in Hb. subst b.
      exists []. split; [reflexivity|]. intros [].
    + destruct (cut x0a s) as [[l r]|]; [|discriminate].
      inversion H; subst. destruct (IH l rest eq_refl) as [t [-> Ht]].
      exists (b :: t). split; [reflexivity|].
      intros [Heq|Hin]; [|exact (Ht Hin)].
      subst b. discriminate.
Qed.

Lemma isLine_Line (l : bytes) : isLine l = true -> Line l.
Proof.
  unfold isLine. destruct (cut x0a l) as [[line rest]|] eqn:Hcut; [|discriminate].
  destruct rest; [|discriminate]. intros _.
  pose proof (cut_app _ _ _ _ Hcut) as Happ. rewrite app_nil_r in Happ. subst line.
  exact (cut_is_line _ _ _ Hcut).
Qed.

End ReadingFacts.

(** ** The loop *)

Section LoopFacts.

Variable Ev : Type.
Variable wrapRead : error -> error.
Variable body : bytes -> M Ev unit.

(** Fuel beyond the number of pending bytes changes nothing. *)
Lemma loop_fuel (f1 : nat) :
  forall (f2 : nat) (r : Reader) (s : Sink Ev),
    List.length (pending r) < f1 ->
    List.length (pending r) < f2 ->
    loop wrapRead body f1 r s = loop wrapRead body f2 r s.
Proof.
  induction f1 as [|f1 IH]; intros f2 r s H1 H2; [lia|].
  destruct f2 as [|f2]; [lia|].
  simpl. unfold ReadBytes.
  destruct (cut x0a (pending r)) as [[line rest]|] eqn:Hcut.
  - destruct (body line s) as [s' [[]|e']]; [|reflexivity].
    pose proof (cut_shorter _ _ _ _ Hcut) as Hlt.
    apply IH; simpl; lia.
  - reflexivity.
Qed.

(** The loop on a stream that starts with a whole line. *)
Lemma run_line (l rest : bytes) (fin : error) (s : Sink Ev) :
  Line l ->
  run wrapRead body (mkReader (l ++ rest) fin) s =
  match body l s with
  | (s', Next _) => run wrapRead body (mkReader rest fin) s'
  | (s', Return e) => Some (finish s' e (mkReader rest fin))
  end.
Proof.
  intros Hl. remember (run wrapRead body (mkReader rest fin)) as K eqn:HK.
  unfold run. simpl pending.
  cbn [loop]. unfold ReadBytes. simpl pending. simpl final.
  rewrite (cut_line l rest Hl).
  destruct (body l s) as [s' [[]|e']]; [|reflexivity].
  subst K. unfold run. apply loop_fuel; simpl.
  - destruct Hl as [t [-> _]]. rewrite !length_app. simpl. lia.
  - lia.
Qed.

(** The loop on what is left after the last line feed. *)
Lemma run_fragment (t : bytes) (fin : error) (s : Sink Ev) :
  Fragment t ->
  run wrapRead body (mkReader t fin) s =
  Some (finish s (if is_EOF fin then None else Some (wrapRead fin)) (mkReader [] fin)).
Proof.
  intros Ht. unfold run. cbn [loop]. unfold ReadBytes. simpl pending. simpl final.
  rewrite (cut_fragment t Ht). destruct (is_EOF fin); reflexivity.
Qed.


Lemma more_start_l (s : Sink Ev) : more start s = s.
Proof. destruct s; reflexivity. Qed.

Lemma more_start_r (s : Sink Ev) : more s start = s.
Proof. destruct s; unfold more; simpl. rewrite !app_nil_r. reflexivity. Qed.

Lemma more_assoc (s1 s2 s3 : Sink Ev) : more (more s1 s2) s3 = more s1 (more s2 s3).
Proof. unfold more; simpl. rewrite !app_assoc. reflexivity. Qed.

Lemma oblivious_ret {A : Type} (a : A) : oblivious Ev (ret a).
Proof. intros s. unfold ret. simpl. rewrite more_start_r. reflexivity. Qed.

Lemma oblivious_return {A : Type} (e : option error) : oblivious Ev (@return_ Ev A e).
Proof. intros s. unfold return_. simpl. rewrite more_start_r. reflexivity. Qed.

Lemma oblivious_callback (ev : Ev) : oblivious Ev (callback ev).
Proof. intros s. unfold callback, more; simpl. rewrite app_nil_r. reflexivity. Qed.

Lemma oblivious_logPrint (msg : string) : oblivious Ev (@logPrint Ev msg).
Proof. intros s. unfold logPrint, more; simpl. rewrite app_nil_r. reflexivity. Qed.

Lemma oblivious_try {A : Type} (wrap : error -> error) (r : result A) :
  oblivious Ev (@try Ev A wrap r).
Proof. destruct r; [apply oblivious_ret | apply oblivious_return]. Qed.

Lemma oblivious_bind {A C : Type} (m : M Ev A) (k : A -> M Ev C) :
  oblivious Ev m -> (forall a, oblivious Ev (k a)) -> oblivious Ev (bind m k).
Proof.
  intros Hm Hk s. unfold bind. rewrite (Hm s).
  destruct (m start) as [out [a|e]]; simpl.
  - rewrite (Hk a (more s out)), (Hk a out), more_assoc. reflexivity.
  - reflexivity.
Qed.

Hypothesis body_oblivious : forall l, oblivious Ev (body l).

(** One line, from what the body does on it from the empty sink. *)
Lemma run_next (l rest : bytes) (fin : error) (s out : Sink Ev) :
  Line l ->
  body l start = (out, Next tt) ->
  run wrapRead body (mkReader (l ++ rest) fin) s =
  run wrapRead body (mkReader rest fin) (more s out).
Proof.
  intros Hl Hb. rewrite (run_line l rest fin s Hl), (body_oblivious l s), Hb.
  reflexivity.
Qed.

Lemma run_return (l rest : bytes) (fin : error) (s out : Sink Ev) (e : option error) :
  Line l ->
  body l start = (out, Return e) ->
  run wrapRead body (mkReader (l ++ rest) fin) s =
  Some (finish (more s out) e (mkReader rest fin)).
Proof.
  intros Hl Hb. rewrite (run_line l rest fin s Hl), (body_oblivious l s), Hb.
  reflexivity.
Qed.

(** Several lines on which the body falls through. *)
Lemma run_through (ls : list bytes) (outs : Sink Ev) :
  through body ls outs ->
  forall (rest : bytes) (fin : error) (s : Sink Ev),
    run wrapRead body (mkReader (List.concat ls ++ rest) fin) s =
    run wrapRead body (mkReader rest fin) (more s outs).
Proof.
  induction 1 as [|l ls out outs Hl Hb Hls IH]; intros rest fin s.
  - simpl. rewrite more_start_r. reflexivity.
  - simpl. rewrite <- app_assoc.
    rewrite (run_next l (List.concat ls ++ rest) fin s out Hl Hb).
    rewrite IH, more_assoc. reflexivity.
Qed.

End LoopFacts.

(** ** The anthropic loop, line by line *)

Section AnthropicFacts.

Import Anthropic AnthropicWire.

Variable E : Env.

Lemma Anthropic_body_oblivious (l : bytes) : oblivious Event (ChatStream_body E l).
Proof.
  unfold ChatStream_body. cbv zeta.
  destruct (_ || _); [apply oblivious_ret|].
  apply oblivious_bind; [apply oblivious_try|]. intros t.
  repeat match goal with
         | |- oblivious _ (if ?c then _ else _) => destruct c
         end;
    repeat first
      [ apply oblivious_bind; [|intros ?]
      | apply oblivious_try
      | apply oblivious_callback
      | apply oblivious_return
      | apply oblivious_logPrint ].
Qed.

(** Unfolds the body on a line whose framing test and discriminator are
    among the hypotheses. *)
Ltac on_record H :=
  let Hl := fresh "Hl" in
  let Hf := fresh "Hf" in
  let Ht := fresh "Ht" in
  destruct H as (Hl & Hf & Ht);
  unfold ChatStream_body; cbv zeta;
  unfold framing in Hf; rewrite Hf;
  unfold payload in *; rewrite Ht;
  unfold bind, try, ret; simpl.

Lemma body_framing (l : bytes) :
  framing l = true -> ChatStream_body E l start = (start, Next tt).
Proof.
  intros Hf. unfold ChatStream_body. cbv zeta.
  unfold framing in Hf. rewrite Hf. reflexivity.
Qed.

Lemma body_carries (l : bytes) (ev : Event) :
  carries E l ev -> ChatStream_body E l start = (mkSink [ev] [], Next tt).
Proof.
  intros H. destruct H as [H|ev H Hev|ev H Hev|ev H Hev|ev H Hev|ev H Hev];
    on_record H; try rewrite Hev; try reflexivity.
  unfold Unmarshal_PingEvent. rewrite Ht. reflexivity.
Qed.

Lemma body_unknown (l : bytes) (t : string) :
  record E l t -> known t = false ->
  ChatStream_body E l start = (mkSink [] ["unknown event type: " ++ t]%string, Next tt).
Proof.
  intros H Hk. on_record H.
  unfold known in Hk. simpl in Hk.
  repeat match type of Hk with
         | (?c || _) = false => destruct c eqn:?; [discriminate|]; simpl in Hk
         end.
  reflexivity.
Qed.

Lemma body_stop (l : bytes) :
  record E l "message_stop" ->
  ChatStream_body E l start = (mkSink [stopEvent] [], Return None).
Proof.
  intros H. on_record H.
  unfold Unmarshal_MessageStopEvent. rewrite Ht. reflexivity.
Qed.

Lemma body_malformed (l : bytes) (e : error) :
  Line l -> framing l = false -> Unmarshal_Type E (payload l) = Failed e ->
  ChatStream_body E l start = (start, Return (Some e)).
Proof.
  intros Hl Hf Ht. unfold ChatStream_body. cbv zeta.
  unfold framing in Hf. rewrite Hf. unfold payload in Ht.
  unfold bind, try. rewrite Ht. reflexivity.
Qed.

Lemma body_error (l : bytes) :
  record E l "error" ->
  ChatStream_body E l start =
  (start,
   Return (Some match Unmarshal_ErrorResponse E (payload l) with
                | Ok errResp =>
                  errorString (ErrorDetail_Type (ErrorResponse_Error errResp) ++ ": "
                               ++ ErrorDetail_Message (ErrorResponse_Error errResp))%string
                | Failed e => e
                end)).
Proof.
  intros H. on_record H.
  destruct (Unmarshal_ErrorResponse E _); reflexivity.
Qed.

Lemma decodes_through (ls : list bytes) (evs : list Event) :
  decodes E ls evs ->
  exists lg, through (ChatStream_body E) ls (mkSink evs lg).
Proof.
  induction 1 as [|l ls evs Hl Hf _ [lg IH]|l t ls evs Hr Hk _ [lg IH]|l ev ls evs Hc _ [lg IH]].
  - exists []. constructor.
  - exists lg.
    change (mkSink evs lg) with (more start (mkSink evs lg)).
    constructor; [exact Hl | apply body_framing; exact Hf | exact IH].
  - exists (("unknown event type: " ++ t)%string :: lg).
    change (mkSink evs (("unknown event type: " ++ t)%string :: lg))
      with (more (mkSink [] [("unknown event type: " ++ t)%string]) (mkSink evs lg)).
    constructor; [apply Hr | apply body_unknown; assumption | exact IH].
  - exists lg.
    change (mkSink (ev :: evs) lg) with (more (mkSink [ev] []) (mkSink evs lg)).
    constructor; [|apply body_carries; exact Hc | exact IH].
    destruct Hc as [H|? H _|? H _|? H _|? H _|? H _]; apply H.
Qed.

(** A call that gets status 200 is its loop on the body. *)
Lemma ChatStream_streams (c : Client) (req : ChatRequest) (body : Reader) :
  answers E c req body ->
  ChatStream E c req =
  (set_Stream true req,
   match ChatStream_loop E body with
   | Some o => Some (Streamed o)
   | None => None
   end).
Proof.
  intros H. unfold ChatStream. unfold answers in H. rewrite H.
  cbn [StatusCode Body]. rewrite Z.eqb_refl. cbn [negb].
  destruct (ChatStream_loop E body); reflexivity.
Qed.


End AnthropicFacts.

(** ** The openai loop, line by line *)

Section OpenAIFacts.

Import OpenAI OpenAIWire.

Variable map_string_any : Type.
Variable E : Env map_string_any.

Lemma choice_eta (c : Choice) :
  mkChoice (Choice_Delta c) (FinishReason c) (Index c) = c.
Proof. destruct c; reflexivity. Qed.

Lemma eqb_empty (t : string) : (t =? EmptyString)%string = true <-> t = EmptyString.
Proof. apply String.eqb_eq. Qed.

(** The [for] over the choices when none of them has a finish reason. *)
Lemma choices_unfinished (event : ChatChunk) (cs : list Choice) :
  Forall unfinished cs ->
  forall s,
    ChatStream_choices event cs s =
    (more s (mkSink (map (single event) cs) []), Next tt).
Proof.
  induction 1 as [|c cs Hc _ IH]; intros s.
  - simpl. rewrite more_start_r. reflexivity.
  - cbn [ChatStream_choices]. unfold bind, callback. rewrite choice_eta.
    unfold unfinished in Hc. rewrite Hc. cbn [String.eqb negb].
    rewrite IH. unfold more, single; simpl.
    rewrite <- app_assoc, app_nil_r. reflexivity.
Qed.

(** The [for] over the choices up to the first with a finish reason. *)
Lemma choices_finished (event : ChatChunk) (before after : list Choice) (c : Choice) :
  Forall unfinished before -> FinishReason c <> EmptyString ->
  forall s,
    ChatStream_choices event (before ++ c :: after) s =
    (more s (mkSink (map (single event) (before ++ [c])) []), Return None).
Proof.
  intros Hb Hc. induction Hb as [|b before Hb _ IH]; intros s.
  - cbn [app ChatStream_choices]. unfold bind, callback. rewrite choice_eta.
    destruct (FinishReason c =? EmptyString)%string eqn:Heq.
    + apply eqb_empty in Heq. contradiction.
    + unfold more, single; simpl. rewrite app_nil_r. reflexivity.
  - cbn [app ChatStream_choices]. unfold bind, callback. rewrite choice_eta.
    unfold unfinished in Hb. rewrite Hb. cbn [String.eqb negb].
    rewrite IH. unfold more, single; simpl.
    rewrite <- app_assoc, app_nil_r. reflexivity.
Qed.

Lemma choices_oblivious (event : ChatChunk) (cs : list Choice) :
  oblivious ChatChunk (ChatStream_choices event cs).
Proof.
  induction cs as [|c cs IH]; cbn [ChatStream_choices].
  - apply oblivious_ret.
  - apply oblivious_bind; [apply oblivious_callback|]. intros _.
    destruct (negb _); [apply oblivious_return | exact IH].
Qed.

Lemma OpenAI_body_oblivious (l : bytes) : oblivious ChatChunk (ChatStream_body E l).
Proof.
  unfold ChatStream_body. cbv zeta.
  destruct (_ =? _)%nat; [apply oblivious_ret|].
  apply oblivious_bind; [apply oblivious_try|]. intros event.
  apply choices_oblivious.
Qed.

Lemma body_blank (l : bytes) :
  blank l = true -> ChatStream_body E l start = (start, Next tt).
Proof.
  intros Hb. unfold ChatStream_body. cbv zeta.
  unfold blank in Hb. rewrite Hb. reflexivity.
Qed.

(** The body on a record is the [for] over its choices. *)
Lemma body_record (l : bytes) (event : ChatChunk) (s : Sink ChatChunk) :
  record E l event ->
  ChatStream_body E l s = ChatStream_choices event (Choices event) s.
Proof.
  intros (Hl & Hb & Hu). unfold ChatStream_body. cbv zeta.
  unfold blank in Hb. rewrite Hb. unfold payload in Hu.
  unfold bind, try. rewrite Hu. reflexivity.
Qed.

Lemma body_malformed_chunk (l : bytes) (e : error) :
  blank l = false -> Unmarshal_ChatChunk E (payload l) = Failed e ->
  ChatStream_body E l start =
  (start, Return (Some (errorString ("failed to unmarshal event: " ++ Error e)%string))).
Proof.
  intros Hb Hu. unfold ChatStream_body. cbv zeta.
  unfold blank in Hb. rewrite Hb. unfold payload in Hu.
  unfold bind, try. rewrite Hu. reflexivity.
Qed.

Lemma body_terminal (l : bytes) (event : ChatChunk) (before : list Choice) (c : Choice) :
  terminal E l event before c ->
  ChatStream_body E l start =
  (mkSink (map (single event) (before ++ [c])) [], Return None).
Proof.
  intros (Hr & [after Hcs] & Hb & Hc).
  rewrite (body_record l event start Hr), Hcs.
  rewrite (choices_finished event before after c Hb Hc start).
  rewrite more_start_l. reflexivity.
Qed.

Lemma chunks_through (ls : list bytes) (chunks : list ChatChunk) :
  decodes E ls chunks ->
  through (ChatStream_body E) ls (mkSink chunks []).
Proof.
  induction 1 as [|l ls chunks Hl Hb _ IH|l event ls chunks Hr Hu _ IH].
  - constructor.
  - change (mkSink chunks []) with (more start (mkSink chunks [])).
    constructor; [exact Hl | apply body_blank; exact Hb | exact IH].
  - change (mkSink (map (single event) (Choices event) ++ chunks) [])
      with (more (mkSink (map (single event) (Choices event)) []) (mkSink chunks [])).
    constructor; [apply Hr | | exact IH].
    rewrite (body_record l event start Hr).
    rewrite (choices_unfinished event (Choices event) Hu start).
    rewrite more_start_l. reflexivity.
Qed.

(** A call that gets status 200 is its loop on the body. *)
Lemma OpenAI_ChatStream_streams (c : Client) (req : ChatRequest map_string_any) (body : Reader) :
  answers E c req body ->
  ChatStream E c req =
  (set_Stream true req,
   match ChatStream_loop E body with
   | Some o => Some (Streamed o)
   | None => None
   end).
Proof.
  intros H. unfold ChatStream. unfold answers in H. rewrite H.
  cbn [StatusCode Body]. rewrite Z.eqb_refl. cbn [negb].
  destruct (ChatStream_loop E body); reflexivity.
Qed.


End OpenAIFacts.

(** ** Trimming *)

Section TrimFacts.

Lemma asciiSpace_low (b : byte) : asciiSpace b = true -> (Byte.to_N b < 0x80)%N.
Proof.
  unfold asciiSpace. cbv zeta.
  rewrite orb_true_iff, andb_true_iff, !N.leb_le, N.eqb_eq. lia.
Qed.

Lemma isSpace2_high (b1 b2 : byte) :
  isSpace2 b1 b2 = true -> (0x80 <= Byte.to_N b1 /\ 0x80 <= Byte.to_N b2)%N.
Proof.
  unfold isSpace2. cbv zeta.
  rewrite andb_true_iff, orb_true_iff, !N.eqb_eq. lia.
Qed.

Lemma isSpace3_high (b1 b2 b3 : byte) :
  isSpace3 b1 b2 b3 = true ->
  (0x80 <= Byte.to_N b1 /\ 0x80 <= Byte.to_N b2 /\ 0x80 <= Byte.to_N b3)%N.
Proof.
  unfold isSpace3. cbv zeta.
  rewrite !orb_true_iff, !andb_true_iff, !orb_true_iff, !andb_true_iff,
    !N.leb_le, !N.eqb_eq. lia.
Qed.

Lemma isSpace2_ascii_r (b w : byte) : asciiSpace w = true -> isSpace2 b w = false.
Proof.
  intros Hw. apply asciiSpace_low in Hw.
  destruct (isSpace2 b w) eqn:H; [|reflexivity].
  apply isSpace2_high in H. lia.
Qed.

Lemma isSpace2_ascii_l (w b : byte) : asciiSpace w = true -> isSpace2 w b = false.
Proof.
  intros Hw. apply asciiSpace_low in Hw.
  destruct (isSpace2 w b) eqn:H; [|reflexivity].
  apply isSpace2_high in H. lia.
Qed.

Lemma isSpace3_ascii_1 (w b2 b3 : byte) : asciiSpace w = true -> isSpace3 w b2 b3 = false.
Proof.
  intros Hw. apply asciiSpace_low in Hw.
  destruct (isSpace3 w b2 b3) eqn:H; [|reflexivity].
  apply isSpace3_high in H. lia.
Qed.

Lemma isSpace3_ascii_2 (b1 w b3 : byte) : asciiSpace w = true -> isSpace3 b1 w b3 = false.
Proof.
  intros Hw. apply asciiSpace_low in Hw.
  destruct (isSpace3 b1 w b3) eqn:H; [|reflexivity].
  apply isSpace3_high in H. lia.
Qed.

Lemma isSpace3_ascii_3 (b1 b2 w : byte) : asciiSpace w = true -> isSpace3 b1 b2 w = false.
Proof.
  intros Hw. apply asciiSpace_low in Hw.
  destruct (isSpace3 b1 b2 w) eqn:H; [|reflexivity].
  apply isSpace3_high in H. lia.
Qed.

Lemma TrimLeftSpace_pad_l (ws x : bytes) :
  Padding ws -> TrimLeftSpace (ws ++ x) = TrimLeftSpace x.
Proof.
  induction 1 as [|w ws Hw _ IH]; [reflexivity|].
  cbn [app TrimLeftSpace]. rewrite Hw. exact IH.
Qed.

Lemma TrimLeftSpaceRev_pad_l (ws x : bytes) :
  Padding ws -> TrimLeftSpaceRev (ws ++ x) = TrimLeftSpaceRev x.
Proof.
  induction 1 as [|w ws Hw _ IH]; [reflexivity|].
  cbn [app TrimLeftSpaceRev]. rewrite Hw. exact IH.
Qed.

Lemma TrimLeftSpace_padding (ws : bytes) : Padding ws -> TrimLeftSpace ws = [].
Proof.
  intros H. rewrite <- (app_nil_r ws). rewrite (TrimLeftSpace_pad_l ws [] H).
  reflexivity.
Qed.

Lemma TrimRightSpace_pad_r (x ws : bytes) :
  Padding ws -> TrimRightSpace (x ++ ws) = TrimRightSpace x.
Proof.
  intros H. unfold TrimRightSpace. rewrite rev_app_distr.
  rewrite TrimLeftSpaceRev_pad_l; [reflexivity|].
  apply Forall_rev. exact H.
Qed.

(** Padding on the right is kept by the trimming on the left, unless the
    text is white space altogether. *)
Lemma TrimLeftSpace_pad_r (ws : bytes) (n : nat) :
  Padding ws ->
  forall l, List.length l <= n ->
    TrimLeftSpace (l ++ ws) = TrimLeftSpace l ++ ws
    \/ (TrimLeftSpace l = [] /\ TrimLeftSpace (l ++ ws) = []).
Proof.
  intros Hws. induction n as [|n IH]; intros l Hn.
  - destruct l; [|simpl in Hn; lia].
    right. split; [reflexivity|]. apply TrimLeftSpace_padding. exact Hws.
  - destruct l as [|b1 t1].
    { right. split; [reflexivity|]. apply TrimLeftSpace_padding. exact Hws. }
    cbn [app TrimLeftSpace].
    destruct (asciiSpace b1) eqn:H1.
    { apply IH. simpl in Hn. lia. }
    destruct t1 as [|b2 t2].
    { left. cbn [app]. destruct Hws as [|w ws Hw Hws]; [reflexivity|].
      rewrite (isSpace2_ascii_r b1 w Hw).
      destruct ws as [|w' ws]; [reflexivity|].
      rewrite (isSpace3_ascii_2 b1 w w' Hw). reflexivity. }
    cbn [app].
    destruct (isSpace2 b1 b2) eqn:H2.
    { apply IH. simpl in Hn. lia. }
    destruct t2 as [|b3 t3].
    { left. cbn [app]. destruct Hws as [|w ws Hw Hws]; [reflexivity|].
      rewrite (isSpace3_ascii_3 b1 b2 w Hw). reflexivity. }
    cbn [app].
    destruct (isSpace3 b1 b2 b3) eqn:H3.
    { apply IH. simpl in Hn. lia. }
    left. reflexivity.
Qed.

(** ASCII white space around a text does not change what [TrimSpace]
    returns. *)
Lemma TrimSpace_pad (ws1 l ws2 : bytes) :
  Padding ws1 -> Padding ws2 ->
  TrimSpace (ws1 ++ l ++ ws2) = TrimSpace l.
Proof.
  intros H1 H2. unfold TrimSpace.
  rewrite (TrimLeftSpace_pad_l ws1 (l ++ ws2) H1).
  destruct (TrimLeftSpace_pad_r ws2 (List.length l) H2 l (le_n _)) as [->|[-> ->]].
  - apply TrimRightSpace_pad_r. exact H2.
  - reflexivity.
Qed.

Lemma TrimSpace_padding (ws : bytes) : Padding ws -> TrimSpace ws = [].
Proof.
  intros H. unfold TrimSpace. rewrite (TrimLeftSpace_padding ws H). reflexivity.
Qed.

End TrimFacts.

(* ================================================================= *)
(** * The statements of the specification *)

(** Closes a hypothesis on concrete lines by evaluation. *)
Ltac evaluated :=
  first
    [ apply isLine_Line; vm_compute; reflexivity
    | vm_compute; reflexivity
    | vm_compute; discriminate ].

Ltac sample_record :=
  split; [evaluated | split; evaluated].

(** C1. On a well-formed stream that ends with the terminal marker, each
    [ChatStream] hands the handler the events of the stream once each and
    in wire order, the terminal one last, and returns [nil] with the
    reader left at the byte after the terminal line.  For anthropic the
    terminal marker is the [message_stop] record; for openai it is the
    first choice with a finish reason. *)
Theorem C1_events_in_wire_order :
  forall (EB : Anthropic.Env) (T : Type) (EA : OpenAI.Env T),
    (forall c req ls evs stop rest fin,
        AnthropicWire.decodes EB ls evs ->
        AnthropicWire.record EB stop "message_stop" ->
        AnthropicWire.answers EB c req (mkReader (List.concat ls ++ stop ++ rest) fin) ->
        exists o,
          Anthropic.ChatStream EB c req
          = (Anthropic.set_Stream true req, Some (Anthropic.Streamed o))
          /\ delivered o = evs ++ [AnthropicWire.stopEvent]
          /\ err o = None
          /\ unread o = mkReader rest fin)
    /\
    (forall c req ls chunks stop event before ch rest fin,
        OpenAIWire.decodes EA ls chunks ->
        OpenAIWire.terminal EA stop event before ch ->
        OpenAIWire.answers EA c req (mkReader (List.concat ls ++ stop ++ rest) fin) ->
        exists o,
          OpenAI.ChatStream EA c req
          = (OpenAI.set_Stream true req, Some (OpenAI.Streamed o))
          /\ delivered o = chunks ++ map (OpenAIWire.single event) (before ++ [ch])
          /\ err o = None
          /\ unread o = mkReader rest fin).
Proof.
  intros EB T EA. split.
  - intros c req ls evs stop rest fin Hd Hs Ha.
    rewrite (ChatStream_streams EB c req _ Ha).
    unfold Anthropic.ChatStream_loop, Anthropic.ChatStream_from.
    destruct (decodes_through EB ls evs Hd) as [lg Hth].
    rewrite (run_through _ _ _ (Anthropic_body_oblivious EB) ls _ Hth).
    rewrite (run_return _ _ _ (Anthropic_body_oblivious EB) stop rest fin _ _ _
               (proj1 Hs) (body_stop EB stop Hs)).
    eexists. split; [reflexivity|]. repeat split.
  - intros c req ls chunks stop event before ch rest fin Hd Hs Ha.
    rewrite (OpenAI_ChatStream_streams T EA c req _ Ha).
    unfold OpenAI.ChatStream_loop, OpenAI.ChatStream_from.
    rewrite (run_through _ _ _ (OpenAI_body_oblivious T EA) ls _ (chunks_through T EA ls chunks Hd)).
    rewrite (run_return _ _ _ (OpenAI_body_oblivious T EA) stop rest fin _ _ _
               (proj1 (proj1 Hs)) (body_terminal T EA stop event before ch Hs)).
    eexists. split; [reflexivity|]. repeat split.
Qed.

Lemma C1_events_in_wire_order_witness :
  let bodyB :=
    mkReader (List.concat [Sample.A.line_event; Sample.A.line_start; Sample.A.line_blank;
                           Sample.A.line_unknown; Sample.A.line_delta]
              ++ Sample.A.line_stop ++ Sample.A.line_ping) io_EOF in
  let bodyA :=
    mkReader (List.concat [Sample.O.line_hello; Sample.O.line_blank]
              ++ Sample.O.line_three ++ Sample.O.line_done) io_EOF in
  (exists o,
      Anthropic.ChatStream (Sample.A.env (mkResponse StatusOK bodyB)) Sample.A.client Sample.A.req
      = (Anthropic.set_Stream true Sample.A.req, Some (Anthropic.Streamed o))
      /\ delivered o = [Sample.A.ev_start; Sample.A.ev_delta] ++ [AnthropicWire.stopEvent]
      /\ err o = None
      /\ unread o = mkReader Sample.A.line_ping io_EOF)
  /\
  (exists o,
      OpenAI.ChatStream (Sample.O.env (mkResponse StatusOK bodyA)) Sample.O.client Sample.O.req
      = (OpenAI.set_Stream true Sample.O.req, Some (OpenAI.Streamed o))
      /\ delivered o
         = (map (OpenAIWire.single Sample.O.event_hello) (OpenAI.Choices Sample.O.event_hello) ++ [])
           ++ map (OpenAIWire.single Sample.O.event_three) ([Sample.O.choice_a] ++ [Sample.O.choice_b])
      /\ err o = None
      /\ unread o = mkReader Sample.O.line_done io_EOF).
Proof.
  intros bodyB bodyA. split.
  - apply (proj1 (C1_events_in_wire_order
                    (Sample.A.env (mkResponse StatusOK bodyB)) unit
                    (Sample.O.env (mkResponse StatusOK bodyA)))
               Sample.A.client Sample.A.req
               [Sample.A.line_event; Sample.A.line_start; Sample.A.line_blank;
                Sample.A.line_unknown; Sample.A.line_delta]
               [Sample.A.ev_start; Sample.A.ev_delta]
               Sample.A.line_stop Sample.A.line_ping io_EOF).
    + apply AnthropicWire.decodes_framing; [evaluated | evaluated |].
      apply AnthropicWire.decodes_event;
        [apply AnthropicWire.carries_message_start; [sample_record | evaluated]|].
      apply AnthropicWire.decodes_framing; [evaluated | evaluated |].
      apply AnthropicWire.decodes_unknown with (t := "tool_use_delta");
        [sample_record | evaluated |].
      apply AnthropicWire.decodes_event;
        [apply AnthropicWire.carries_content_block_delta; [sample_record | evaluated]|].
      apply AnthropicWire.decodes_nil.
    + sample_record.
    + reflexivity.
  - apply (proj2 (C1_events_in_wire_order
                    (Sample.A.env (mkResponse StatusOK bodyB)) unit
                    (Sample.O.env (mkResponse StatusOK bodyA)))
               Sample.O.client Sample.O.req
               [Sample.O.line_hello; Sample.O.line_blank]
               (map (OpenAIWire.single Sample.O.event_hello)
                    (OpenAI.Choices Sample.O.event_hello) ++ [])
               Sample.O.line_three Sample.O.event_three
               [Sample.O.choice_a] Sample.O.choice_b Sample.O.line_done io_EOF).
    + apply OpenAIWire.decodes_record; [sample_record | repeat constructor |].
      apply OpenAIWire.decodes_blank; [evaluated | evaluated |].
      apply OpenAIWire.decodes_nil.
    + split; [sample_record|].
      split; [exists [Sample.O.choice_c]; reflexivity|].
      split; [repeat constructor | discriminate].
    + reflexivity.
Defined.

(** C2. In the openai loop a record none of whose choices has a finish
    reason does not end the call: the loop goes on to the rest of the
    stream, the chunks of the record delivered.  A record with a choice
    whose finish reason is not empty ends the call with [nil] right after
    the handler got the chunk of that choice, the rest of the stream left
    unread. *)
Theorem C2_finish_reason_is_terminal :
  forall (T : Type) (E : OpenAI.Env T) (line : bytes) (event : OpenAI.ChatChunk)
         (rest : bytes) (fin : error) (s : Sink OpenAI.ChatChunk),
    OpenAIWire.record E line event ->
    (Forall OpenAIWire.unfinished (OpenAI.Choices event) ->
     OpenAI.ChatStream_from E (mkReader (line ++ rest) fin) s
     = OpenAI.ChatStream_from E (mkReader rest fin)
         (more s (mkSink (map (OpenAIWire.single event) (OpenAI.Choices event)) [])))
    /\
    (forall before c after,
        OpenAI.Choices event = before ++ c :: after ->
        Forall OpenAIWire.unfinished before ->
        OpenAI.FinishReason c <> EmptyString ->
        OpenAI.ChatStream_from E (mkReader (line ++ rest) fin) s
        = Some (finish (more s (mkSink (map (OpenAIWire.single event) (before ++ [c])) []))
                  None (mkReader rest fin))).
Proof.
  intros T E line event rest fin s Hr. unfold OpenAI.ChatStream_from. split.
  - intros Hu.
    apply (run_next _ _ _ (OpenAI_body_oblivious T E)); [apply Hr|].
    rewrite (body_record T E line event start Hr).
    rewrite (choices_unfinished event _ Hu start), more_start_l. reflexivity.
  - intros before c after Hcs Hb Hc.
    apply (run_return _ _ _ (OpenAI_body_oblivious T E)); [apply Hr|].
    apply (body_terminal T E line event before c).
    split; [exact Hr|]. split; [exists after; exact Hcs|]. split; assumption.
Qed.

Lemma C2_finish_reason_is_terminal_witness :
  let E := Sample.O.env (mkResponse StatusOK (mkReader [] io_EOF)) in
  (OpenAI.ChatStream_from E (mkReader (Sample.O.line_hello ++ Sample.O.line_end) io_EOF) start
   = OpenAI.ChatStream_from E (mkReader Sample.O.line_end io_EOF)
       (more start (mkSink (map (OpenAIWire.single Sample.O.event_hello)
                               (OpenAI.Choices Sample.O.event_hello)) [])))
  /\
  (OpenAI.ChatStream_from E (mkReader (Sample.O.line_end ++ Sample.O.line_done) io_EOF) start
   = Some (finish (more start (mkSink (map (OpenAIWire.single Sample.O.event_end)
                                          ([] ++ [Sample.O.choice_end])) []))
             None (mkReader Sample.O.line_done io_EOF))).
Proof.
  intros E. split.
  - apply (proj1 (C2_finish_reason_is_terminal unit E Sample.O.line_hello
                    Sample.O.event_hello Sample.O.line_end io_EOF start
                    ltac:(sample_record))).
    repeat constructor.
  - apply (proj2 (C2_finish_reason_is_terminal unit E Sample.O.line_end
                    Sample.O.event_end Sample.O.line_done io_EOF start
                    ltac:(sample_record)) [] Sample.O.choice_end []).
    + reflexivity.
    + constructor.
    + discriminate.
Defined.

(** C3. In the anthropic loop a record whose discriminator is [error]
    makes the call fail, the handler not invoked for it and nothing read
    after it; when the payload decodes as an error response, the message
    of the error is its error type, a colon and a space, and its error
    message. *)
Theorem C3_error_record_fails :
  forall (E : Anthropic.Env) (line rest : bytes) (fin : error) (s : Sink Anthropic.Event),
    AnthropicWire.record E line "error" ->
    exists e,
      Anthropic.ChatStream_from E (mkReader (line ++ rest) fin) s
      = Some (finish s (Some e) (mkReader rest fin))
      /\ forall errResp,
          Anthropic.Unmarshal_ErrorResponse E (AnthropicWire.payload line) = Ok errResp ->
          e = errorString
                (Anthropic.ErrorDetail_Type (Anthropic.ErrorResponse_Error errResp) ++ ": "
                 ++ Anthropic.ErrorDetail_Message (Anthropic.ErrorResponse_Error errResp))%string.
Proof.
  intros E line rest fin s Hr. eexists. split.
  - unfold Anthropic.ChatStream_from.
    rewrite (run_return _ _ _ (Anthropic_body_oblivious E) line rest fin s _ _
               (proj1 Hr) (body_error E line Hr)).
    rewrite more_start_r. reflexivity.
  - intros errResp Hu. rewrite Hu. reflexivity.
Qed.

Lemma C3_error_record_fails_witness :
  let E := Sample.A.env (mkResponse StatusOK (mkReader [] io_EOF)) in
  Anthropic.ChatStream_from E (mkReader (Sample.A.line_error ++ Sample.A.line_ping) io_EOF)
    (mkSink [Sample.A.ev_ping] [])
  = Some (finish (mkSink [Sample.A.ev_ping] [])
            (Some (errorString "overloaded_error: Overloaded"))
            (mkReader Sample.A.line_ping io_EOF)).
Proof.
  intros E.
  destruct (C3_error_record_fails E Sample.A.line_error Sample.A.line_ping io_EOF
              (mkSink [Sample.A.ev_ping] []) ltac:(sample_record)) as [e [Hrun He]].
  rewrite Hrun.
  rewrite (He (Anthropic.mkErrorResponse "error"
                 (Anthropic.mkErrorDetail "overloaded_error" "Overloaded"))
              ltac:(evaluated)).
  reflexivity.
Defined.

(** C4. In the anthropic loop the [message_stop] record is handed to the
    handler and the call returns [nil] at once, the rest of the stream
    left unread.  On the three lines [message_start],
    [content_block_delta], [message_stop] the handler is invoked three
    times, in that order, and the call returns [nil] with whatever follows
    left unread. *)
Theorem C4_message_stop_returns :
  (forall (E : Anthropic.Env) (line rest : bytes) (fin : error) (s : Sink Anthropic.Event),
      AnthropicWire.record E line "message_stop" ->
      Anthropic.ChatStream_from E (mkReader (line ++ rest) fin) s
      = Some (finish (more s (mkSink [AnthropicWire.stopEvent] [])) None (mkReader rest fin)))
  /\
  (forall (rest : bytes) (fin : error),
      let body :=
        mkReader (Sample.A.line_start ++ Sample.A.line_delta ++ Sample.A.line_stop ++ rest) fin in
      Anthropic.ChatStream (Sample.A.env (mkResponse StatusOK body)) Sample.A.client Sample.A.req
      = (Anthropic.set_Stream true Sample.A.req,
         Some (Anthropic.Streamed
                 (mkOutcome [Sample.A.ev_start; Sample.A.ev_delta; AnthropicWire.stopEvent]
                    [] None (mkReader rest fin))))).
Proof.
  split.
  - intros E line rest fin s Hr. unfold Anthropic.ChatStream_from.
    exact (run_return _ _ _ (Anthropic_body_oblivious E) line rest fin s _ _
             (proj1 Hr) (body_stop E line Hr)).
  - intros rest fin body.
    set (E := Sample.A.env (mkResponse StatusOK body)).
    rewrite (ChatStream_streams E Sample.A.client Sample.A.req body eq_refl).
    unfold Anthropic.ChatStream_loop, Anthropic.ChatStream_from, body.
    rewrite (run_next _ _ _ (Anthropic_body_oblivious E) Sample.A.line_start _ fin start
               (mkSink [Sample.A.ev_start] []));
      [|evaluated|apply body_carries; apply AnthropicWire.carries_message_start;
                  [sample_record|evaluated]].
    rewrite (run_next _ _ _ (Anthropic_body_oblivious E) Sample.A.line_delta _ fin _
               (mkSink [Sample.A.ev_delta] []));
      [|evaluated|apply body_carries; apply AnthropicWire.carries_content_block_delta;
                  [sample_record|evaluated]].
    rewrite (run_return _ _ _ (Anthropic_body_oblivious E) Sample.A.line_stop rest fin _
               (mkSink [AnthropicWire.stopEvent] []) None);
      [reflexivity|evaluated|apply body_stop; sample_record].
Qed.

Lemma C4_message_stop_returns_witness :
  let E := Sample.A.env (mkResponse StatusOK (mkReader [] io_EOF)) in
  Anthropic.ChatStream_from E (mkReader (Sample.A.line_stop ++ Sample.A.line_ping) io_EOF) start
  = Some (finish (more start (mkSink [AnthropicWire.stopEvent] [])) None
            (mkReader Sample.A.line_ping io_EOF)).
Proof.
  intros E.
  apply (proj1 C4_message_stop_returns E Sample.A.line_stop Sample.A.line_ping io_EOF start).
  sample_record.
Defined.

(** C5. On a well-formed stream that reaches the end of the input with no
    terminal marker, each [ChatStream] returns [nil], the events of the
    lines read so far delivered.  What follows the last line feed is not
    a line, and it is dropped. *)
Theorem C5_end_of_input_is_success :
  forall (EB : Anthropic.Env) (T : Type) (EA : OpenAI.Env T),
    (forall c req ls evs tail,
        AnthropicWire.decodes EB ls evs ->
        Fragment tail ->
        AnthropicWire.answers EB c req (mkReader (List.concat ls ++ tail) io_EOF) ->
        exists o,
          Anthropic.ChatStream EB c req
          = (Anthropic.set_Stream true req, Some (Anthropic.Streamed o))
          /\ delivered o = evs
          /\ err o = None
          /\ unread o = mkReader [] io_EOF)
    /\
    (forall c req ls chunks tail,
        OpenAIWire.decodes EA ls chunks ->
        Fragment tail ->
        OpenAIWire.answers EA c req (mkReader (List.concat ls ++ tail) io_EOF) ->
        exists o,
          OpenAI.ChatStream EA c req
          = (OpenAI.set_Stream true req, Some (OpenAI.Streamed o))
          /\ delivered o = chunks
          /\ err o = None
          /\ unread o = mkReader [] io_EOF).
Proof.
  intros EB T EA. split.
  - intros c req ls evs tail Hd Ht Ha.
    rewrite (ChatStream_streams EB c req _ Ha).
    unfold Anthropic.ChatStream_loop, Anthropic.ChatStream_from.
    destruct (decodes_through EB ls evs Hd) as [lg Hth].
    rewrite (run_through _ _ _ (Anthropic_body_oblivious EB) ls _ Hth).
    rewrite (run_fragment _ _ _ tail io_EOF _ Ht).
    eexists. split; [reflexivity|]. repeat split.
  - intros c req ls chunks tail Hd Ht Ha.
    rewrite (OpenAI_ChatStream_streams T EA c req _ Ha).
    unfold OpenAI.ChatStream_loop, OpenAI.ChatStream_from.
    rewrite (run_through _ _ _ (OpenAI_body_oblivious T EA) ls _ (chunks_through T EA ls chunks Hd)).
    rewrite (run_fragment _ _ _ tail io_EOF _ Ht).
    eexists. split; [reflexivity|]. repeat split.
Qed.

Lemma C5_end_of_input_is_success_witness :
  let bodyB :=
    mkReader (List.concat [Sample.A.line_start; Sample.A.line_delta] ++ Sample.J "data: {'type'")
      io_EOF in
  let bodyA := mkReader (List.concat [Sample.O.line_hello] ++ []) io_EOF in
  (exists o,
      Anthropic.ChatStream (Sample.A.env (mkResponse StatusOK bodyB)) Sample.A.client Sample.A.req
      = (Anthropic.set_Stream true Sample.A.req, Some (Anthropic.Streamed o))
      /\ delivered o = [Sample.A.ev_start; Sample.A.ev_delta]
      /\ err o = None
      /\ unread o = mkReader [] io_EOF)
  /\
  (exists o,
      OpenAI.ChatStream (Sample.O.env (mkResponse StatusOK bodyA)) Sample.O.client Sample.O.req
      = (OpenAI.set_Stream true Sample.O.req, Some (OpenAI.Streamed o))
      /\ delivered o
         = map (OpenAIWire.single Sample.O.event_hello) (OpenAI.Choices Sample.O.event_hello) ++ []
      /\ err o = None
      /\ unread o = mkReader [] io_EOF).
Proof.
  intros bodyB bodyA. split.
  - apply (proj1 (C5_end_of_input_is_success
                    (Sample.A.env (mkResponse StatusOK bodyB)) unit
                    (Sample.O.env (mkResponse StatusOK bodyA)))
               Sample.A.client Sample.A.req
               [Sample.A.line_start; Sample.A.line_delta]
               [Sample.A.ev_start; Sample.A.ev_delta]
               (Sample.J "data: {'type'")).
    + apply AnthropicWire.decodes_event;
        [apply AnthropicWire.carries_message_start; [sample_record | evaluated]|].
      apply AnthropicWire.decodes_event;
        [apply AnthropicWire.carries_content_block_delta; [sample_record | evaluated]|].
      apply AnthropicWire.decodes_nil.
    + unfold Fragment. vm_compute. intuition discriminate.
    + reflexivity.
  - apply (proj2 (C5_end_of_input_is_success
                    (Sample.A.env (mkResponse StatusOK bodyB)) unit
                    (Sample.O.env (mkResponse StatusOK bodyA)))
               Sample.O.client Sample.O.req
               [Sample.O.line_hello]
               (map (OpenAIWire.single Sample.O.event_hello)
                    (OpenAI.Choices Sample.O.event_hello) ++ [])
               []).
    + apply OpenAIWire.decodes_record; [sample_record | repeat constructor |].
      apply OpenAIWire.decodes_nil.
    + intros [].
    + reflexivity.
Defined.

(** C6. In the anthropic loop a record whose discriminator is none of the
    eight known ones is passed over: the handler is not invoked, a line is
    logged, and the call goes on with the rest of the stream, whose events
    are delivered as they would be without the record. *)
Theorem C6_unknown_discriminator_skipped :
  forall (E : Anthropic.Env) (line : bytes) (t : string),
    AnthropicWire.record E line t ->
    AnthropicWire.known t = false ->
    (forall rest fin s,
        Anthropic.ChatStream_from E (mkReader (line ++ rest) fin) s
        = Anthropic.ChatStream_from E (mkReader rest fin)
            (mkSink (calls s) (logs s ++ ["unknown event type: " ++ t]%string)))
    /\
    (forall ls evs ls' evs' tail,
        AnthropicWire.decodes E ls evs ->
        AnthropicWire.decodes E ls' evs' ->
        Fragment tail ->
        exists o,
          Anthropic.ChatStream_loop E
            (mkReader (List.concat ls ++ line ++ List.concat ls' ++ tail) io_EOF) = Some o
          /\ delivered o = evs ++ evs'
          /\ err o = None).
Proof.
  intros E line t Hr Hk. split.
  - intros rest fin s. unfold Anthropic.ChatStream_from.
    rewrite (run_next _ _ _ (Anthropic_body_oblivious E) line rest fin s _
               (proj1 Hr) (body_unknown E line t Hr Hk)).
    unfold more; simpl. rewrite app_nil_r. reflexivity.
  - intros ls evs ls' evs' tail Hd Hd' Ht.
    unfold Anthropic.ChatStream_loop, Anthropic.ChatStream_from.
    destruct (decodes_through E ls evs Hd) as [lg Hth].
    destruct (decodes_through E ls' evs' Hd') as [lg' Hth'].
    rewrite (run_through _ _ _ (Anthropic_body_oblivious E) ls _ Hth).
    rewrite (run_next _ _ _ (Anthropic_body_oblivious E) line _ io_EOF _ _
               (proj1 Hr) (body_unknown E line t Hr Hk)).
    rewrite (run_through _ _ _ (Anthropic_body_oblivious E) ls' _ Hth').
    rewrite (run_fragment _ _ _ tail io_EOF _ Ht).
    eexists. split; [reflexivity|]. split; [|reflexivity].
    simpl. rewrite app_nil_r. reflexivity.
Qed.

Lemma C6_unknown_discriminator_skipped_witness :
  let E := Sample.A.env (mkResponse StatusOK (mkReader [] io_EOF)) in
  (let s : Sink Anthropic.Event := mkSink [Sample.A.ev_ping] [] in
   Anthropic.ChatStream_from E (mkReader (Sample.A.line_unknown ++ Sample.A.line_stop) io_EOF) s
   = Anthropic.ChatStream_from E (mkReader Sample.A.line_stop io_EOF)
       (mkSink (calls s) (logs s ++ ["unknown event type: " ++ "tool_use_delta"]%string)))
  /\
  (exists o,
      Anthropic.ChatStream_loop E
        (mkReader (List.concat [Sample.A.line_start] ++ Sample.A.line_unknown
                   ++ List.concat [Sample.A.line_delta] ++ []) io_EOF) = Some o
      /\ delivered o = [Sample.A.ev_start] ++ [Sample.A.ev_delta]
      /\ err o = None).
Proof.
  intros E.
  assert (Hr : AnthropicWire.record E Sample.A.line_unknown "tool_use_delta")
    by sample_record.
  assert (Hk : AnthropicWire.known "tool_use_delta" = false) by reflexivity.
  split.
  - exact (proj1 (C6_unknown_discriminator_skipped E Sample.A.line_unknown
                    "tool_use_delta" Hr Hk)
             Sample.A.line_stop io_EOF (mkSink [Sample.A.ev_ping] [])).
  - apply (proj2 (C6_unknown_discriminator_skipped E Sample.A.line_unknown
                    "tool_use_delta" Hr Hk)
             [Sample.A.line_start] [Sample.A.ev_start]
             [Sample.A.line_delta] [Sample.A.ev_delta] []).
    + apply AnthropicWire.decodes_event;
        [apply AnthropicWire.carries_message_start; [sample_record | evaluated]|].
      apply AnthropicWire.decodes_nil.
    + apply AnthropicWire.decodes_event;
        [apply AnthropicWire.carries_content_block_delta; [sample_record | evaluated]|].
      apply AnthropicWire.decodes_nil.
    + intros [].
Defined.

(** C7. A record whose payload the JSON decoder rejects makes the call
    fail with the decoder's error (as it is for anthropic, behind the
    prefix [failed to unmarshal event: ] for openai); the handler is not
    invoked for the record, it has received the events of the lines before
    it and receives nothing more, and nothing is read after the record. *)
Theorem C7_malformed_payload_aborts :
  forall (EB : Anthropic.Env) (T : Type) (EA : OpenAI.Env T),
    (forall c req ls evs bad e rest fin,
        AnthropicWire.decodes EB ls evs ->
        Line bad ->
        AnthropicWire.framing bad = false ->
        Anthropic.Unmarshal_Type EB (AnthropicWire.payload bad) = Failed e ->
        AnthropicWire.answers EB c req (mkReader (List.concat ls ++ bad ++ rest) fin) ->
        exists o,
          Anthropic.ChatStream EB c req
          = (Anthropic.set_Stream true req, Some (Anthropic.Streamed o))
          /\ delivered o = evs
          /\ err o = Some e
          /\ unread o = mkReader rest fin)
    /\
    (forall c req ls chunks bad e rest fin,
        OpenAIWire.decodes EA ls chunks ->
        Line bad ->
        OpenAIWire.blank bad = false ->
        OpenAI.Unmarshal_ChatChunk EA (OpenAIWire.payload bad) = Failed e ->
        OpenAIWire.answers EA c req (mkReader (List.concat ls ++ bad ++ rest) fin) ->
        exists o,
          OpenAI.ChatStream EA c req
          = (OpenAI.set_Stream true req, Some (OpenAI.Streamed o))
          /\ delivered o = chunks
          /\ err o = Some (errorString ("failed to unmarshal event: " ++ Error e)%string)
          /\ unread o = mkReader rest fin).
Proof.
  intros EB T EA. split.
  - intros c req ls evs bad e rest fin Hd Hl Hf Hu Ha.
    rewrite (ChatStream_streams EB c req _ Ha).
    unfold Anthropic.ChatStream_loop, Anthropic.ChatStream_from.
    destruct (decodes_through EB ls evs Hd) as [lg Hth].
    rewrite (run_through _ _ _ (Anthropic_body_oblivious EB) ls _ Hth).
    rewrite (run_return _ _ _ (Anthropic_body_oblivious EB) bad rest fin _ _ _
               Hl (body_malformed EB bad e Hl Hf Hu)).
    eexists. split; [reflexivity|]. split; [|split; reflexivity].
    simpl. rewrite app_nil_r. reflexivity.
  - intros c req ls chunks bad e rest fin Hd Hl Hb Hu Ha.
    rewrite (OpenAI_ChatStream_streams T EA c req _ Ha).
    unfold OpenAI.ChatStream_loop, OpenAI.ChatStream_from.
    rewrite (run_through _ _ _ (OpenAI_body_oblivious T EA) ls _ (chunks_through T EA ls chunks Hd)).
    rewrite (run_return _ _ _ (OpenAI_body_oblivious T EA) bad rest fin _ _ _
               Hl (body_malformed_chunk T EA bad e Hb Hu)).
    eexists. split; [reflexivity|]. split; [|split; reflexivity].
    simpl. rewrite app_nil_r. reflexivity.
Qed.

Lemma C7_malformed_payload_aborts_witness :
  let bodyB :=
    mkReader (List.concat [Sample.A.line_start] ++ Sample.A.line_malformed ++ Sample.A.line_stop)
      io_EOF in
  let bodyA :=
    mkReader (List.concat [Sample.O.line_hello] ++ Sample.O.line_malformed ++ Sample.O.line_end)
      io_EOF in
  (exists o,
      Anthropic.ChatStream (Sample.A.env (mkResponse StatusOK bodyB)) Sample.A.client Sample.A.req
      = (Anthropic.set_Stream true Sample.A.req, Some (Anthropic.Streamed o))
      /\ delivered o = [Sample.A.ev_start]
      /\ err o = Some Sample.syntaxError
      /\ unread o = mkReader Sample.A.line_stop io_EOF)
  /\
  (exists o,
      OpenAI.ChatStream (Sample.O.env (mkResponse StatusOK bodyA)) Sample.O.client Sample.O.req
      = (OpenAI.set_Stream true Sample.O.req, Some (OpenAI.Streamed o))
      /\ delivered o
         = map (OpenAIWire.single Sample.O.event_hello) (OpenAI.Choices Sample.O.event_hello) ++ []
      /\ err o = Some (errorString ("failed to unmarshal event: " ++ Error Sample.syntaxError)%string)
      /\ unread o = mkReader Sample.O.line_end io_EOF).
Proof.
  intros bodyB bodyA. split.
  - apply (proj1 (C7_malformed_payload_aborts
                    (Sample.A.env (mkResponse StatusOK bodyB)) unit
                    (Sample.O.env (mkResponse StatusOK bodyA)))
               Sample.A.client Sample.A.req
               [Sample.A.line_start] [Sample.A.ev_start]
               Sample.A.line_malformed Sample.syntaxError Sample.A.line_stop io_EOF).
    + apply AnthropicWire.decodes_event;
        [apply AnthropicWire.carries_message_start; [sample_record | evaluated]|].
      apply AnthropicWire.decodes_nil.
    + evaluated.
    + evaluated.
    + evaluated.
    + reflexivity.
  - apply (proj2 (C7_malformed_payload_aborts
                    (Sample.A.env (mkResponse StatusOK bodyB)) unit
                    (Sample.O.env (mkResponse StatusOK bodyA)))
               Sample.O.client Sample.O.req
               [Sample.O.line_hello]
               (map (OpenAIWire.single Sample.O.event_hello)
                    (OpenAI.Choices Sample.O.event_hello) ++ [])
               Sample.O.line_malformed Sample.syntaxError Sample.O.line_end io_EOF).
    + apply OpenAIWire.decodes_record; [sample_record | repeat constructor |].
      apply OpenAIWire.decodes_nil.
    + evaluated.
    + evaluated.
    + evaluated.
    + reflexivity.
Defined.

(** C8, as the code has it.  In both loops ASCII white space around the
    text of a line changes nothing, and a line of white space only is
    passed over: no error, no handler invocation, nothing logged.  The
    anthropic loop passes over, the same way, every line that starts with
    [event:] once trimmed, and of any other line it reads the text left
    after a leading [data:] is removed and the rest trimmed again: two
    such lines with the same text are treated alike.  The openai loop has
    no rule for [event:] lines. *)
Theorem C8_trimmed_lines_and_framing :
  forall (EB : Anthropic.Env) (T : Type) (EA : OpenAI.Env T),
    (forall ws1 l ws2,
        Padding ws1 -> Padding ws2 ->
        Anthropic.ChatStream_body EB (ws1 ++ l ++ ws2) = Anthropic.ChatStream_body EB l
        /\ OpenAI.ChatStream_body EA (ws1 ++ l ++ ws2) = OpenAI.ChatStream_body EA l)
    /\
    (forall l rest fin,
        Line l -> Padding l ->
        (forall s, Anthropic.ChatStream_from EB (mkReader (l ++ rest) fin) s
                   = Anthropic.ChatStream_from EB (mkReader rest fin) s)
        /\ (forall s, OpenAI.ChatStream_from EA (mkReader (l ++ rest) fin) s
                      = OpenAI.ChatStream_from EA (mkReader rest fin) s))
    /\
    (forall l rest fin s,
        Line l -> HasPrefix (TrimSpace l) (B "event:") = true ->
        Anthropic.ChatStream_from EB (mkReader (l ++ rest) fin) s
        = Anthropic.ChatStream_from EB (mkReader rest fin) s)
    /\
    (forall l1 l2,
        AnthropicWire.framing l1 = false -> AnthropicWire.framing l2 = false ->
        AnthropicWire.payload l1 = AnthropicWire.payload l2 ->
        Anthropic.ChatStream_body EB l1 = Anthropic.ChatStream_body EB l2).
Proof.
  intros EB T EA. split; [|split; [|split]].
  - intros ws1 l ws2 H1 H2. split.
    + unfold Anthropic.ChatStream_body. cbv zeta.
      rewrite (TrimSpace_pad ws1 l ws2 H1 H2). reflexivity.
    + unfold OpenAI.ChatStream_body. cbv zeta.
      rewrite (TrimSpace_pad ws1 l ws2 H1 H2). reflexivity.
  - intros l rest fin Hl Hp. split; intros s.
    + unfold Anthropic.ChatStream_from.
      rewrite (run_next _ _ _ (Anthropic_body_oblivious EB) l rest fin s start Hl).
      * rewrite more_start_r. reflexivity.
      * apply body_framing. unfold AnthropicWire.framing.
        rewrite (TrimSpace_padding l Hp). reflexivity.
    + unfold OpenAI.ChatStream_from.
      rewrite (run_next _ _ _ (OpenAI_body_oblivious T EA) l rest fin s start Hl).
      * rewrite more_start_r. reflexivity.
      * apply body_blank. unfold OpenAIWire.blank.
        rewrite (TrimSpace_padding l Hp). reflexivity.
  - intros l rest fin s Hl Hp. unfold Anthropic.ChatStream_from.
    rewrite (run_next _ _ _ (Anthropic_body_oblivious EB) l rest fin s start Hl).
    + rewrite more_start_r. reflexivity.
    + apply body_framing. unfold AnthropicWire.framing. rewrite Hp.
      apply orb_true_r.
  - intros l1 l2 H1 H2 Hp. unfold Anthropic.ChatStream_body. cbv zeta.
    unfold AnthropicWire.framing in H1, H2. rewrite H1, H2.
    unfold AnthropicWire.payload in Hp. rewrite Hp. reflexivity.
Qed.

Lemma C8_trimmed_lines_and_framing_witness :
  let EB := Sample.A.env (mkResponse StatusOK (mkReader [] io_EOF)) in
  let EA := Sample.O.env (mkResponse StatusOK (mkReader [] io_EOF)) in
  (Anthropic.ChatStream_body EB ([x20; x09] ++ Sample.A.line_ping ++ [x0d; x0a])
   = Anthropic.ChatStream_body EB Sample.A.line_ping
   /\ OpenAI.ChatStream_body EA ([x20; x09] ++ Sample.A.line_ping ++ [x0d; x0a])
      = OpenAI.ChatStream_body EA Sample.A.line_ping)
  /\
  (Anthropic.ChatStream_from EB (mkReader (Sample.A.line_blank ++ Sample.A.line_ping) io_EOF) start
   = Anthropic.ChatStream_from EB (mkReader Sample.A.line_ping io_EOF) start
   /\ OpenAI.ChatStream_from EA (mkReader (Sample.O.line_blank ++ Sample.O.line_hello) io_EOF) start
      = OpenAI.ChatStream_from EA (mkReader Sample.O.line_hello io_EOF) start)
  /\
  Anthropic.ChatStream_from EB (mkReader (Sample.A.line_event ++ Sample.A.line_ping) io_EOF) start
  = Anthropic.ChatStream_from EB (mkReader Sample.A.line_ping io_EOF) start
  /\
  Anthropic.ChatStream_body EB Sample.A.line_ping
  = Anthropic.ChatStream_body EB (Sample.J "{'type':'ping'}").
Proof.
  intros EB EA.
  pose proof (C8_trimmed_lines_and_framing EB unit EA) as (Htrim & Hblank & Hevent & Hsame).
  split; [|split; [|split]].
  - apply Htrim; repeat constructor.
  - split.
    + apply (proj1 (Hblank Sample.A.line_blank Sample.A.line_ping io_EOF
                      ltac:(evaluated) ltac:(repeat constructor))).
    + apply (proj2 (Hblank Sample.O.line_blank Sample.O.line_hello io_EOF
                      ltac:(evaluated) ltac:(repeat constructor))).
  - apply Hevent; evaluated.
  - apply Hsame; evaluated.
Defined.

(** C8 as stated fails for the openai loop: an [event:] line is not passed
    over but handed to the JSON decoder, and the call fails on it. *)
Lemma C8_openai_event_line_counterexample :
  let E := Sample.O.env (mkResponse StatusOK (mkReader [] io_EOF)) in
  OpenAI.ChatStream_loop E (mkReader (Sample.O.line_event ++ Sample.O.line_hello) io_EOF)
  = Some (mkOutcome [] []
            (Some (errorString "failed to unmarshal event: invalid character in JSON text"))
            (mkReader Sample.O.line_hello io_EOF))
  /\ OpenAI.ChatStream_loop E (mkReader (Sample.O.line_event ++ Sample.O.line_hello) io_EOF)
     <> OpenAI.ChatStream_loop E (mkReader Sample.O.line_hello io_EOF).
Proof.
  intros E. split.
  - vm_compute. reflexivity.
  - vm_compute. discriminate.
Qed.

(** C9. In the openai loop a record with several choices gives one
    handler invocation per choice, in the order of the array, each with a
    chunk that has the id, object, created and model of the record and
    that one choice.  After a choice with a finish reason the body
    returns [nil]: the choices after it are not delivered. *)
Theorem C9_one_chunk_per_choice :
  forall (T : Type) (E : OpenAI.Env T) (line : bytes) (event : OpenAI.ChatChunk)
         (s : Sink OpenAI.ChatChunk),
    OpenAIWire.record E line event ->
    (forall c,
        OpenAIWire.single event c
        = OpenAI.mkChatChunk (OpenAI.ID event) (OpenAI.Object event) (OpenAI.Created event)
            (OpenAI.ChunkModel event) [c])
    /\
    (Forall OpenAIWire.unfinished (OpenAI.Choices event) ->
     OpenAI.ChatStream_body E line s
     = (mkSink (calls s ++ map (OpenAIWire.single event) (OpenAI.Choices event)) (logs s),
        Next tt))
    /\
    (forall before c after,
        OpenAI.Choices event = before ++ c :: after ->
        Forall OpenAIWire.unfinished before ->
        OpenAI.FinishReason c <> EmptyString ->
        OpenAI.ChatStream_body E line s
        = (mkSink (calls s ++ map (OpenAIWire.single event) before
                   ++ [OpenAIWire.single event c]) (logs s),
           Return None)).
Proof.
  intros T E line event s Hr. split; [reflexivity|]. split.
  - intros Hu. rewrite (body_record T E line event s Hr).
    rewrite (choices_unfinished event _ Hu s).
    unfold more; simpl. rewrite app_nil_r. reflexivity.
  - intros before c after Hcs Hb Hc. rewrite (body_record T E line event s Hr), Hcs.
    rewrite (choices_finished event before after c Hb Hc s).
    unfold more; simpl. rewrite app_nil_r, map_app. reflexivity.
Qed.

Lemma C9_one_chunk_per_choice_witness :
  let E := Sample.O.env (mkResponse StatusOK (mkReader [] io_EOF)) in
  let s : Sink OpenAI.ChatChunk := start in
  OpenAI.ChatStream_body E Sample.O.line_three s
  = (mkSink (calls s ++ map (OpenAIWire.single Sample.O.event_three) [Sample.O.choice_a]
             ++ [OpenAIWire.single Sample.O.event_three Sample.O.choice_b]) (logs s),
     Return None).
Proof.
  intros E s.
  apply (proj2 (proj2 (C9_one_chunk_per_choice unit E Sample.O.line_three
                         Sample.O.event_three s ltac:(sample_record)))
           [Sample.O.choice_a] Sample.O.choice_b [Sample.O.choice_c]).
  - reflexivity.
  - repeat constructor.
  - discriminate.
Defined.

(** C10. [Chat] and [ChatStream] of both clients leave the caller's
    request struct with [Stream] set, to [false] by [Chat] and to [true] by
    [ChatStream], and every other field as it was; the value the caller
    had put in [Stream] has no effect on the call, which marshals and
    sends the struct after the assignment. *)
Theorem C10_stream_field_overwritten :
  forall (EB : Anthropic.Env) (T : Type) (EA : OpenAI.Env T)
         (cB : Anthropic.Client) (cA : OpenAI.Client),
    (forall model messages system maxTokens metadata stopSequences stream
            temperature topP topK,
        let req := Anthropic.mkChatRequest model messages system maxTokens metadata
                     stopSequences stream temperature topP topK in
        let sent b := Anthropic.mkChatRequest model messages system maxTokens metadata
                        stopSequences b temperature topP topK in
        fst (Anthropic.Chat EB cB req) = sent false
        /\ fst (Anthropic.ChatStream EB cB req) = sent true
        /\ (forall b, Anthropic.Chat EB cB (sent b) = Anthropic.Chat EB cB req)
        /\ (forall b, Anthropic.ChatStream EB cB (sent b) = Anthropic.ChatStream EB cB req)
        /\ (forall e, Anthropic.Marshal EB (sent false) = Failed e ->
                      snd (Anthropic.Chat EB cB req) = Failed e)
        /\ (forall e, Anthropic.Marshal EB (sent true) = Failed e ->
                      snd (Anthropic.ChatStream EB cB req) = Some (Anthropic.Refused e)))
    /\
    (forall messages model frequencyPenalty logitBias logProbs topLogProbs maxTokens n
            presencePenalty responseFormat seed stop stream temperature topP tools
            toolChoices user,
        let req := OpenAI.mkChatRequest messages model frequencyPenalty logitBias logProbs
                     topLogProbs maxTokens n presencePenalty responseFormat seed stop
                     stream temperature topP tools toolChoices user in
        let sent b := OpenAI.mkChatRequest messages model frequencyPenalty logitBias logProbs
                        topLogProbs maxTokens n presencePenalty responseFormat seed stop
                        b temperature topP tools toolChoices user in
        fst (OpenAI.Chat EA cA req) = sent false
        /\ fst (OpenAI.ChatStream EA cA req) = sent true
        /\ (forall b, OpenAI.Chat EA cA (sent b) = OpenAI.Chat EA cA req)
        /\ (forall b, OpenAI.ChatStream EA cA (sent b) = OpenAI.ChatStream EA cA req)
        /\ (forall e, OpenAI.Marshal EA (sent false) = Failed e ->
                      snd (OpenAI.Chat EA cA req)
                      = Failed (errorString ("failed to perform request: " ++ Error e)%string))
        /\ (forall e, OpenAI.Marshal EA (sent true) = Failed e ->
                      snd (OpenAI.ChatStream EA cA req)
                      = Some (OpenAI.Refused
                                (errorString ("failed to perform request: " ++ Error e)%string)))).
Proof.
  intros EB T EA cB cA. split.
  - intros model messages system maxTokens metadata stopSequences stream
           temperature topP topK req sent.
    split; [|split; [|split; [|split; [|split]]]].
    + unfold Anthropic.Chat. cbv zeta.
      destruct (Anthropic.request _ _ _) as [resp|e]; [|reflexivity].
      destruct (negb _); [reflexivity|].
      destruct (Anthropic.Decode_ChatMessage _ _); reflexivity.
    + unfold Anthropic.ChatStream. cbv zeta.
      destruct (Anthropic.request _ _ _) as [resp|e]; [|reflexivity].
      destruct (negb _); [reflexivity|].
      destruct (Anthropic.ChatStream_loop _ _); reflexivity.
    + intros b. reflexivity.
    + intros b. reflexivity.
    + intros e He. unfold Anthropic.Chat, Anthropic.request. cbv zeta.
      change (Anthropic.set_Stream false req) with (sent false). rewrite He. reflexivity.
    + intros e He. unfold Anthropic.ChatStream, Anthropic.request. cbv zeta.
      change (Anthropic.set_Stream true req) with (sent true). rewrite He. reflexivity.
  - intros messages model frequencyPenalty logitBias logProbs topLogProbs maxTokens n
           presencePenalty responseFormat seed stop stream temperature topP tools
           toolChoices user req sent.
    split; [|split; [|split; [|split; [|split]]]].
    + unfold OpenAI.Chat. cbv zeta.
      destruct (OpenAI.requestJSON _ _ _ _) as [resp|e]; [|reflexivity].
      destruct (negb _); [reflexivity|].
      destruct (OpenAI.Decode_ChatResponse _ _); reflexivity.
    + unfold OpenAI.ChatStream. cbv zeta.
      destruct (OpenAI.requestJSON _ _ _ _) as [resp|e]; [|reflexivity].
      destruct (negb _); [reflexivity|].
      destruct (OpenAI.ChatStream_loop _ _); reflexivity.
    + intros b. reflexivity.
    + intros b. reflexivity.
    + intros e He. unfold OpenAI.Chat, OpenAI.requestJSON. cbv zeta.
      change (OpenAI.set_Stream false req) with (sent false). rewrite He. reflexivity.
    + intros e He. unfold OpenAI.ChatStream, OpenAI.requestJSON. cbv zeta.
      change (OpenAI.set_Stream true req) with (sent true). rewrite He. reflexivity.
Qed.

Lemma C10_stream_field_overwritten_witness :
  let resp := mkResponse StatusOK (mkReader [] io_EOF) in
  (snd (Anthropic.Chat (Sample.A.envRefusing resp) Sample.A.client
          (Anthropic.set_Stream true Sample.A.req)) = Failed Sample.unsupported
   /\ snd (Anthropic.ChatStream (Sample.A.envRefusing resp) Sample.A.client Sample.A.req)
      = Some (Anthropic.Refused Sample.unsupported))
  /\
  (snd (OpenAI.Chat (Sample.O.envRefusing resp) Sample.O.client
          (OpenAI.set_Stream true Sample.O.req))
   = Failed (errorString ("failed to perform request: " ++ Error Sample.unsupported)%string)
   /\ snd (OpenAI.ChatStream (Sample.O.envRefusing resp) Sample.O.client Sample.O.req)
      = Some (OpenAI.Refused
                (errorString ("failed to perform request: " ++ Error Sample.unsupported)%string))).
Proof.
  intros resp.
  pose proof (C10_stream_field_overwritten (Sample.A.envRefusing resp) unit
                (Sample.O.envRefusing resp) Sample.A.client Sample.O.client) as [HB HA].
  split.
  - pose proof (HB "claude-3-haiku-20240307"
                  [Anthropic.UserMessage [Anthropic.ContentText (Anthropic.mkTextContent "Hello")]]
                  EmptyString 64%Z (Anthropic.mkMetadata EmptyString) [] true 0%N 0%N 0%Z)
      as (_ & _ & _ & _ & Hchat & _).
    pose proof (HB "claude-3-haiku-20240307"
                  [Anthropic.UserMessage [Anthropic.ContentText (Anthropic.mkTextContent "Hello")]]
                  EmptyString 64%Z (Anthropic.mkMetadata EmptyString) [] false 0%N 0%N 0%Z)
      as (_ & _ & _ & _ & _ & Hstream).
    split; [apply Hchat | apply Hstream]; reflexivity.
  - pose proof (HA [OpenAI.MsgUser (OpenAI.mkUserMessage
                                      [OpenAI.ContentText (OpenAI.mkTextContent "Hello")]
                                      EmptyString)]
                  "gpt-4" 0%N 0%N false 0%Z 64%Z 1%Z 0%N EmptyString 0%Z [] true 0%N 0%N
                  [] [] EmptyString)
      as (_ & _ & _ & _ & Hchat & _).
    pose proof (HA [OpenAI.MsgUser (OpenAI.mkUserMessage
                                      [OpenAI.ContentText (OpenAI.mkTextContent "Hello")]
                                      EmptyString)]
                  "gpt-4" 0%N 0%N false 0%Z 64%Z 1%Z 0%N EmptyString 0%Z [] false 0%N 0%N
                  [] [] EmptyString)
      as (_ & _ & _ & _ & _ & Hstream).
    split; [apply Hchat | apply Hstream]; reflexivity.
Defined.

(* ================================================================= *)
(** * Further properties of the streaming loops *)

Section LoopInvariants.

Import Delivery.

Variable Ev : Type.
Variable wrapRead : error -> error.
Variable body : bytes -> M Ev unit.

(** A property of the delivered events that every run of the body keeps
    holds of what the loop has delivered when it ends. *)
Lemma loop_all (Q : list Ev -> Prop) :
  (forall l s s' c, Q (calls s) -> body l s = (s', c) -> Q (calls s')) ->
  forall fuel r s o,
    Q (calls s) -> loop wrapRead body fuel r s = Some o -> Q (delivered o).
Proof.
  intros Hbody. induction fuel as [|fuel IH]; intros r s o Hs Hrun; [discriminate|].
  cbn [loop] in Hrun. destruct (ReadBytes r x0a) as [[line e] r'].
  destruct e as [e|].
  - destruct (is_EOF e); inversion Hrun; subst; exact Hs.
  - destruct (body line s) as [s' c] eqn:Hb.
    pose proof (Hbody line s s' c Hs Hb) as Hs'.
    destruct c as [[]|e'].
    + exact (IH r' s' o Hs' Hrun).
    + inversion Hrun; subst. exact Hs'.
Qed.

Variable terminal : Ev -> bool.

(** When the body delivers a terminal event only as the last thing before
    it returns [nil], so does the loop. *)
Lemma loop_tidy :
  (forall l s s' c,
      ongoing terminal (calls s) -> body l s = (s', c) ->
      match c with
      | Next _ => ongoing terminal (calls s')
      | Return e => tidy terminal (calls s') e
      end) ->
  forall fuel r s o,
    ongoing terminal (calls s) ->
    loop wrapRead body fuel r s = Some o ->
    tidy terminal (delivered o) (err o).
Proof.
  intros Hbody. induction fuel as [|fuel IH]; intros r s o Hs Hrun; [discriminate|].
  cbn [loop] in Hrun. destruct (ReadBytes r x0a) as [[line e] r'].
  destruct e as [e|].
  - destruct (is_EOF e); inversion Hrun; subst; left; exact Hs.
  - destruct (body line s) as [s' c] eqn:Hb.
    pose proof (Hbody line s s' c Hs Hb) as Hs'.
    destruct c as [[]|e'].
    + exact (IH r' s' o Hs' Hrun).
    + inversion Hrun; subst. exact Hs'.
Qed.

(** In a tidy delivery a terminal event is the last one, and the call
    returned [nil]. *)
Lemma tidy_last (evs : list Ev) (e : option error) :
  tidy terminal evs e ->
  forall pre ev suf,
    evs = pre ++ ev :: suf -> terminal ev = true -> suf = [] /\ e = None.
Proof.
  intros [Hon|(pre' & t & -> & Hon & Ht & ->)] pre ev suf Heq Hev.
  - subst evs. unfold ongoing in Hon. rewrite Forall_app in Hon.
    destruct Hon as [_ Hon]. inversion Hon as [|? ? Hf _]; subst.
    rewrite Hf in Hev. discriminate.
  - destruct suf as [|x suf].
    + split; reflexivity.
    + exfalso.
      assert (Hin : In ev pre').
      { assert (Hin' : In ev (removelast (pre' ++ [t]))).
        { rewrite Heq.
          replace (pre ++ ev :: x :: suf) with ((pre ++ [ev]) ++ x :: suf)
            by (rewrite <- app_assoc; reflexivity).
          rewrite removelast_app by discriminate.
          apply in_or_app. left. apply in_or_app. right. left. reflexivity. }
        rewrite removelast_last in Hin'. exact Hin'. }
      unfold ongoing in Hon. rewrite Forall_forall in Hon.
      rewrite (Hon ev Hin) in Hev. discriminate.
Qed.

End LoopInvariants.

Section AnthropicInvariants.

Import Anthropic AnthropicWire Delivery.

Variable E : Env.

Lemma ongoing_snoc (ev : Event) (evs : list Event) :
  ongoing isStop evs -> isStop ev = false -> ongoing isStop (evs ++ [ev]).
Proof.
  intros Hon Hev. unfold ongoing. rewrite Forall_app. split; [exact Hon|].
  constructor; [exact Hev | constructor].
Qed.

(** The body delivers [message_stop] only as the last thing before it
    returns [nil]. *)
Lemma Anthropic_body_tidy (l : bytes) (s s' : Sink Event) (c : Ctl unit) :
  ongoing isStop (calls s) ->
  ChatStream_body E l s = (s', c) ->
  match c with
  | Next _ => ongoing isStop (calls s')
  | Return e => tidy isStop (calls s') e
  end.
Proof.
  intros Hon H. unfold ChatStream_body in H. cbv zeta in H.
  unfold bind, try, ret, return_, callback, logPrint in H.
  repeat match type of H with
         | context [if ?b then _ else _] => destruct b
         | context [match ?x with Ok _ => _ | Failed _ => _ end] => destruct x
         end;
    inversion H; subst; cbn [calls];
    try exact Hon;
    try (left; exact Hon);
    try (apply ongoing_snoc; [exact Hon | reflexivity]).
  right. eexists. eexists. split; [reflexivity|].
  split; [exact Hon|]. split; reflexivity.
Qed.

(** Every outcome of the loop is the loop on the body of a response. *)
Lemma ChatStream_streamed (c : Client) (req req' : ChatRequest) (o : Outcome Event) :
  ChatStream E c req = (req', Some (Streamed o)) ->
  exists reader, ChatStream_loop E reader = Some o.
Proof.
  unfold ChatStream.
  destruct (request E c (set_Stream true req)) as [resp|e]; [|discriminate].
  destruct (negb _); [discriminate|].
  destruct (ChatStream_loop E (Body resp)) as [o'|] eqn:Hloop; [|discriminate].
  intros H. inversion H; subst. exists (Body resp). exact Hloop.
Qed.

End AnthropicInvariants.

Section OpenAIInvariants.

Import OpenAI OpenAIWire Delivery.

Variable map_string_any : Type.
Variable E : Env map_string_any.

Lemma chunks_snoc (chunk : ChatChunk) (chunks : list ChatChunk) :
  ongoing isFinished chunks -> isFinished chunk = false ->
  ongoing isFinished (chunks ++ [chunk]).
Proof.
  intros Hon Hev. unfold ongoing. rewrite Forall_app. split; [exact Hon|].
  constructor; [exact Hev | constructor].
Qed.

(** The [for] over the choices delivers a chunk with a finish reason only
    as the last thing before it returns [nil]. *)
Lemma choices_tidy (event : ChatChunk) (cs : list Choice) :
  forall (s s' : Sink ChatChunk) (c : Ctl unit),
    ongoing isFinished (calls s) ->
    ChatStream_choices event cs s = (s', c) ->
    match c with
    | Next _ => ongoing isFinished (calls s')
    | Return e => tidy isFinished (calls s') e
    end.
Proof.
  induction cs as [|ch cs IH]; intros s s' c Hon H.
  - inversion H; subst. exact Hon.
  - cbn [ChatStream_choices] in H. unfold bind, callback in H.
    destruct (FinishReason ch =? EmptyString)%string eqn:Hfr; cbn [negb] in H.
    + apply (IH _ s' c) in H; [exact H|]. cbn [calls].
      apply chunks_snoc; [exact Hon|].
      unfold isFinished. cbn [Choices existsb FinishReason]. rewrite Hfr. reflexivity.
    + unfold return_ in H. inversion H; subst. cbn [calls].
      right. eexists. eexists. split; [reflexivity|]. split; [exact Hon|].
      split; [|reflexivity].
      unfold isFinished. cbn [Choices existsb FinishReason]. rewrite Hfr. reflexivity.
Qed.

Lemma OpenAI_body_tidy (l : bytes) (s s' : Sink ChatChunk) (c : Ctl unit) :
  ongoing isFinished (calls s) ->
  ChatStream_body E l s = (s', c) ->
  match c with
  | Next _ => ongoing isFinished (calls s')
  | Return e => tidy isFinished (calls s') e
  end.
Proof.
  intros Hon H. unfold ChatStream_body in H. cbv zeta in H.
  destruct (_ =? _)%nat.
  - inversion H; subst. exact Hon.
  - unfold bind, try in H.
    destruct (Unmarshal_ChatChunk E _) as [event|e].
    + exact (choices_tidy event (Choices event) s s' c Hon H).
    + inversion H; subst. left. exact Hon.
Qed.

(** Every chunk the [for] over the choices delivers has one choice. *)
Lemma choices_single (event : ChatChunk) (cs : list Choice) :
  forall (s s' : Sink ChatChunk) (c : Ctl unit),
    Forall (fun chunk => List.length (Choices chunk) = 1) (calls s) ->
    ChatStream_choices event cs s = (s', c) ->
    Forall (fun chunk => List.length (Choices chunk) = 1) (calls s').
Proof.
  induction cs as [|ch cs IH]; intros s s' c Hall H.
  - inversion H; subst. exact Hall.
  - cbn [ChatStream_choices] in H. unfold bind, callback in H.
    assert (Hall' : Forall (fun chunk => List.length (Choices chunk) = 1)
                      (calls s ++ [mkChatChunk (ID event) (Object event) (Created event)
                                     (ChunkModel event)
                                     [mkChoice (Choice_Delta ch) (FinishReason ch) (Index ch)]])).
    { rewrite Forall_app. split; [exact Hall|]. constructor; [reflexivity|constructor]. }
    destruct (negb _).
    + unfold return_ in H. inversion H; subst. exact Hall'.
    + apply (IH _ s' c) in H; [exact H | cbn [calls]; exact Hall'].
Qed.

Lemma OpenAI_body_single (l : bytes) (s s' : Sink ChatChunk) (c : Ctl unit) :
  Forall (fun chunk => List.length (Choices chunk) = 1) (calls s) ->
  ChatStream_body E l s = (s', c) ->
  Forall (fun chunk => List.length (Choices chunk) = 1) (calls s').
Proof.
  intros Hall H. unfold ChatStream_body in H. cbv zeta in H.
  destruct (_ =? _)%nat.
  - inversion H; subst. exact Hall.
  - unfold bind, try in H.
    destruct (Unmarshal_ChatChunk E _) as [event|e].
    + exact (choices_single event (Choices event) s s' c Hall H).
    + inversion H; subst. exact Hall.
Qed.

Lemma OpenAI_ChatStream_streamed (c : Client) (req req' : ChatRequest map_string_any)
      (o : Outcome ChatChunk) :
  ChatStream E c req = (req', Some (Streamed o)) ->
  exists reader, ChatStream_loop E reader = Some o.
Proof.
  unfold ChatStream. cbv zeta.
  destruct (requestJSON E c _ (set_Stream true req)) as [resp|e]; [|discriminate].
  destruct (negb _); [discriminate|].
  destruct (ChatStream_loop E (Body resp)) as [o'|] eqn:Hloop; [|discriminate].
  intros H. inversion H; subst. exists (Body resp). exact Hloop.
Qed.

End OpenAIInvariants.

(** X1. Whatever the response body holds, when the anthropic [ChatStream]
    has streamed, a [message_stop] event among the events it delivered is
    the last of them and the call returned [nil]: the handler gets at most
    one terminal event and nothing after it. *)
Theorem X1_message_stop_is_delivered_last :
  forall (E : Anthropic.Env) (c : Anthropic.Client) (req req' : Anthropic.ChatRequest)
         (o : Outcome Anthropic.Event),
    Anthropic.ChatStream E c req = (req', Some (Anthropic.Streamed o)) ->
    forall pre ev suf,
      delivered o = pre ++ ev :: suf ->
      Anthropic.EventType ev = "message_stop" ->
      suf = [] /\ err o = None.
Proof.
  intros E c req req' o H pre ev suf Hd Hev.
  destruct (ChatStream_streamed E c req req' o H) as [reader Hloop].
  unfold Anthropic.ChatStream_loop, Anthropic.ChatStream_from, run in Hloop.
  apply (tidy_last Anthropic.Event Delivery.isStop (delivered o) (err o)) with (pre := pre) (ev := ev).
  - apply (loop_tidy Anthropic.Event Anthropic.asIs (Anthropic.ChatStream_body E)
             Delivery.isStop (Anthropic_body_tidy E) (S (List.length (pending reader))) reader start o); [constructor | exact Hloop].
  - exact Hd.
  - unfold Delivery.isStop. rewrite Hev. reflexivity.
Qed.

Lemma X1_message_stop_is_delivered_last_witness :
  ([] : list Anthropic.Event) = []
  /\ err (mkOutcome [Sample.A.ev_start; AnthropicWire.stopEvent] [] None
            (mkReader Sample.A.line_ping io_EOF)) = None.
Proof.
  apply (X1_message_stop_is_delivered_last
           (Sample.A.env (mkResponse StatusOK
                            (mkReader (Sample.A.line_start ++ Sample.A.line_stop
                                       ++ Sample.A.line_ping) io_EOF)))
           Sample.A.client Sample.A.req (Anthropic.set_Stream true Sample.A.req)
           (mkOutcome [Sample.A.ev_start; AnthropicWire.stopEvent] [] None
              (mkReader Sample.A.line_ping io_EOF))
           ltac:(vm_compute; reflexivity)
           [Sample.A.ev_start] AnthropicWire.stopEvent []);
    reflexivity.
Defined.

(** X2. Whatever the response body holds, when the openai [ChatStream]
    has streamed, every chunk it delivered carries exactly one choice, and
    a chunk whose choice has a finish reason is the last delivered, the
    call having returned [nil]. *)
Theorem X2_chunks_have_one_choice_and_finish_last :
  forall (T : Type) (E : OpenAI.Env T) (c : OpenAI.Client) (req req' : OpenAI.ChatRequest T)
         (o : Outcome OpenAI.ChatChunk),
    OpenAI.ChatStream E c req = (req', Some (OpenAI.Streamed o)) ->
    Forall (fun chunk => exists ch, OpenAI.Choices chunk = [ch]) (delivered o)
    /\ forall pre chunk suf ch,
        delivered o = pre ++ chunk :: suf ->
        OpenAI.Choices chunk = [ch] ->
        OpenAI.FinishReason ch <> EmptyString ->
        suf = [] /\ err o = None.
Proof.
  intros T E c req req' o H.
  destruct (OpenAI_ChatStream_streamed T E c req req' o H) as [reader Hloop].
  unfold OpenAI.ChatStream_loop, OpenAI.ChatStream_from, run in Hloop.
  split.
  - assert (Hall : Forall (fun chunk => List.length (OpenAI.Choices chunk) = 1) (delivered o)).
    { apply (loop_all OpenAI.ChatChunk (OpenAI.wrapped "failed to read response: ")
               (OpenAI.ChatStream_body E)
               (Forall (fun chunk => List.length (OpenAI.Choices chunk) = 1))
               (OpenAI_body_single T E) (S (List.length (pending reader))) reader start o); [constructor | exact Hloop]. }
    rewrite Forall_forall in *. intros chunk Hin. specialize (Hall chunk Hin).
    destruct (OpenAI.Choices chunk) as [|ch [|? ?]]; try discriminate.
    exists ch. reflexivity.
  - intros pre chunk suf ch Hd Hch Hfr.
    apply (tidy_last OpenAI.ChatChunk Delivery.isFinished (delivered o) (err o))
      with (pre := pre) (ev := chunk).
    + apply (loop_tidy OpenAI.ChatChunk (OpenAI.wrapped "failed to read response: ")
               (OpenAI.ChatStream_body E)
               Delivery.isFinished (OpenAI_body_tidy T E) (S (List.length (pending reader))) reader start o);
        [constructor | exact Hloop].
    + exact Hd.
    + unfold Delivery.isFinished. rewrite Hch. cbn [existsb].
      destruct (OpenAI.FinishReason ch =? EmptyString)%string eqn:Heq; [|reflexivity].
      apply String.eqb_eq in Heq. contradiction.
Qed.

Lemma X2_chunks_have_one_choice_and_finish_last_witness :
  let o :=
    mkOutcome [OpenAIWire.single Sample.O.event_hello Sample.O.choice_hello;
               OpenAIWire.single Sample.O.event_three Sample.O.choice_a;
               OpenAIWire.single Sample.O.event_three Sample.O.choice_b]
      [] None (mkReader Sample.O.line_done io_EOF) in
  Forall (fun chunk => exists ch, OpenAI.Choices chunk = [ch]) (delivered o)
  /\ (([] : list OpenAI.ChatChunk) = [] /\ err o = None).
Proof.
  intros o.
  pose proof (X2_chunks_have_one_choice_and_finish_last unit
                (Sample.O.env (mkResponse StatusOK
                                 (mkReader (Sample.O.line_hello ++ Sample.O.line_three
                                            ++ Sample.O.line_done) io_EOF)))
                Sample.O.client Sample.O.req (OpenAI.set_Stream true Sample.O.req) o
                ltac:(vm_compute; reflexivity)) as [Hall Hlast].
  split; [exact Hall|].
  apply (Hlast [OpenAIWire.single Sample.O.event_hello Sample.O.choice_hello;
                OpenAIWire.single Sample.O.event_three Sample.O.choice_a]
               (OpenAIWire.single Sample.O.event_three Sample.O.choice_b) []
               Sample.O.choice_b); [reflexivity | reflexivity | discriminate].
Defined.

(** X3. When reading the response body fails with an error other than
    [io.EOF], each [ChatStream] returns that error (as it is for
    anthropic, behind the prefix [failed to read response: ] for openai);
    the events of the lines read before are delivered, and the bytes that
    came after the last line feed are not decoded. *)
Theorem X3_read_error_fails_the_call :
  forall (EB : Anthropic.Env) (T : Type) (EA : OpenAI.Env T),
    (forall c req ls evs tail fin,
        AnthropicWire.decodes EB ls evs ->
        Fragment tail ->
        is_EOF fin = false ->
        AnthropicWire.answers EB c req (mkReader (List.concat ls ++ tail) fin) ->
        exists o,
          Anthropic.ChatStream EB c req
          = (Anthropic.set_Stream true req, Some (Anthropic.Streamed o))
          /\ delivered o = evs
          /\ err o = Some fin)
    /\
    (forall c req ls chunks tail fin,
        OpenAIWire.decodes EA ls chunks ->
        Fragment tail ->
        is_EOF fin = false ->
        OpenAIWire.answers EA c req (mkReader (List.concat ls ++ tail) fin) ->
        exists o,
          OpenAI.ChatStream EA c req
          = (OpenAI.set_Stream true req, Some (OpenAI.Streamed o))
          /\ delivered o = chunks
          /\ err o = Some (errorString ("failed to read response: " ++ Error fin)%string)).
Proof.
  intros EB T EA. split.
  - intros c req ls evs tail fin Hd Ht Hfin Ha.
    rewrite (ChatStream_streams EB c req _ Ha).
    unfold Anthropic.ChatStream_loop, Anthropic.ChatStream_from.
    destruct (decodes_through EB ls evs Hd) as [lg Hth].
    rewrite (run_through _ _ _ (Anthropic_body_oblivious EB) ls _ Hth).
    rewrite (run_fragment _ _ _ tail fin _ Ht), Hfin.
    eexists. split; [reflexivity|]. split; reflexivity.
  - intros c req ls chunks tail fin Hd Ht Hfin Ha.
    rewrite (OpenAI_ChatStream_streams T EA c req _ Ha).
    unfold OpenAI.ChatStream_loop, OpenAI.ChatStream_from.
    rewrite (run_through _ _ _ (OpenAI_body_oblivious T EA) ls _ (chunks_through T EA ls chunks Hd)).
    rewrite (run_fragment _ _ _ tail fin _ Ht), Hfin.
    eexists. split; [reflexivity|]. split; reflexivity.
Qed.

Lemma X3_read_error_fails_the_call_witness :
  let reset := errorString "read tcp: connection reset by peer" in
  let bodyB :=
    mkReader (List.concat [Sample.A.line_start] ++ Sample.J "data: {'type':'content_bl") reset in
  let bodyA := mkReader (List.concat [Sample.O.line_hello] ++ Sample.J "data: {'id'") reset in
  (exists o,
      Anthropic.ChatStream (Sample.A.env (mkResponse StatusOK bodyB)) Sample.A.client Sample.A.req
      = (Anthropic.set_Stream true Sample.A.req, Some (Anthropic.Streamed o))
      /\ delivered o = [Sample.A.ev_start]
      /\ err o = Some reset)
  /\
  (exists o,
      OpenAI.ChatStream (Sample.O.env (mkResponse StatusOK bodyA)) Sample.O.client Sample.O.req
      = (OpenAI.set_Stream true Sample.O.req, Some (OpenAI.Streamed o))
      /\ delivered o
         = map (OpenAIWire.single Sample.O.event_hello) (OpenAI.Choices Sample.O.event_hello) ++ []
      /\ err o = Some (errorString ("failed to read response: " ++ Error reset)%string)).
Proof.
  intros reset bodyB bodyA. split.
  - apply (proj1 (X3_read_error_fails_the_call
                    (Sample.A.env (mkResponse StatusOK bodyB)) unit
                    (Sample.O.env (mkResponse StatusOK bodyA)))
               Sample.A.client Sample.A.req
               [Sample.A.line_start] [Sample.A.ev_start]
               (Sample.J "data: {'type':'content_bl") reset).
    + apply AnthropicWire.decodes_event;
        [apply AnthropicWire.carries_message_start; [sample_record | evaluated]|].
      apply AnthropicWire.decodes_nil.
    + unfold Fragment. vm_compute. intuition discriminate.
    + reflexivity.
    + reflexivity.
  - apply (proj2 (X3_read_error_fails_the_call
                    (Sample.A.env (mkResponse StatusOK bodyB)) unit
                    (Sample.O.env (mkResponse StatusOK bodyA)))
               Sample.O.client Sample.O.req
               [Sample.O.line_hello]
               (map (OpenAIWire.single Sample.O.event_hello)
                    (OpenAI.Choices Sample.O.event_hello) ++ [])
               (Sample.J "data: {'id'") reset).
    + apply OpenAIWire.decodes_record; [sample_record | repeat constructor |].
      apply OpenAIWire.decodes_nil.
    + unfold Fragment. vm_compute. intuition discriminate.
    + reflexivity.
    + reflexivity.
Defined.

Section MisshapenFacts.

Import Anthropic AnthropicWire Delivery.

Variable E : Env.

Lemma body_misshapen (l : bytes) (e : error) :
  misshapen E l e -> ChatStream_body E l start = (start, Return (Some e)).
Proof.
  intros [H Hu|H Hu|H Hu|H Hu|H Hu|H Hu];
    destruct H as (Hl & Hf & Ht);
    unfold ChatStream_body; cbv zeta;
    unfold framing in Hf; rewrite Hf;
    unfold payload in *; rewrite Ht;
    unfold bind, try, ret; simpl; rewrite Hu; reflexivity.
Qed.

Lemma misshapen_Line (l : bytes) (e : error) : misshapen E l e -> Line l.
Proof. intros [H _|H _|H _|H _|H _|H _]; apply H. Qed.

End MisshapenFacts.

(** X4. In the anthropic loop a record of a known kind whose payload the
    decoder of that kind rejects (the JSON is valid and the discriminator
    is read, but a field has the wrong shape) makes the call fail with the
    decoder's error: the handler is not invoked for the record, it has
    received the events of the lines before, and nothing is read after
    the record. *)
Theorem X4_misshapen_record_aborts :
  forall (E : Anthropic.Env) c req ls evs bad e rest fin,
    AnthropicWire.decodes E ls evs ->
    Delivery.misshapen E bad e ->
    AnthropicWire.answers E c req (mkReader (List.concat ls ++ bad ++ rest) fin) ->
    exists o,
      Anthropic.ChatStream E c req
      = (Anthropic.set_Stream true req, Some (Anthropic.Streamed o))
      /\ delivered o = evs
      /\ err o = Some e
      /\ unread o = mkReader rest fin.
Proof.
  intros E c req ls evs bad e rest fin Hd Hm Ha.
  rewrite (ChatStream_streams E c req _ Ha).
  unfold Anthropic.ChatStream_loop, Anthropic.ChatStream_from.
  destruct (decodes_through E ls evs Hd) as [lg Hth].
  rewrite (run_through _ _ _ (Anthropic_body_oblivious E) ls _ Hth).
  rewrite (run_return _ _ _ (Anthropic_body_oblivious E) bad rest fin _ _ _
             (misshapen_Line E bad e Hm) (body_misshapen E bad e Hm)).
  eexists. split; [reflexivity|]. split; [|split; reflexivity].
  simpl. rewrite app_nil_r. reflexivity.
Qed.

Lemma X4_misshapen_record_aborts_witness :
  let bad := Sample.J "data: {'type':'content_block_stop','index':'first'}" ++ [x0a] in
  let body := mkReader (List.concat [Sample.A.line_start] ++ bad ++ Sample.A.line_stop) io_EOF in
  exists o,
    Anthropic.ChatStream (Sample.A.env (mkResponse StatusOK body)) Sample.A.client Sample.A.req
    = (Anthropic.set_Stream true Sample.A.req, Some (Anthropic.Streamed o))
    /\ delivered o = [Sample.A.ev_start]
    /\ err o = Some Sample.typeError
    /\ unread o = mkReader Sample.A.line_stop io_EOF.
Proof.
  intros bad body.
  apply (X4_misshapen_record_aborts (Sample.A.env (mkResponse StatusOK body))
           Sample.A.client Sample.A.req [Sample.A.line_start] [Sample.A.ev_start]
           bad Sample.typeError Sample.A.line_stop io_EOF).
  - apply AnthropicWire.decodes_event;
      [apply AnthropicWire.carries_message_start; [sample_record | evaluated]|].
    apply AnthropicWire.decodes_nil.
  - apply Delivery.misshapen_content_block_stop; [sample_record | evaluated].
  - reflexivity.
Defined.



(* ================================================================= *)
(** * Properties of the pinecone client *)

Section URLFacts.

Import URL Text.

Lemma every_app (p : ascii -> bool) (s t : string) :
  every p (s ++ t) = every p s && every p t.
Proof.
  induction s as [|c s IH]; simpl; [reflexivity|].
  rewrite IH, andb_assoc. reflexivity.
Qed.

Lemma occurrences_app (c : ascii) (s t : string) :
  occurrences c (s ++ t) = occurrences c s + occurrences c t.
Proof.
  induction s as [|a s IH]; simpl; [reflexivity|].
  rewrite IH. lia.
Qed.

Lemma every_occurrences (p : ascii -> bool) (c : ascii) (s : string) :
  every p s = true -> p c = false -> occurrences c s = 0.
Proof.
  intros Hs Hc. induction s as [|a s IH]; simpl in *; [reflexivity|].
  apply andb_true_iff in Hs. destruct Hs as [Ha Hs].
  destruct (Ascii.eqb a c) eqn:Heq.
  - apply Ascii.eqb_eq in Heq. subst a. rewrite Ha in Hc. discriminate.
  - rewrite (IH Hs). reflexivity.
Qed.

Lemma escapeByte_written (c : ascii) (mode : encoding) :
  every (written mode) (escapeByte c mode) = true.
Proof.
  destruct c as [[] [] [] [] [] [] [] []]; destruct mode; vm_compute; reflexivity.
Qed.

Lemma escape_written (s : string) (mode : encoding) :
  every (written mode) (escape s mode) = true.
Proof.
  induction s as [|c s IH]; simpl; [reflexivity|].
  rewrite every_app, escapeByte_written, IH. reflexivity.
Qed.

Lemma unescape_escapeByte (c : ascii) (mode : encoding) (rest : string) :
  unescape (escapeByte c mode ++ rest) mode = String c (unescape rest mode).
Proof.
  destruct c as [[] [] [] [] [] [] [] []]; destruct mode; reflexivity.
Qed.

Lemma unescape_escape (s : string) (mode : encoding) :
  unescape (escape s mode) mode = s.
Proof.
  induction s as [|c s IH]; simpl; [reflexivity|].
  rewrite unescape_escapeByte, IH. reflexivity.
Qed.

Lemma escape_injective (s t : string) (mode : encoding) :
  escape s mode = escape t mode -> s = t.
Proof.
  intros H. rewrite <- (unescape_escape s mode), <- (unescape_escape t mode), H.
  reflexivity.
Qed.

Lemma append_assoc_ (s t u : string) : ((s ++ t) ++ u = s ++ t ++ u)%string.
Proof. induction s as [|c s IH]; simpl; [reflexivity|]. rewrite IH. reflexivity. Qed.

Lemma append_injective (p s t : string) : (p ++ s = p ++ t)%string -> s = t.
Proof.
  induction p as [|c p IH]; simpl; intros H; [exact H|].
  inversion H. apply IH. assumption.
Qed.

(** No separator of a URL is written by [PathEscape]. *)
Lemma PathEscape_segment (name : string) (c : ascii) :
  In c ["/"; "?"; "#"; " "]%char -> occurrences c (PathEscape name) = 0.
Proof.
  intros Hc. apply (every_occurrences (written encodePathSegment)).
  - apply escape_written.
  - destruct Hc as [<-|[<-|[<-|[<-|[]]]]]; reflexivity.
Qed.

(** No separator of a query is written by [QueryEscape]. *)
Lemma QueryEscape_component (value : string) (c : ascii) :
  In c ["&"; "="; "?"; "#"; " "; "/"]%char -> occurrences c (QueryEscape value) = 0.
Proof.
  intros Hc. apply (every_occurrences (written encodeQueryComponent)).
  - apply escape_written.
  - destruct Hc as [<-|[<-|[<-|[<-|[<-|[<-|[]]]]]]]; reflexivity.
Qed.

End URLFacts.

Section PineconeFacts.

Import URL Text Pinecone.

Variable map_string_any : Type.
Variable E : Env map_string_any.

(** What [request] hands to the HTTP client. *)
Lemma request_sent (baseURL token method path : string) (body : option (result bytes)) :
  fst (request E baseURL token method path body) = []
  \/ exists buf,
      (body = None /\ buf = [] \/ body = Some (Ok buf))
      /\ checkRequest E method (baseURL ++ path) = None
      /\ fst (request E baseURL token method path body)
         = [mkRequest method (baseURL ++ path)
              (("Api-Key", token)
               :: match body with
                  | Some _ => [("Content-Type", "application/json")]
                  | None => []
                  end)
              buf]
      /\ snd (request E baseURL token method path body)
         = Do E (mkRequest method (baseURL ++ path)
                   (("Api-Key", token)
                    :: match body with
                       | Some _ => [("Content-Type", "application/json")]
                       | None => []
                       end)
                   buf).
Proof.
  unfold request, NewRequestWithContext. cbv zeta.
  destruct body as [[b|e]|].
  - destruct (checkRequest E method (baseURL ++ path)); [left; reflexivity|].
    right. exists b. repeat split. right. reflexivity.
  - left. reflexivity.
  - destruct (checkRequest E method (baseURL ++ path)); [left; reflexivity|].
    right. exists []. repeat split. left. split; reflexivity.
Qed.

Lemma decoded_sent {A : Type} (status : Z) (decode : Reader -> result A)
      (r : list Request * result Response) :
  fst (decoded E status decode r) = fst r.
Proof.
  destruct r as [sent [resp|e]]; simpl; [|reflexivity].
  destruct (negb _); reflexivity.
Qed.

Lemma accepted_sent (status : Z) (r : list Request * result Response) :
  fst (accepted E status r) = fst r.
Proof.
  destruct r as [sent [resp|e]]; simpl; [|reflexivity].
  destruct (negb _); reflexivity.
Qed.

(** The separators of a query occur in an encoded list of parameters only
    where [Encode] puts them. *)
Lemma occurrences_pairs (c : ascii) (kvs : list (string * string)) :
  In c ["&"; "="; "?"; "#"; " "; "/"]%char ->
  Forall (fun kv => occurrences c (fst kv) = 0) kvs ->
  occurrences c
    (String.concat "&" (map (fun kv => (fst kv ++ "=" ++ QueryEscape (snd kv))%string) kvs))
  = (if Ascii.eqb c "=" then List.length kvs else 0)
    + (if Ascii.eqb c "&" then pred (List.length kvs) else 0).
Proof.
  intros Hc Hk. induction Hk as [|kv kvs Hkv Hk IH].
  - simpl. destruct (Ascii.eqb c "="), (Ascii.eqb c "&"); reflexivity.
  - cbn [map String.concat].
    destruct kvs as [|kv' kvs].
    + cbn [map]. rewrite !occurrences_app, Hkv, (QueryEscape_component _ c Hc).
      destruct Hc as [<-|[<-|[<-|[<-|[<-|[<-|[]]]]]]]; reflexivity.
    + remember (kv' :: kvs) as tl eqn:Htl.
      replace (match map (fun kv0 => (fst kv0 ++ "=" ++ QueryEscape (snd kv0))%string) tl with
               | [] => (fst kv ++ "=" ++ QueryEscape (snd kv))%string
               | _ :: _ =>
                 ((fst kv ++ "=" ++ QueryEscape (snd kv)) ++ "&"
                  ++ String.concat "&"
                       (map (fun kv0 => (fst kv0 ++ "=" ++ QueryEscape (snd kv0))%string) tl))%string
               end)
        with ((fst kv ++ "=" ++ QueryEscape (snd kv)) ++ "&"
              ++ String.concat "&"
                   (map (fun kv0 => (fst kv0 ++ "=" ++ QueryEscape (snd kv0))%string) tl))%string
        by (subst tl; reflexivity).
      rewrite !occurrences_app, Hkv, (QueryEscape_component _ c Hc), IH.
      subst tl. cbn [List.length pred].
      destruct Hc as [<-|[<-|[<-|[<-|[<-|[<-|[]]]]]]]; simpl; lia.
Qed.

(** The query of [ListVectorIDs] lists the parameters that are set in the
    order of their names. *)
Lemma ListVectorIDs_query_encoded (req : ListVectorIDsRequest) :
  Encode (ListVectorIDs_query req)
  = String.concat "&"
      (map (fun kv => (fst kv ++ "=" ++ QueryEscape (snd kv))%string) (parameters req)).
Proof.
  destruct req as [ns pr lim tok].
  unfold ListVectorIDs_query, parameters. cbn [ListVectorIDsRequest_Namespace
    ListVectorIDsRequest_Prefix ListVectorIDsRequest_Limit ListVectorIDsRequest_PaginationToken].
  destruct ns, pr, tok, (lim >? 0)%Z; reflexivity.
Qed.

Lemma parameters_names (req : ListVectorIDsRequest) (c : ascii) :
  In c ["&"; "="; "?"; "#"; " "; "/"]%char ->
  Forall (fun kv => occurrences c (fst kv) = 0) (parameters req).
Proof.
  intros Hc. unfold parameters.
  repeat (apply Forall_app; split);
    match goal with
    | |- Forall _ (if ?b then _ else _) => destruct b
    end;
    repeat constructor;
    destruct Hc as [<-|[<-|[<-|[<-|[<-|[<-|[]]]]]]]; reflexivity.
Qed.

End PineconeFacts.

(** X6. [CreateIndex] sends nothing for a request without a name or with
    a dimension that is not positive: it returns the error of [Validate],
    the one about the name first.  A request it does send is the only
    one, a POST to [baseURL/indexes] with the [Api-Key] and
    [Content-Type] headers and the encoded struct as its body. *)
Theorem X6_CreateIndex_validates_before_sending :
  forall (T : Type) (E : Pinecone.Env T) (c : Pinecone.ControlClient)
         (req : Pinecone.CreateIndexRequest),
    (Pinecone.CreateIndexRequest_Name req = EmptyString ->
     Pinecone.CreateIndex E c req = ([], Failed (errorString "name is required")))
    /\
    (Pinecone.CreateIndexRequest_Name req <> EmptyString ->
     (Pinecone.CreateIndexRequest_Dimension req <= 0)%Z ->
     Pinecone.CreateIndex E c req
     = ([], Failed (errorString "dimension must be greater than 0")))
    /\
    (forall q,
        In q (fst (Pinecone.CreateIndex E c req)) ->
        Pinecone.CreateIndexRequest_Name req <> EmptyString
        /\ (0 < Pinecone.CreateIndexRequest_Dimension req)%Z
        /\ fst (Pinecone.CreateIndex E c req) = [q]
        /\ exists body,
            Pinecone.Encode_CreateIndexRequest E req = Ok body
            /\ q = mkRequest "POST" (Pinecone.control_baseURL c ++ "/indexes")
                     [("Api-Key", Pinecone.control_token c);
                      ("Content-Type", "application/json")] body).
Proof.
  intros T E c req. unfold Pinecone.CreateIndex, Pinecone.CreateIndexRequest_Validate.
  split; [|split].
  - intros ->. reflexivity.
  - intros Hn Hd.
    destruct (Pinecone.CreateIndexRequest_Name req =? EmptyString)%string eqn:Hname.
    + apply String.eqb_eq in Hname. contradiction.
    + apply Z.leb_le in Hd. rewrite Hd. reflexivity.
  - intros q.
    destruct (Pinecone.CreateIndexRequest_Name req =? EmptyString)%string eqn:Hname;
      [intros []|].
    destruct (Pinecone.CreateIndexRequest_Dimension req <=? 0)%Z eqn:Hdim; [intros []|].
    rewrite decoded_sent. unfold Pinecone.ControlClient_request.
    destruct (request_sent T E (Pinecone.control_baseURL c) (Pinecone.control_token c)
                "POST" "/indexes" (Some (Pinecone.Encode_CreateIndexRequest E req)))
      as [Hnone|(buf & Hbuf & _ & Hsent & _)].
    + rewrite Hnone. intros [].
    + rewrite Hsent. intros [<-|[]].
      apply String.eqb_neq in Hname. apply Z.leb_gt in Hdim.
      repeat split; try assumption.
      exists buf. destruct Hbuf as [[Hb _]|Hb]; [discriminate|].
      inversion Hb as [Henc]. split; [exact Henc | reflexivity].
Qed.

Lemma X6_CreateIndex_validates_before_sending_witness :
  let E := SamplePinecone.env (mkResponse Pinecone.StatusCreated (mkReader [] io_EOF)) in
  let spec := Pinecone.mkSpec None (Some (Pinecone.mkServerless "aws" "us-east-1")) in
  Pinecone.CreateIndex E SamplePinecone.control (Pinecone.mkCreateIndexRequest EmptyString 8 spec "cosine")
  = ([], Failed (errorString "name is required"))
  /\ Pinecone.CreateIndex E SamplePinecone.control (Pinecone.mkCreateIndexRequest "docs" 0 spec "cosine")
     = ([], Failed (errorString "dimension must be greater than 0"))
  /\ (0 < Pinecone.CreateIndexRequest_Dimension (Pinecone.mkCreateIndexRequest "docs" 8 spec "cosine"))%Z.
Proof.
  intros E spec. split; [|split].
  - apply (proj1 (X6_CreateIndex_validates_before_sending unit E SamplePinecone.control
                    (Pinecone.mkCreateIndexRequest EmptyString 8 spec "cosine"))).
    reflexivity.
  - apply (proj1 (proj2 (X6_CreateIndex_validates_before_sending unit E SamplePinecone.control
                           (Pinecone.mkCreateIndexRequest "docs" 0 spec "cosine"))));
      [discriminate | vm_compute; discriminate].
  - apply (proj2 (proj2 (X6_CreateIndex_validates_before_sending unit E SamplePinecone.control
                           (Pinecone.mkCreateIndexRequest "docs" 8 spec "cosine")))
             (mkRequest "POST" "https://api.pinecone.io/indexes"
                [("Api-Key", "token"); ("Content-Type", "application/json")]
                (Sample.J "{'name':'docs'}" ++ [x0a]))).
    vm_compute. left. reflexivity.
Defined.

(** X7. [QueryVectors] sends nothing for a request whose [TopK] is not
    positive and returns the error of [Validate]; a request it does send
    is the only one, a POST to [baseURL/query] with the encoded struct as
    its body. *)
Theorem X7_QueryVectors_validates_before_sending :
  forall (T : Type) (E : Pinecone.Env T) (c : Pinecone.DataClient)
         (req : Pinecone.QueryVectorsRequest T),
    ((Pinecone.QueryVectorsRequest_TopK req <= 0)%Z ->
     Pinecone.QueryVectors E c req
     = ([], Failed (errorString "top k must be greater than 0")))
    /\
    (forall q,
        In q (fst (Pinecone.QueryVectors E c req)) ->
        (0 < Pinecone.QueryVectorsRequest_TopK req)%Z
        /\ fst (Pinecone.QueryVectors E c req) = [q]
        /\ exists body,
            Pinecone.Encode_QueryVectorsRequest E req = Ok body
            /\ q = mkRequest "POST" (Pinecone.data_baseURL c ++ "/query")
                     [("Api-Key", Pinecone.data_token c);
                      ("Content-Type", "application/json")] body).
Proof.
  intros T E c req. unfold Pinecone.QueryVectors, Pinecone.QueryVectorsRequest_Validate.
  split.
  - intros Hd. apply Z.leb_le in Hd. rewrite Hd. reflexivity.
  - intros q.
    destruct (Pinecone.QueryVectorsRequest_TopK req <=? 0)%Z eqn:Hk; [intros []|].
    rewrite decoded_sent. unfold Pinecone.DataClient_request.
    destruct (request_sent T E (Pinecone.data_baseURL c) (Pinecone.data_token c)
                "POST" "/query" (Some (Pinecone.Encode_QueryVectorsRequest E req)))
      as [Hnone|(buf & Hbuf & _ & Hsent & _)].
    + rewrite Hnone. intros [].
    + rewrite Hsent. intros [<-|[]].
      apply Z.leb_gt in Hk. repeat split; try assumption.
      exists buf. destruct Hbuf as [[Hb _]|Hb]; [discriminate|].
      inversion Hb as [Henc]. split; [exact Henc | reflexivity].
Qed.

Lemma X7_QueryVectors_validates_before_sending_witness :
  let E := SamplePinecone.env (mkResponse StatusOK (mkReader [] io_EOF)) in
  Pinecone.QueryVectors E SamplePinecone.data
    (Pinecone.mkQueryVectorsRequest [] 0 "vec-1" EmptyString tt false false None)
  = ([], Failed (errorString "top k must be greater than 0"))
  /\ (0 < Pinecone.QueryVectorsRequest_TopK
            (Pinecone.mkQueryVectorsRequest [] 5 "vec-1" EmptyString tt false false None))%Z.
Proof.
  intros E. split.
  - apply (proj1 (X7_QueryVectors_validates_before_sending unit E SamplePinecone.data
                    (Pinecone.mkQueryVectorsRequest [] 0 "vec-1" EmptyString tt false false None))).
    vm_compute. discriminate.
  - apply (proj2 (X7_QueryVectors_validates_before_sending unit E SamplePinecone.data
                    (Pinecone.mkQueryVectorsRequest [] 5 "vec-1" EmptyString tt false false None))
             (mkRequest "POST" "https://index-1.svc.pinecone.io/query"
                [("Api-Key", "token"); ("Content-Type", "application/json")]
                (Sample.J "{'topK':5}" ++ [x0a]))).
    vm_compute. left. reflexivity.
Defined.

(** X8. The request of [ListVectorIDs] is a GET with no body and no
    [Content-Type], to [baseURL/vectors/list?] followed by the parameters
    that are set, as [name=escaped value] joined by [&], in the order of
    their names (limit, namespace, paginationToken, prefix) whatever the
    order the code sets them in; an empty string and a limit that is not
    positive leave the parameter out.  Nothing is sent only when the URL
    is refused. *)
Theorem X8_ListVectorIDs_query_in_name_order :
  forall (T : Type) (E : Pinecone.Env T) (c : Pinecone.DataClient)
         (req : Pinecone.ListVectorIDsRequest),
    let url :=
      (Pinecone.data_baseURL c ++ "/vectors/list?"
       ++ String.concat "&"
            (map (fun kv => fst kv ++ "=" ++ URL.QueryEscape (snd kv))
                 (Text.parameters req)))%string in
    match Pinecone.checkRequest E "GET" url with
    | Some e => Pinecone.ListVectorIDs E c req = ([], Failed e)
    | None =>
      fst (Pinecone.ListVectorIDs E c req)
      = [mkRequest "GET" url [("Api-Key", Pinecone.data_token c)] []]
    end.
Proof.
  intros T E c req url.
  unfold Pinecone.ListVectorIDs. cbv zeta.
  rewrite (ListVectorIDs_query_encoded req).
  unfold Pinecone.DataClient_request, Pinecone.request, Pinecone.NewRequestWithContext.
  cbv zeta. fold url.
  destruct (Pinecone.checkRequest E "GET" url); [reflexivity|].
  rewrite decoded_sent. reflexivity.
Qed.

(** X9. The values of a [ListVectorIDs] request cannot add a parameter to
    the query or end it: the encoded query has one [=] per parameter that
    is set and one [&] between two of them, and no [?], [#], [/] or space,
    whatever bytes the namespace, prefix and pagination token hold. *)
Theorem X9_ListVectorIDs_values_stay_values :
  forall (req : Pinecone.ListVectorIDsRequest),
    let query := URL.Encode (Pinecone.ListVectorIDs_query req) in
    let n := List.length (Text.parameters req) in
    Text.occurrences "=" query = n
    /\ Text.occurrences "&" query = pred n
    /\ Text.occurrences "?" query = 0
    /\ Text.occurrences "#" query = 0
    /\ Text.occurrences "/" query = 0
    /\ Text.occurrences " " query = 0
    /\ n <= 4.
Proof.
  intros req query n. unfold query. rewrite (ListVectorIDs_query_encoded req).
  repeat split;
    try (rewrite occurrences_pairs;
         [simpl; fold n; lia | simpl; tauto | apply parameters_names; simpl; tauto]).
  unfold n, Text.parameters.
  repeat match goal with
         | |- context [if ?b then _ else _] => destruct b
         end; simpl; lia.
Qed.

Section PineconePaths.

Import URL Text Pinecone.

Variable map_string_any : Type.
Variable E : Env map_string_any.

Lemma request_oneSegment (baseURL token method dir name : string)
      (body : option (result bytes)) :
  Forall (Text.oneSegment (baseURL ++ dir))
    (fst (request E baseURL token method (dir ++ PathEscape name) body)).
Proof.
  destruct (request_sent map_string_any E baseURL token method
              (dir ++ PathEscape name)%string body)
    as [->|(buf & _ & _ & -> & _)]; constructor; [|constructor].
  exists (PathEscape name). split.
  - cbn [URL]. symmetry. apply append_assoc_.
  - repeat constructor; apply PathEscape_segment; simpl; tauto.
Qed.

Lemma request_same_name (baseURL token method dir n1 n2 : string)
      (b1 b2 : option (result bytes)) (q : Request) :
  In q (fst (request E baseURL token method (dir ++ PathEscape n1) b1)) ->
  In q (fst (request E baseURL token method (dir ++ PathEscape n2) b2)) ->
  n1 = n2.
Proof.
  destruct (request_sent map_string_any E baseURL token method
              (dir ++ PathEscape n1)%string b1)
    as [->|(buf1 & _ & _ & -> & _)]; [intros []|].
  destruct (request_sent map_string_any E baseURL token method
              (dir ++ PathEscape n2)%string b2)
    as [->|(buf2 & _ & _ & -> & _)]; [intros _ []|].
  intros [<-|[]] [H|[]]. inversion H as [[Hurl Hhdr Hbody]].
  apply append_injective in Hurl. apply append_injective in Hurl.
  symmetry. exact (escape_injective _ _ _ Hurl).
Qed.

End PineconePaths.

(** X10. The name given to [DescribeIndex], [DeleteIndex],
    [ConfigureIndex], [DescribeCollection] or [DeleteCollection] is
    always one segment of the URL: every request they send goes to
    [baseURL/indexes/] or [baseURL/collections/] followed by a text with
    no [/], [?], [#] or space, whatever bytes the name holds. *)
Theorem X10_names_are_one_path_segment :
  forall (T : Type) (E : Pinecone.Env T) (c : Pinecone.ControlClient)
         (name : string) (req : Pinecone.ConfigureIndexRequest),
    Forall (Text.oneSegment (Pinecone.control_baseURL c ++ "/indexes/"))
      (fst (Pinecone.DescribeIndex E c name))
    /\ Forall (Text.oneSegment (Pinecone.control_baseURL c ++ "/indexes/"))
         (fst (Pinecone.DeleteIndex E c name))
    /\ Forall (Text.oneSegment (Pinecone.control_baseURL c ++ "/indexes/"))
         (fst (Pinecone.ConfigureIndex E c req))
    /\ Forall (Text.oneSegment (Pinecone.control_baseURL c ++ "/collections/"))
         (fst (Pinecone.DescribeCollection E c name))
    /\ Forall (Text.oneSegment (Pinecone.control_baseURL c ++ "/collections/"))
         (fst (Pinecone.DeleteCollection E c name)).
Proof.
  intros T E c name req.
  unfold Pinecone.DescribeIndex, Pinecone.DeleteIndex, Pinecone.ConfigureIndex,
    Pinecone.DescribeCollection, Pinecone.DeleteCollection, Pinecone.ControlClient_request.
  rewrite !decoded_sent, !accepted_sent.
  repeat split; apply request_oneSegment.
Qed.

(** X11. Escaping loses nothing: two calls of [DescribeIndex],
    [DeleteIndex], [DescribeCollection] or [DeleteCollection] that send
    the same request were given the same name, so two different names
    never address the same URL. *)
Theorem X11_different_names_different_requests :
  forall (T : Type) (E : Pinecone.Env T) (c : Pinecone.ControlClient)
         (n1 n2 : string) (q : Request),
    (In q (fst (Pinecone.DescribeIndex E c n1)) ->
     In q (fst (Pinecone.DescribeIndex E c n2)) -> n1 = n2)
    /\ (In q (fst (Pinecone.DeleteIndex E c n1)) ->
        In q (fst (Pinecone.DeleteIndex E c n2)) -> n1 = n2)
    /\ (In q (fst (Pinecone.DescribeCollection E c n1)) ->
        In q (fst (Pinecone.DescribeCollection E c n2)) -> n1 = n2)
    /\ (In q (fst (Pinecone.DeleteCollection E c n1)) ->
        In q (fst (Pinecone.DeleteCollection E c n2)) -> n1 = n2).
Proof.
  intros T E c n1 n2 q.
  unfold Pinecone.DescribeIndex, Pinecone.DeleteIndex,
    Pinecone.DescribeCollection, Pinecone.DeleteCollection, Pinecone.ControlClient_request.
  rewrite !decoded_sent, !accepted_sent.
  repeat split; apply request_same_name.
Qed.

Lemma X11_different_names_different_requests_witness :
  let E := SamplePinecone.env (mkResponse StatusOK (mkReader [] io_EOF)) in
  let name := "logs/2024 #1" in
  (name = name) /\ (name = name) /\ (name = name) /\ (name = name).
Proof.
  intros E name.
  pose proof (X11_different_names_different_requests unit E SamplePinecone.control name name)
    as H.
  split; [|split; [|split]].
  - apply (proj1 (H (mkRequest "GET" "https://api.pinecone.io/indexes/logs%2F2024%20%231"
                       [("Api-Key", "token")] [])));
      vm_compute; left; reflexivity.
  - apply (proj1 (proj2 (H (mkRequest "DELETE"
                              "https://api.pinecone.io/indexes/logs%2F2024%20%231"
                              [("Api-Key", "token")] []))));
      vm_compute; left; reflexivity.
  - apply (proj1 (proj2 (proj2 (H (mkRequest "GET"
                                     "https://api.pinecone.io/collections/logs%2F2024%20%231"
                                     [("Api-Key", "token")] [])))));
      vm_compute; left; reflexivity.
  - apply (proj2 (proj2 (proj2 (H (mkRequest "DELETE"
                                     "https://api.pinecone.io/collections/logs%2F2024%20%231"
                                     [("Api-Key", "token")] [])))));
      vm_compute; left; reflexivity.
Defined.

(** X12. [DeleteIndex] and [DeleteCollection] return [nil] exactly when
    the request went out and the server answered with status 202: any
    other status, 200 included, is returned as an error. *)
Theorem X12_delete_succeeds_on_202_only :
  forall (T : Type) (E : Pinecone.Env T) (c : Pinecone.ControlClient) (name : string),
    (snd (Pinecone.DeleteIndex E c name) = None
     <-> exists q resp,
          fst (Pinecone.DeleteIndex E c name) = [q]
          /\ Pinecone.Do E q = Ok resp /\ StatusCode resp = 202%Z)
    /\
    (snd (Pinecone.DeleteCollection E c name) = None
     <-> exists q resp,
          fst (Pinecone.DeleteCollection E c name) = [q]
          /\ Pinecone.Do E q = Ok resp /\ StatusCode resp = 202%Z).
Proof.
  intros T E c name.
  assert (Hgen : forall path,
             snd (Pinecone.accepted E Pinecone.StatusAccepted
                    (Pinecone.ControlClient_request E c "DELETE" path None)) = None
             <-> exists q resp,
                 fst (Pinecone.accepted E Pinecone.StatusAccepted
                        (Pinecone.ControlClient_request E c "DELETE" path None)) = [q]
                 /\ Pinecone.Do E q = Ok resp /\ StatusCode resp = 202%Z).
  { intros path. rewrite accepted_sent. unfold Pinecone.ControlClient_request.
    destruct (request_sent T E (Pinecone.control_baseURL c) (Pinecone.control_token c)
                "DELETE" path None) as [Hnone|(buf & _ & Hcheck & Hsent & Hres)].
    - rewrite Hnone. split.
      + unfold Pinecone.request, Pinecone.NewRequestWithContext in *. cbv zeta in *.
        destruct (Pinecone.checkRequest E "DELETE" _); [discriminate|].
        discriminate Hnone.
      + intros (q & resp & Hq & _). discriminate Hq.
    - rewrite Hsent.
      destruct (Pinecone.request E (Pinecone.control_baseURL c) (Pinecone.control_token c)
                  "DELETE" path None) as [sent r] eqn:Hreq.
      cbn [fst snd] in Hsent, Hres. subst sent r. unfold Pinecone.accepted.
      destruct (Pinecone.Do E _) as [resp|e] eqn:HDo.
      + destruct (StatusCode resp =? Pinecone.StatusAccepted)%Z eqn:Hst; cbn [negb snd].
        * split; [|reflexivity]. intros _. eexists. exists resp.
          split; [reflexivity|]. split; [exact HDo|].
          apply Z.eqb_eq in Hst. exact Hst.
        * split; [discriminate|]. intros (q & resp' & Hq & HDo' & Hst').
          inversion Hq; subst q. rewrite HDo in HDo'. inversion HDo'; subst resp'.
          apply Z.eqb_neq in Hst. contradiction.
      + cbn [snd]. split; [discriminate|]. intros (q & resp' & Hq & HDo' & _).
        inversion Hq; subst q. rewrite HDo in HDo'. discriminate. }
  split; apply Hgen.
Qed.

Lemma X12_delete_succeeds_on_202_only_witness :
  let gone := SamplePinecone.env (mkResponse 202 (mkReader [] io_EOF)) in
  snd (Pinecone.DeleteIndex gone SamplePinecone.control "docs") = None
  /\ snd (Pinecone.DeleteCollection gone SamplePinecone.control "docs") = None.
Proof.
  intros gone.
  pose proof (X12_delete_succeeds_on_202_only unit gone SamplePinecone.control "docs")
    as [Hi Hc].
  split.
  - apply (proj2 Hi).
    exists (mkRequest "DELETE" "https://api.pinecone.io/indexes/docs" [("Api-Key", "token")] []).
    exists (mkResponse 202 (mkReader [] io_EOF)).
    split; [|split]; vm_compute; reflexivity.
  - apply (proj2 Hc).
    exists (mkRequest "DELETE" "https://api.pinecone.io/collections/docs"
              [("Api-Key", "token")] []).
    exists (mkResponse 202 (mkReader [] io_EOF)).
    split; [|split]; vm_compute; reflexivity.
Defined.

(* ================================================================= *)
(** * The event kinds of the anthropic stream *)

Lemma not_snoc {A : Type} (l : list A) (a : A) : l <> l ++ [a].
Proof.
  intros H. apply (f_equal (@List.length A)) in H.
  rewrite length_app in H. simpl in H. lia.
Qed.

(** X13. The [switch] of the anthropic loop and the [EventType] methods
    agree: whenever the loop hands the handler an event for a record, the
    [EventType] of that event is the discriminator read from the record. *)
Theorem X13_event_type_is_the_discriminator :
  forall (E : Anthropic.Env) (line : bytes) (t : string)
         (s s' : Sink Anthropic.Event) (c : Ctl unit) (ev : Anthropic.Event),
    AnthropicWire.record E line t ->
    Anthropic.ChatStream_body E line s = (s', c) ->
    calls s' = calls s ++ [ev] ->
    Anthropic.EventType ev = t.
Proof.
  intros E line t s s' c ev (Hl & Hf & Ht) H Hev.
  unfold Anthropic.ChatStream_body in H. cbv zeta in H.
  unfold AnthropicWire.framing in Hf. rewrite Hf in H.
  unfold AnthropicWire.payload in Ht.
  unfold bind, try, ret, return_, callback, logPrint in H. rewrite Ht in H.
  repeat match type of H with
         | context [if (t =? ?k)%string then _ else _] =>
           let Hk := fresh "Hk" in
           destruct (t =? k)%string eqn:Hk;
           [apply String.eqb_eq in Hk|]
         end;
    repeat match type of H with
           | context [match ?x with Ok _ => _ | Failed _ => _ end] => destruct x
           end;
    inversion H; subst; cbn [calls] in Hev;
    try (exfalso; exact (not_snoc _ _ Hev));
    apply app_inv_head in Hev; inversion Hev; reflexivity.
Qed.

Lemma X13_event_type_is_the_discriminator_witness :
  let E := Sample.A.env (mkResponse StatusOK (mkReader [] io_EOF)) in
  Anthropic.EventType Sample.A.ev_delta = "content_block_delta".
Proof.
  intros E.
  apply (X13_event_type_is_the_discriminator E Sample.A.line_delta "content_block_delta"
           start (mkSink [Sample.A.ev_delta] []) (Next tt) Sample.A.ev_delta).
  - sample_record.
  - vm_compute. reflexivity.
  - reflexivity.
Defined.

(* ================================================================= *)
(** * Properties of the form requests *)

Section FormFacts.

Import OpenAI OpenAIForms FormText.

Variable E : Env.

Lemma WriteField_parts (w : Writer) (fieldname value : string) :
  broken w = None ->
  WriteField w fieldname value = mkWriter (parts w ++ [FormField fieldname value]) None.
Proof. intros H. unfold WriteField. rewrite H. reflexivity. Qed.

Lemma whenSet_parts (value : string) (w : Writer) (fieldname : string) :
  broken w = None ->
  whenSet value w fieldname = mkWriter (parts w ++ optional fieldname value) None.
Proof.
  intros H. unfold whenSet, optional.
  destruct (value =? EmptyString)%string; cbn [negb].
  - rewrite app_nil_r. destruct w as [ps b]. simpl in H. subst b. reflexivity.
  - apply WriteField_parts. exact H.
Qed.

Lemma granularities_parts (gs : list string) :
  forall (w : Writer),
    broken w = None ->
    fold_left (fun w g => WriteField w "timestamp_granularities[]" g) gs w
    = mkWriter (parts w ++ map (FormField "timestamp_granularities[]") gs) None.
Proof.
  induction gs as [|g gs IH]; intros w H; cbn [fold_left map].
  - rewrite app_nil_r. destruct w as [ps b]. simpl in H. subst b. reflexivity.
  - rewrite (WriteField_parts w _ g H), IH by reflexivity.
    cbn [parts]. rewrite <- app_assoc. reflexivity.
Qed.

Lemma CreateFormFile_parts (w w' : Writer) (fieldname filename : string) :
  CreateFormFile w fieldname filename = Ok w' ->
  broken w = None /\ w' = mkWriter (parts w ++ [FormFile fieldname filename []]) None.
Proof.
  unfold CreateFormFile. destruct (broken w); [discriminate|].
  intros H. inversion H. split; reflexivity.
Qed.

Lemma Copy_parts (ps : list Part) (fieldname filename : string) (file : Reader) :
  Copy (mkWriter (ps ++ [FormFile fieldname filename []]) None) file
  = (mkWriter (ps ++ [FormFile fieldname filename (pending file)]) None,
     if is_EOF (final file) then None else Some (final file)).
Proof.
  unfold Copy. cbn [parts broken]. rewrite rev_app_distr. cbn [rev app].
  rewrite rev_involutive. reflexivity.
Qed.

Lemma closeFile_only (path : string) : closeFile path [path] = [].
Proof. simpl. rewrite String.eqb_refl. reflexivity. Qed.

Lemma decodedForm_files {A : Type} (decode : Reader -> result A) (r : Call Response) :
  files (decodedForm E decode r) = files r /\ sent (decodedForm E decode r) = sent r.
Proof.
  unfold decodedForm. destruct (returned r) as [resp|e]; [|split; reflexivity].
  destruct (negb _); [split; reflexivity|].
  destruct (decode (Body resp)); split; reflexivity.
Qed.

Lemma request_files (c : Client) (url : string) (req : MultipartFormDataRequest) :
  files (requestMultipartFormData E c url req) = leftOpen (AddFields E req NewWriter).
Proof.
  unfold requestMultipartFormData. cbv zeta.
  destruct (failure (AddFields E req NewWriter)); [reflexivity|].
  destruct (Close _); [reflexivity|].
  destruct (checkRequest E "POST" url); reflexivity.
Qed.

Lemma Transcription_leftOpen (req : CreateTranscriptionRequest) (w : Writer) :
  leftOpen (Transcription_AddFields E req w) = [].
Proof.
  unfold Transcription_AddFields.
  destruct (os_Open E (Transcription_File req)); [|reflexivity].
  unfold deferClose. cbn [leftOpen]. apply closeFile_only.
Qed.

Lemma Translation_leftOpen (req : CreateTranslationRequest) (w : Writer) :
  leftOpen (Translation_AddFields E req w) = [].
Proof.
  unfold Translation_AddFields.
  destruct (os_Open E (Translation_File req)); [|reflexivity].
  unfold deferClose. cbn [leftOpen]. apply closeFile_only.
Qed.

Lemma EditImage_leftOpen (req : EditImageRequest) (w : Writer) (image : Reader) :
  os_Open E (EditImage_Image req) = Ok image ->
  In (EditImage_Image req) (leftOpen (EditImage_AddFields E req w))
  /\ forall mask,
      failure (EditImage_AddFields E req w) = None ->
      EditImage_Mask req <> EmptyString ->
      os_Open E (EditImage_Mask req) = Ok mask ->
      leftOpen (EditImage_AddFields E req w) = [EditImage_Image req; EditImage_Mask req].
Proof.
  intros Hopen. unfold EditImage_AddFields. rewrite Hopen. cbv zeta.
  destruct (CreateFormFile w "image" _) as [w1|e1];
    [|split; [left; reflexivity | intros ? H; discriminate H]].
  destruct (Copy w1 image) as [w2 [e2|]];
    [split; [left; reflexivity | intros ? H; discriminate H]|].
  destruct (negb (EditImage_Mask req =? EmptyString)%string) eqn:Hmask.
  - destruct (os_Open E (EditImage_Mask req)) as [mask|e3];
      [|split; [left; reflexivity | intros ? H; discriminate H]].
    destruct (CreateFormFile w2 "mask" _) as [w3|e4];
      [|split; [left; reflexivity | intros ? H; discriminate H]].
    destruct (Copy w3 mask) as [w4 [e5|]];
      [split; [left; reflexivity | intros ? H; discriminate H]|].
    cbn [failure leftOpen written]. split; [left; reflexivity|].
    intros mask' _ _ _. reflexivity.
  - cbn [failure leftOpen written]. split; [left; reflexivity|].
    intros mask _ Hne _. exfalso. apply Hne.
    apply negb_false_iff in Hmask. apply String.eqb_eq in Hmask. exact Hmask.
Qed.

End FormFacts.

(** X14. When the file of a form request cannot be opened, nothing is
    sent: [CreateTranscription], [CreateTranslation] and [EditImage]
    return the error of [os.Open] behind the three prefixes that the
    layers add ([failed to perform request: ], [failed to add fields to
    form data: ], [failed to open file: ]), with no file left open. *)
Theorem X14_unreadable_file_sends_nothing :
  forall (E : OpenAIForms.Env) (c : OpenAI.Client) (e : error),
    let message :=
      errorString ("failed to perform request: failed to add fields to form data: "
                   ++ "failed to open file: " ++ Error e)%string in
    (forall req,
        OpenAIForms.os_Open E (OpenAIForms.Transcription_File req) = Failed e ->
        OpenAIForms.CreateTranscription E c req = OpenAIForms.mkCall [] [] (Failed message))
    /\ (forall req,
           OpenAIForms.os_Open E (OpenAIForms.Translation_File req) = Failed e ->
           OpenAIForms.CreateTranslation E c req = OpenAIForms.mkCall [] [] (Failed message))
    /\ (forall req,
           OpenAIForms.os_Open E (OpenAIForms.EditImage_Image req) = Failed e ->
           OpenAIForms.EditImage E c req = OpenAIForms.mkCall [] [] (Failed message)).
Proof.
  intros E c e message. repeat split; intros req H.
  - unfold OpenAIForms.CreateTranscription, OpenAIForms.requestMultipartFormData,
      OpenAIForms.AddFields, OpenAIForms.Transcription_AddFields. cbv zeta.
    rewrite H. reflexivity.
  - unfold OpenAIForms.CreateTranslation, OpenAIForms.requestMultipartFormData,
      OpenAIForms.AddFields, OpenAIForms.Translation_AddFields. cbv zeta.
    rewrite H. reflexivity.
  - unfold OpenAIForms.EditImage, OpenAIForms.requestMultipartFormData,
      OpenAIForms.AddFields, OpenAIForms.EditImage_AddFields. cbv zeta.
    rewrite H. reflexivity.
Qed.

Lemma X14_unreadable_file_sends_nothing_witness :
  let E := SampleForms.env (mkResponse StatusOK (mkReader [] io_EOF)) in
  let e := libError "os" "open /tmp/none.wav: no such file or directory" in
  let message :=
    errorString ("failed to perform request: failed to add fields to form data: "
                 ++ "failed to open file: " ++ Error e)%string in
  OpenAIForms.CreateTranscription E Sample.O.client
    (OpenAIForms.mkCreateTranscriptionRequest "/tmp/none.wav" "whisper-1" EmptyString
       EmptyString EmptyString 0 [])
  = OpenAIForms.mkCall [] [] (Failed message)
  /\ OpenAIForms.CreateTranslation E Sample.O.client
       (OpenAIForms.mkCreateTranslationRequest "/tmp/none.wav" "whisper-1" EmptyString
          EmptyString 0)
     = OpenAIForms.mkCall [] [] (Failed message)
  /\ OpenAIForms.EditImage E Sample.O.client
       (OpenAIForms.mkEditImageRequest "/tmp/none.wav" "a hat" EmptyString EmptyString 0
          EmptyString EmptyString EmptyString)
     = OpenAIForms.mkCall [] [] (Failed message).
Proof.
  intros E e message.
  pose proof (X14_unreadable_file_sends_nothing E Sample.O.client e) as (H1 & H2 & H3).
  split; [|split].
  - apply H1. reflexivity.
  - apply H2. reflexivity.
  - apply H3. reflexivity.
Defined.

(** X15. [CreateTranscription] and [CreateTranslation] leave no file open,
    however they end: [AddFields] closes the file it opened on every
    return.  [EditImage] leaves the image open whenever it could open it,
    and the mask too when it was given one and got through: its
    [AddFields] has no [Close]. *)
Theorem X15_files_left_open :
  forall (E : OpenAIForms.Env) (c : OpenAI.Client),
    (forall req, OpenAIForms.files (OpenAIForms.CreateTranscription E c req) = [])
    /\ (forall req, OpenAIForms.files (OpenAIForms.CreateTranslation E c req) = [])
    /\ (forall req image,
           OpenAIForms.os_Open E (OpenAIForms.EditImage_Image req) = Ok image ->
           In (OpenAIForms.EditImage_Image req)
              (OpenAIForms.files (OpenAIForms.EditImage E c req)))
    /\ (forall req image mask q,
           OpenAIForms.os_Open E (OpenAIForms.EditImage_Image req) = Ok image ->
           OpenAIForms.EditImage_Mask req <> EmptyString ->
           OpenAIForms.os_Open E (OpenAIForms.EditImage_Mask req) = Ok mask ->
           In q (OpenAIForms.sent (OpenAIForms.EditImage E c req)) ->
           OpenAIForms.files (OpenAIForms.EditImage E c req)
           = [OpenAIForms.EditImage_Image req; OpenAIForms.EditImage_Mask req]).
Proof.
  intros E c. split; [|split; [|split]].
  - intros req. unfold OpenAIForms.CreateTranscription. cbv zeta.
    rewrite (proj1 (decodedForm_files E _ _)), request_files.
    apply Transcription_leftOpen.
  - intros req. unfold OpenAIForms.CreateTranslation. cbv zeta.
    rewrite (proj1 (decodedForm_files E _ _)), request_files.
    apply Translation_leftOpen.
  - intros req image Hopen. unfold OpenAIForms.EditImage. cbv zeta.
    rewrite (proj1 (decodedForm_files E _ _)), request_files.
    exact (proj1 (EditImage_leftOpen E req OpenAIForms.NewWriter image Hopen)).
  - intros req image mask q Hopen Hne Hmask Hq. unfold OpenAIForms.EditImage in *.
    cbv zeta in *.
    rewrite (proj1 (decodedForm_files E _ _)), request_files.
    rewrite (proj2 (decodedForm_files E _ _)) in Hq.
    apply (proj2 (EditImage_leftOpen E req OpenAIForms.NewWriter image Hopen) mask);
      try assumption.
    unfold OpenAIForms.requestMultipartFormData in Hq. cbv zeta in Hq.
    cbn [OpenAIForms.AddFields] in Hq.
    destruct (OpenAIForms.failure (OpenAIForms.EditImage_AddFields E req OpenAIForms.NewWriter));
      [destruct Hq | reflexivity].
Qed.

Lemma X15_files_left_open_witness :
  let E := SampleForms.env (mkResponse StatusOK (mkReader [] io_EOF)) in
  let req :=
    OpenAIForms.mkEditImageRequest "/tmp/img/cat.png" "a hat" "/tmp/img/cat.png" EmptyString 0
      EmptyString EmptyString EmptyString in
  In "/tmp/img/cat.png" (OpenAIForms.files (OpenAIForms.EditImage E Sample.O.client req))
  /\ OpenAIForms.files (OpenAIForms.EditImage E Sample.O.client req)
     = ["/tmp/img/cat.png"; "/tmp/img/cat.png"].
Proof.
  intros E req.
  pose proof (X15_files_left_open E Sample.O.client) as (_ & _ & Himage & Hmask).
  split.
  - apply (Himage req (mkReader (B "PNG-image-bytes") io_EOF)). reflexivity.
  - apply (Hmask req (mkReader (B "PNG-image-bytes") io_EOF)
             (mkReader (B "PNG-image-bytes") io_EOF)
             (mkRequest "POST" "https://api.openai.com/v1/images/edits"
                [("Content-Type", "multipart/form-data; boundary=7d4a1f");
                 ("Authorization", "Bearer token")]
                (SampleForms.renderParts "7d4a1f"
                   [OpenAIForms.FormFile "image" "cat.png" (B "PNG-image-bytes");
                    OpenAIForms.FormFile "mask" "cat.png" (B "PNG-image-bytes");
                    OpenAIForms.FormField "prompt" "a hat"]))).
    + reflexivity.
    + discriminate.
    + reflexivity.
    + vm_compute. left. reflexivity.
Defined.

Section FormContents.

Import OpenAI OpenAIForms FormText.

Lemma occurrences_none (c : ascii) (l : list ascii) :
  Forall (fun a => Ascii.eqb a c = false) l ->
  Text.occurrences c (string_of_list_ascii l) = 0.
Proof.
  induction 1 as [|a l Ha _ IH]; cbn [string_of_list_ascii Text.occurrences].
  - reflexivity.
  - rewrite Ha, IH. reflexivity.
Qed.

Lemma takeWhile_all (p : ascii -> bool) (l : list ascii) :
  Forall (fun a => p a = true) (takeWhile p l).
Proof.
  induction l as [|a l IH]; cbn [takeWhile]; [constructor|].
  destruct (p a) eqn:Ha; constructor; assumption.
Qed.

Lemma whenSet_written (value : string) (ps : list Part) (fieldname : string) :
  whenSet value (mkWriter ps None) fieldname = mkWriter (ps ++ optional fieldname value) None.
Proof. apply whenSet_parts. reflexivity. Qed.

Lemma WriteField_written (ps : list Part) (fieldname value : string) :
  WriteField (mkWriter ps None) fieldname value = mkWriter (ps ++ [FormField fieldname value]) None.
Proof. reflexivity. Qed.

Lemma granularities_written (gs : list string) (ps : list Part) :
  fold_left (fun w g => WriteField w "timestamp_granularities[]" g) gs (mkWriter ps None)
  = mkWriter (ps ++ map (FormField "timestamp_granularities[]") gs) None.
Proof. apply granularities_parts. reflexivity. Qed.

Lemma Base_plain (path : string) : plainName (Base path).
Proof.
  unfold plainName, Base.
  destruct (path =? EmptyString)%string.
  - split; [discriminate | left; reflexivity].
  - set (kept := takeWhile _ _).
    assert (Hall : Forall (fun a => Ascii.eqb a "/" = false) (rev kept)).
    { apply Forall_rev. unfold kept.
      eapply Forall_impl; [|apply takeWhile_all].
      intros a Ha. cbv beta in Ha. unfold isSeparator in Ha.
      apply negb_true_iff in Ha. exact Ha. }
    destruct (rev kept) as [|a l] eqn:Hkept.
    + split; [discriminate | right; reflexivity].
    + split.
      * cbn [string_of_list_ascii]. discriminate.
      * left. apply occurrences_none. exact Hall.
Qed.

End FormContents.

(** X16. The form [CreateTranscription] sends.  When the file can be
    opened and read to its end, one request is sent, a POST to
    [/audio/transcriptions] with the content type of the form and the
    bearer token, whose body is the form with, in this order: the part
    [file] holding every byte of the file under the last element of its
    path (never a directory: no slash in it unless the path is the root);
    [model], [language], [prompt] and [response_format], each only when not
    empty; [temperature] only when not zero; one [timestamp_granularities[]]
    field per granularity, in the order of the slice. *)
Theorem X16_transcription_form :
  forall (E : OpenAIForms.Env) (c : OpenAI.Client)
         (req : OpenAIForms.CreateTranscriptionRequest) (file : Reader),
    OpenAIForms.os_Open E (OpenAIForms.Transcription_File req) = Ok file ->
    final file = io_EOF ->
    OpenAIForms.checkRequest E "POST" (OpenAI.baseURL c ++ "/audio/transcriptions") = None ->
    let name := OpenAIForms.Base (OpenAIForms.Transcription_File req) in
    let form :=
      OpenAIForms.FormFile "file" name (pending file)
      :: FormText.optional "model" (OpenAIForms.Transcription_Model req)
      ++ FormText.optional "language" (OpenAIForms.Transcription_Language req)
      ++ FormText.optional "prompt" (OpenAIForms.Transcription_Prompt req)
      ++ FormText.optional "response_format" (OpenAIForms.Transcription_ResponseFormat req)
      ++ (if OpenAIForms.nonzero32 (OpenAIForms.Transcription_Temperature req)
          then [OpenAIForms.FormField "temperature"
                  (OpenAIForms.Sprintf_f E (OpenAIForms.Transcription_Temperature req))]
          else [])
      ++ map (OpenAIForms.FormField "timestamp_granularities[]")
           (OpenAIForms.Transcription_TimestampGranularities req) in
    FormText.plainName name
    /\ OpenAIForms.sent (OpenAIForms.CreateTranscription E c req)
       = [mkRequest "POST" (OpenAI.baseURL c ++ "/audio/transcriptions")
            [("Content-Type", OpenAIForms.FormDataContentType (OpenAIForms.boundary E));
             ("Authorization", "Bearer " ++ OpenAI.token c)%string]
            (OpenAIForms.render E (OpenAIForms.boundary E) form)].
Proof.
  intros E c req file Hopen Hend Hcheck name form.
  split; [apply Base_plain|].
  unfold OpenAIForms.CreateTranscription. cbv zeta.
  rewrite (proj2 (decodedForm_files E _ _)).
  assert (Hadded :
    OpenAIForms.AddFields E (OpenAIForms.TranscriptionForm req) OpenAIForms.NewWriter
    = OpenAIForms.mkAdded (OpenAIForms.mkWriter form None) [] None).
  { cbn [OpenAIForms.AddFields]. unfold OpenAIForms.Transcription_AddFields.
    rewrite Hopen. unfold OpenAIForms.CreateFormFile, OpenAIForms.NewWriter.
    cbn [OpenAIForms.broken OpenAIForms.parts].
    rewrite (Copy_parts [] "file" _ file), Hend. cbn [is_EOF]. cbv zeta.
    rewrite !whenSet_written.
    unfold OpenAIForms.deferClose. rewrite closeFile_only.
    destruct (OpenAIForms.nonzero32 (OpenAIForms.Transcription_Temperature req)).
    - rewrite WriteField_written, granularities_written. cbn [fst snd].
      unfold form, name. rewrite <- !app_assoc. reflexivity.
    - rewrite granularities_written. cbn [fst snd].
      unfold form, name. rewrite <- !app_assoc, app_nil_l. reflexivity. }
  unfold OpenAIForms.requestMultipartFormData. cbv zeta. rewrite Hadded.
  cbn [OpenAIForms.failure OpenAIForms.written OpenAIForms.Close OpenAIForms.broken].
  rewrite Hcheck. reflexivity.
Qed.

Lemma X16_transcription_form_witness :
  let E := SampleForms.env (mkResponse StatusOK (mkReader [] io_EOF)) in
  let req :=
    OpenAIForms.mkCreateTranscriptionRequest "/tmp/audio/talk.mp3" "whisper-1" EmptyString
      "a talk" EmptyString 0x3e4ccccd ["word"; "segment"] in
  FormText.plainName "talk.mp3"
  /\ OpenAIForms.sent (OpenAIForms.CreateTranscription E Sample.O.client req)
     = [mkRequest "POST" "https://api.openai.com/v1/audio/transcriptions"
          [("Content-Type", "multipart/form-data; boundary=7d4a1f");
           ("Authorization", "Bearer token")]
          (SampleForms.renderParts "7d4a1f"
             [OpenAIForms.FormFile "file" "talk.mp3" (B "ID3-audio-bytes");
              OpenAIForms.FormField "model" "whisper-1";
              OpenAIForms.FormField "prompt" "a talk";
              OpenAIForms.FormField "temperature" "0.200000";
              OpenAIForms.FormField "timestamp_granularities[]" "word";
              OpenAIForms.FormField "timestamp_granularities[]" "segment"])].
Proof.
  intros E req.
  apply (X16_transcription_form E Sample.O.client req (mkReader (B "ID3-audio-bytes") io_EOF)).
  - reflexivity.
  - reflexivity.
  - reflexivity.
Defined.
